(** * MedAssist_AI: scheduling core and no-show risk scorer

    A shallow embedding of [scheduling_service.py], [no_show_predictor.py],
    [database.py] and [models.py], and the properties of the availability
    engine, the booking state machine and the risk scorer.

    Conventions of the embedding.
    - A naive Python [datetime] is the number of microseconds since
      0001-01-01T00:00:00 (a [Z]); that day has ordinal 1 and is a Monday, as in
      [date.toordinal] and [date.weekday].  A [timedelta] is a number of
      microseconds.  The functions of the first part take the sums of
      [datetime] arithmetic as unbounded; [Ranged] has the slot walk, the
      availability and the booking with the range of [datetime] (years 1 to
      9999), outside of which Python raises [OverflowError].
    - A Python [float] is a binary64 primitive float, with the same
      round-to-nearest-even arithmetic.
    - A Python [str] is a string of ASCII characters: [len], [lower],
      [strip] and the digits that [strptime] accepts are those of ASCII
      text.
    - The JSON files behind [MedicalDatabase] are lists of records, in file
      order; every service call takes the database and returns the new one.
    - [uuid.uuid4()] and [datetime.now()] are arguments of the calls that use
      them.  A call that reads the clock more than once (the two timestamps
      of a new record, the age and the 90-day window of one prediction) is
      given one reading for all of them. *)

From Stdlib Require Import ZArith List String Ascii Bool Lia Sorted Floats.
From stdpp Require Import base gmap strings.
Import ListNotations.

Open Scope string_scope.
Open Scope Z_scope.

#[local] Set Warnings "-inexact-float".

(** ** Outcomes of a call *)

(** The exceptions that the modelled code lets escape: the [ValueError]s
    that it raises itself or that [strptime] raises, and the [OverflowError]
    of [datetime] arithmetic that leaves the years 1 to 9999. *)
Inductive exn : Type :=
| ValueError (msg : string)
| OverflowError.

(** The class of an exception, on which an [except] clause selects. *)
Definition class_name (e : exn) : string :=
  match e with
  | ValueError _ => "ValueError"
  | OverflowError => "OverflowError"
  end.

(** [str(e)], where the code fixes it: the text of an [OverflowError] is the
    interpreter's (CPython says "date value out of range") and is not part of
    the model. *)
Definition message (e : exn) : option string :=
  match e with
  | ValueError msg => Some msg
  | OverflowError => None
  end.

(** [NoReturn]: the call never returns to its caller normally (a [while] loop
    that cannot leave). *)
Inductive result (A : Type) : Type :=
| Ret (a : A)
| Raise (e : exn)
| NoReturn.
Arguments Ret {A} a.
Arguments Raise {A} e.
Arguments NoReturn {A}.

Definition bind {A B : Type} (r : result A) (k : A -> result B) : result B :=
  match r with
  | Ret a => k a
  | Raise e => Raise e
  | NoReturn => NoReturn
  end.

Notation "'let*' x ':=' r 'in' k" := (bind r (fun x => k))
  (at level 10, x name, r at level 100, k at level 200).

(** ** datetime, timedelta, time *)

Module Time.

Definition datetime := Z.
Definition timedelta := Z.

Definition us_per_second : Z := 1000000.
Definition us_per_minute : Z := 60 * us_per_second.
Definition us_per_hour : Z := 60 * us_per_minute.
Definition us_per_day : Z := 24 * us_per_hour.

(** [timedelta(minutes=m)] and [timedelta(days=d)]. *)
Definition minutes (m : Z) : timedelta := m * us_per_minute.
Definition days (d : Z) : timedelta := d * us_per_day.

(** [td.days]: Python normalises a timedelta so that the remainder is
    non-negative, which is floor division. *)
Definition td_days (td : timedelta) : Z := td / us_per_day.

(** [dt.date()], as the number of whole days since 0001-01-01. *)
Definition date (dt : datetime) : Z := dt / us_per_day.

(** [dt.weekday()]: Monday is 0. *)
Definition weekday (dt : datetime) : Z := date dt mod 7.

(** [dt.hour]. *)
Definition hour (dt : datetime) : Z := (dt mod us_per_day) / us_per_hour.

(** [dt.strftime('%A').lower()] in the C locale. *)
Definition day_name (dt : datetime) : string :=
  match weekday dt with
  | 0 => "monday"
  | 1 => "tuesday"
  | 2 => "wednesday"
  | 3 => "thursday"
  | 4 => "friday"
  | 5 => "saturday"
  | _ => "sunday"
  end.

(** A [datetime.time] with second and microsecond 0, which is all that
    [strptime(_, '%H:%M').time()] produces. *)
Record time : Type := mk_time { t_hour : Z; t_minute : Z }.

(** [datetime.combine(date_obj, t)]. *)
Definition combine (date_obj : Z) (t : time) : datetime :=
  date_obj * us_per_day + t_hour t * us_per_hour + t_minute t * us_per_minute.

Definition is_digit (c : ascii) : bool :=
  (48 <=? Z.of_nat (nat_of_ascii c)) && (Z.of_nat (nat_of_ascii c) <=? 57).

Definition digit (c : ascii) : Z := Z.of_nat (nat_of_ascii c) - 48.

(** The directive [%H] is the regular expression [2[0-3]|[0-1]\d|\d]. *)
Definition parse_H (s : string) : option (Z * string) :=
  match s with
  | String a (String b r) =>
      if is_digit a && is_digit b && (10 * digit a + digit b <? 24)
      then Some (10 * digit a + digit b, r)
      else if is_digit a then Some (digit a, String b r) else None
  | String a r => if is_digit a then Some (digit a, r) else None
  | EmptyString => None
  end.

(** The directive [%M] is the regular expression [[0-5]\d|\d]. *)
Definition parse_M (s : string) : option (Z * string) :=
  match s with
  | String a (String b r) =>
      if is_digit a && is_digit b && (digit a <? 6)
      then Some (10 * digit a + digit b, r)
      else if is_digit a then Some (digit a, String b r) else None
  | String a r => if is_digit a then Some (digit a, r) else None
  | EmptyString => None
  end.

Definition no_match (s : string) : exn :=
  ValueError ("time data '" ++ s ++ "' does not match format '%H:%M'")%string.

(** [datetime.strptime(s, '%H:%M').time()].  The messages are Python's, except
    that the data string is quoted as it is, without the escapes of [repr]. *)
Definition strptime_HM (s : string) : result time :=
  match parse_H s with
  | None => Raise (no_match s)
  | Some (h, String ":" r) =>
      match parse_M r with
      | None => Raise (no_match s)
      | Some (m, EmptyString) => Ret (mk_time h m)
      | Some (_, rest) =>
          Raise (ValueError ("unconverted data remains: " ++ rest)%string)
      end
  | Some _ => Raise (no_match s)
  end.

End Time.
Import Time.

(** ** models.py *)

Inductive AppointmentStatus : Type :=
| SCHEDULED | CONFIRMED | COMPLETED | CANCELLED | NO_SHOW | RESCHEDULED.

Inductive PatientStatus : Type :=
| ACTIVE | INACTIVE | HIGH_RISK.

Definition AppointmentStatus_eqb (a b : AppointmentStatus) : bool :=
  match a, b with
  | SCHEDULED, SCHEDULED | CONFIRMED, CONFIRMED | COMPLETED, COMPLETED
  | CANCELLED, CANCELLED | NO_SHOW, NO_SHOW | RESCHEDULED, RESCHEDULED => true
  | _, _ => false
  end.

(** [PatientStatus.value]. *)
Definition PatientStatus_value (s : PatientStatus) : string :=
  match s with
  | ACTIVE => "active"
  | INACTIVE => "inactive"
  | HIGH_RISK => "high_risk"
  end.

(** The fields of [Patient] that the scheduler and the scorer read or write;
    names, phone, email, address, notes, insurance status and creation time
    are carried along unchanged by every operation below and are left out. *)
Record Patient : Type := mk_Patient {
  p_id : string;
  date_of_birth : datetime;
  emergency_contact : string;
  insurance_provider : string;
  insurance_number : string;
  p_status : PatientStatus;
  no_show_count : Z;
  last_appointment : option datetime;
  preferred_communication : string
}.

(** One entry of [Doctor.working_hours], such as
    [{"start": "09:00", "end": "17:00"}]. *)
Record Hours : Type := mk_Hours { wh_start : string; wh_end : string }.

Record Doctor : Type := mk_Doctor {
  d_id : string;
  working_hours : gmap string Hours;
  appointment_duration : Z;
  max_patients_per_day : Z;
  is_active : bool
}.

Record Appointment : Type := mk_Appointment {
  a_id : string;
  patient_id : string;
  doctor_id : string;
  appointment_datetime : datetime;
  duration : Z;
  a_status : AppointmentStatus;
  appointment_type : string;
  notes : string;
  insurance_verified : bool;
  reminder_sent : bool;
  confirmation_sent : bool;
  created_at : datetime;
  updated_at : datetime
}.

Record NoShowPrediction : Type := mk_NoShowPrediction {
  np_patient_id : string;
  np_appointment_id : string;
  risk_score : float;
  risk_factors : list string;
  prediction_date : datetime
}.

(** ** database.py *)

Record MedicalDatabase : Type := mk_db {
  patients : list Patient;
  doctors : list Doctor;
  appointments : list Appointment;
  predictions : list NoShowPrediction
}.

(** The loop [for x in xs: if x['id'] == id: return x] followed by
    [return None]. *)
Fixpoint first_with {A : Type} (key : A -> string) (k : string) (xs : list A)
  : option A :=
  match xs with
  | [] => None
  | x :: xs' => if String.eqb (key x) k then Some x else first_with key k xs'
  end.

(** The loop [for i, x in enumerate(xs): if x['id'] == new.id: xs[i] = new;
    save; return True] followed by [return False]. *)
Fixpoint replace_first {A : Type} (key : A -> string) (new : A) (xs : list A)
  : option (list A) :=
  match xs with
  | [] => None
  | x :: xs' =>
      if String.eqb (key x) (key new) then Some (new :: xs')
      else option_map (cons x) (replace_first key new xs')
  end.

Definition get_patient (db : MedicalDatabase) (id : string) : option Patient :=
  first_with p_id id (patients db).

Definition get_doctor (db : MedicalDatabase) (id : string) : option Doctor :=
  first_with d_id id (doctors db).

Definition get_appointment (db : MedicalDatabase) (id : string)
  : option Appointment :=
  first_with a_id id (appointments db).

Definition add_patient (db : MedicalDatabase) (p : Patient)
  : bool * MedicalDatabase :=
  if existsb (fun q => String.eqb (p_id q) (p_id p)) (patients db)
  then (false, db)
  else (true, mk_db (patients db ++ [p]) (doctors db) (appointments db)
                    (predictions db)).

Definition update_patient (db : MedicalDatabase) (p : Patient)
  : bool * MedicalDatabase :=
  match replace_first p_id p (patients db) with
  | Some ps => (true, mk_db ps (doctors db) (appointments db) (predictions db))
  | None => (false, db)
  end.

Definition add_appointment (db : MedicalDatabase) (a : Appointment)
  : bool * MedicalDatabase :=
  if existsb (fun b => String.eqb (a_id b) (a_id a)) (appointments db)
  then (false, db)
  else (true, mk_db (patients db) (doctors db) (appointments db ++ [a])
                    (predictions db)).

Definition update_appointment (db : MedicalDatabase) (a : Appointment)
  : bool * MedicalDatabase :=
  match replace_first a_id a (appointments db) with
  | Some l => (true, mk_db (patients db) (doctors db) l (predictions db))
  | None => (false, db)
  end.

(** Python's truth value of an optional string filter: [None] and [""] are
    both false, so the filter is skipped for them. *)
Definition str_filter (f : option string) (v : string) : bool :=
  match f with
  | Some s => negb (String.eqb s "") && negb (String.eqb v s)
  | None => false
  end.

(** One pass of the loop body of [get_appointments]: [true] when one of the
    four [continue] branches is taken.  A [datetime] is always true. *)
Definition filtered_out (doctor_id' patient_id' : option string)
    (start_date end_date : option datetime) (a : Appointment) : bool :=
  str_filter doctor_id' (doctor_id a)
  || str_filter patient_id' (patient_id a)
  || match start_date with
     | Some s => appointment_datetime a <? s
     | None => false
     end
  || match end_date with
     | Some e => e <? appointment_datetime a
     | None => false
     end.

Definition get_appointments (db : MedicalDatabase)
    (doctor_id' patient_id' : option string)
    (start_date end_date : option datetime) : list Appointment :=
  List.filter
    (fun a => negb (filtered_out doctor_id' patient_id' start_date end_date a))
    (appointments db).

(** [add_no_show_prediction]: drop every stored prediction of the same
    appointment, then append. *)
Definition add_no_show_prediction (db : MedicalDatabase) (p : NoShowPrediction)
  : bool * MedicalDatabase :=
  let kept :=
    List.filter
      (fun q => negb (String.eqb (np_appointment_id q) (np_appointment_id p)))
      (predictions db) in
  (true, mk_db (patients db) (doctors db) (appointments db) (kept ++ [p])).

Definition get_no_show_prediction (db : MedicalDatabase) (id : string)
  : option NoShowPrediction :=
  first_with np_appointment_id id (predictions db).

(** ** scheduling_service.py *)

(** [appointment.status in [SCHEDULED, CONFIRMED]]. *)
Definition occupies (a : Appointment) : bool :=
  AppointmentStatus_eqb (a_status a) SCHEDULED
  || AppointmentStatus_eqb (a_status a) CONFIRMED.

(** The inner [for] loop of [get_available_slots].  [total_seconds()] is the
    difference in microseconds divided by 10^6; for two instants of one day
    the quotient is far below the size where rounding could reach the next
    integer, so comparing it with [appointment_duration * 60] is comparing the
    microseconds with [appointment_duration * 60 * 10^6]. *)
Definition slot_conflict (occupied_slots : list datetime)
    (appointment_duration : Z) (current_time : datetime) : bool :=
  existsb
    (fun occupied_slot =>
       Z.abs (current_time - occupied_slot)
       <? appointment_duration * 60 * us_per_second)
    occupied_slots.

(** The [while] loop of [get_available_slots], one iteration per unit of
    fuel; out of fuel with the loop condition still true is [NoReturn].
    The sums are those of unbounded integers; [Ranged.generate_slots] below
    is the loop with the range of [datetime]. *)
Fixpoint generate_slots (fuel : nat) (occupied_slots : list datetime)
    (appointment_duration : Z) (end_of_day current_time : datetime)
  : result (list datetime) :=
  match fuel with
  | O => NoReturn
  | S fuel' =>
      if current_time + minutes appointment_duration <=? end_of_day then
        let* rest := generate_slots fuel' occupied_slots appointment_duration
                       end_of_day
                       (current_time + minutes appointment_duration) in
        Ret (if slot_conflict occupied_slots appointment_duration current_time
             then rest else current_time :: rest)
      else Ret []
  end.

(** Iterations that the loop can make with a positive stride, plus the one
    that leaves it.  With a stride of zero or less the loop condition, once
    true, stays true (see [generate_slots_stuck]), so any amount of fuel gives
    the same outcome there. *)
Definition slots_fuel (appointment_duration : Z)
    (start_of_day end_of_day : datetime) : nat :=
  S (Z.to_nat ((end_of_day - start_of_day) / minutes appointment_duration)).

Definition get_available_slots (db : MedicalDatabase) (doctor_id' : string)
    (date' : datetime) (appointment_duration : Z) : result (list datetime) :=
  match get_doctor db doctor_id' with
  | None => Ret []
  | Some doctor =>
      match working_hours doctor !! day_name date' with
      | None => Ret []
      | Some hours =>
          let* start_time := strptime_HM (wh_start hours) in
          let* end_time := strptime_HM (wh_end hours) in
          let date_obj := date date' in
          let start_of_day := combine date_obj start_time in
          let end_of_day := combine date_obj end_time in
          let existing_appointments :=
            get_appointments db (Some doctor_id') None
              (Some start_of_day) (Some end_of_day) in
          let occupied_slots :=
            map appointment_datetime
              (List.filter occupies existing_appointments) in
          generate_slots
            (slots_fuel appointment_duration start_of_day end_of_day)
            occupied_slots appointment_duration end_of_day start_of_day
      end
  end.

(** [x in xs] for a list of datetimes. *)
Definition mem (x : datetime) (xs : list datetime) : bool :=
  existsb (Z.eqb x) xs.

(** [book_appointment]; [new_id] is the value of [uuid.uuid4()] and [now] the
    value of [datetime.now()] that the dataclass defaults read. *)
Definition book_appointment (db : MedicalDatabase) (new_id : string)
    (now : datetime) (patient_id' doctor_id' : string)
    (appointment_datetime' : datetime) (appointment_type' notes' : string)
  : result string * MedicalDatabase :=
  match get_patient db patient_id' with
  | None => (Raise (ValueError "Patient not found"), db)
  | Some _ =>
      match get_doctor db doctor_id' with
      | None => (Raise (ValueError "Doctor not found"), db)
      | Some doctor =>
          match get_available_slots db doctor_id' appointment_datetime'
                  (appointment_duration doctor) with
          | Raise e => (Raise e, db)
          | NoReturn => (NoReturn, db)
          | Ret available_slots =>
              if negb (mem appointment_datetime' available_slots)
              then (Raise (ValueError "Appointment slot not available"), db)
              else
                let appointment :=
                  mk_Appointment new_id patient_id' doctor_id'
                    appointment_datetime' (appointment_duration doctor)
                    SCHEDULED appointment_type' notes' false false false
                    now now in
                match add_appointment db appointment with
                | (true, db') => (Ret new_id, db')
                | (false, db') =>
                    (Raise (ValueError "Failed to book appointment"), db')
                end
          end
      end
  end.

Definition set_schedule (a : Appointment) (dt : datetime)
    (s : AppointmentStatus) (now : datetime) : Appointment :=
  mk_Appointment (a_id a) (patient_id a) (doctor_id a) dt (duration a) s
    (appointment_type a) (notes a) (insurance_verified a) (reminder_sent a)
    (confirmation_sent a) (created_at a) now.

Definition set_status (a : Appointment) (s : AppointmentStatus)
    (notes' : string) (now : datetime) : Appointment :=
  mk_Appointment (a_id a) (patient_id a) (doctor_id a)
    (appointment_datetime a) (duration a) s (appointment_type a) notes'
    (insurance_verified a) (reminder_sent a) (confirmation_sent a)
    (created_at a) now.

Definition reschedule_appointment (db : MedicalDatabase) (now : datetime)
    (appointment_id : string) (new_datetime : datetime)
  : result bool * MedicalDatabase :=
  match get_appointment db appointment_id with
  | None => (Ret false, db)
  | Some appointment =>
      match get_available_slots db (doctor_id appointment) new_datetime
              (duration appointment) with
      | Raise e => (Raise e, db)
      | NoReturn => (NoReturn, db)
      | Ret available_slots =>
          if negb (mem new_datetime available_slots) then (Ret false, db)
          else
            let (ok, db') :=
              update_appointment db
                (set_schedule appointment new_datetime RESCHEDULED now) in
            (Ret ok, db')
      end
  end.

Definition newline : string := String (ascii_of_nat 10) EmptyString.

(** [notes += f"\n<label>: {text}" if text else "\n<label>"]. *)
Definition annotate (notes' label text : string) : string :=
  (if String.eqb text "" then notes' ++ newline ++ label
   else notes' ++ newline ++ label ++ ": " ++ text)%string.

Definition cancel_appointment (db : MedicalDatabase) (now : datetime)
    (appointment_id reason : string) : bool * MedicalDatabase :=
  match get_appointment db appointment_id with
  | None => (false, db)
  | Some appointment =>
      update_appointment db
        (set_status appointment CANCELLED
           (annotate (notes appointment) "Cancelled" reason) now)
  end.

(** The patient update inside [mark_no_show]. *)
Definition count_no_show (p : Patient) : Patient :=
  let n := no_show_count p + 1 in
  mk_Patient (p_id p) (date_of_birth p) (emergency_contact p)
    (insurance_provider p) (insurance_number p)
    (if 3 <=? n then HIGH_RISK else p_status p)
    n (last_appointment p) (preferred_communication p).

Definition mark_no_show (db : MedicalDatabase) (now : datetime)
    (appointment_id : string) : bool * MedicalDatabase :=
  match get_appointment db appointment_id with
  | None => (false, db)
  | Some appointment =>
      let appointment' :=
        set_status appointment NO_SHOW (notes appointment) now in
      let db1 :=
        match get_patient db (patient_id appointment') with
        | Some patient => snd (update_patient db (count_no_show patient))
        | None => db
        end in
      update_appointment db1 appointment'
  end.

Definition set_last_appointment (p : Patient) (dt : datetime) : Patient :=
  mk_Patient (p_id p) (date_of_birth p) (emergency_contact p)
    (insurance_provider p) (insurance_number p) (p_status p)
    (no_show_count p) (Some dt) (preferred_communication p).

Definition complete_appointment (db : MedicalDatabase) (now : datetime)
    (appointment_id notes' : string) : bool * MedicalDatabase :=
  match get_appointment db appointment_id with
  | None => (false, db)
  | Some appointment =>
      let appointment' :=
        set_status appointment COMPLETED
          (annotate (notes appointment) "Completed" notes') now in
      let db1 :=
        match get_patient db (patient_id appointment') with
        | Some patient =>
            snd (update_patient db
                   (set_last_appointment patient
                      (appointment_datetime appointment')))
        | None => db
        end in
      update_appointment db1 appointment'
  end.

(** [register_patient]: the new record takes the dataclass defaults
    [status = ACTIVE], [no_show_count = 0], [last_appointment = None]. *)
Definition register_patient (db : MedicalDatabase) (new_id : string)
    (date_of_birth' : datetime)
    (emergency_contact' insurance_provider' insurance_number'
     preferred_communication' : string)
  : result string * MedicalDatabase :=
  let patient :=
    mk_Patient new_id date_of_birth' emergency_contact' insurance_provider'
      insurance_number' ACTIVE 0 None preferred_communication' in
  match add_patient db patient with
  | (true, db') => (Ret new_id, db')
  | (false, db') =>
      (Raise (ValueError
                "Failed to register patient - patient may already exist"),
       db')
  end.

(** ** scheduling_service.py within the range of datetime *)

(** The definitions above take [datetime] arithmetic as unbounded.  Python's
    [datetime] covers the years 1 to 9999 and its [timedelta] at most
    999999999 days either way; a sum or a constructor that leaves the range
    raises [OverflowError], which the slot walk and so [book_appointment] let
    escape.  [Ranged] has the three functions with this range; what they
    return, the functions above return as well ([generate_slots_in_range],
    [get_available_slots_in_range]). *)

(** [datetime.max], 9999-12-31 23:59:59.999999: the last microsecond of day
    3652058 after 0001-01-01.  [datetime.min] is 0. *)
Definition datetime_max : datetime := 3652059 * us_per_day - 1.

(** [timedelta(minutes=m)]: after normalisation the number of days must be
    within 999999999 of zero. *)
Definition timedelta_minutes (m : Z) : result timedelta :=
  if (-999999999 <=? td_days (minutes m))
     && (td_days (minutes m) <=? 999999999)
  then Ret (minutes m)
  else Raise OverflowError.

(** [dt + td] for a [datetime] and a [timedelta]. *)
Definition datetime_add (dt : datetime) (td : timedelta) : result datetime :=
  if (0 <=? dt + td) && (dt + td <=? datetime_max) then Ret (dt + td)
  else Raise OverflowError.

Module Ranged.

(** The [while] loop of [get_available_slots].  The loop condition builds
    [timedelta(minutes=appointment_duration)] and adds it to [current_time];
    either can raise.  The last statement of the body builds the same
    timedelta and the same sum again, which then succeed as they did in the
    condition. *)
Fixpoint generate_slots (fuel : nat) (occupied_slots : list datetime)
    (appointment_duration : Z) (end_of_day current_time : datetime)
  : result (list datetime) :=
  match fuel with
  | O => NoReturn
  | S fuel' =>
      let* step := timedelta_minutes appointment_duration in
      let* next := datetime_add current_time step in
      if next <=? end_of_day then
        let* rest := generate_slots fuel' occupied_slots appointment_duration
                       end_of_day next in
        Ret (if slot_conflict occupied_slots appointment_duration current_time
             then rest else current_time :: rest)
      else Ret []
  end.

(** Iterations after which the loop has been left or has raised: with a
    positive stride as in [slots_fuel] above; with a negative one the walk
    goes down from [start_of_day] and leaves the range below 0 at the latest.
    With a stride of zero the loop, once entered, is never left (see
    [generate_slots_zero]), whatever the fuel. *)
Definition slots_fuel (appointment_duration : Z)
    (start_of_day end_of_day : datetime) : nat :=
  if 0 <? appointment_duration
  then S (Z.to_nat ((end_of_day - start_of_day)
                    / minutes appointment_duration))
  else S (Z.to_nat (start_of_day / minutes (- appointment_duration))).

Definition get_available_slots (db : MedicalDatabase) (doctor_id' : string)
    (date' : datetime) (appointment_duration : Z) : result (list datetime) :=
  match get_doctor db doctor_id' with
  | None => Ret []
  | Some doctor =>
      match working_hours doctor !! day_name date' with
      | None => Ret []
      | Some hours =>
          let* start_time := strptime_HM (wh_start hours) in
          let* end_time := strptime_HM (wh_end hours) in
          let date_obj := date date' in
          let start_of_day := combine date_obj start_time in
          let end_of_day := combine date_obj end_time in
          let existing_appointments :=
            get_appointments db (Some doctor_id') None
              (Some start_of_day) (Some end_of_day) in
          let occupied_slots :=
            map appointment_datetime
              (List.filter occupies existing_appointments) in
          generate_slots
            (slots_fuel appointment_duration start_of_day end_of_day)
            occupied_slots appointment_duration end_of_day start_of_day
      end
  end.

(** [book_appointment], with [new_id] and [now] as above. *)
Definition book_appointment (db : MedicalDatabase) (new_id : string)
    (now : datetime) (patient_id' doctor_id' : string)
    (appointment_datetime' : datetime) (appointment_type' notes' : string)
  : result string * MedicalDatabase :=
  match get_patient db patient_id' with
  | None => (Raise (ValueError "Patient not found"), db)
  | Some _ =>
      match get_doctor db doctor_id' with
      | None => (Raise (ValueError "Doctor not found"), db)
      | Some doctor =>
          match get_available_slots db doctor_id' appointment_datetime'
                  (appointment_duration doctor) with
          | Raise e => (Raise e, db)
          | NoReturn => (NoReturn, db)
          | Ret available_slots =>
              if negb (mem appointment_datetime' available_slots)
              then (Raise (ValueError "Appointment slot not available"), db)
              else
                let appointment :=
                  mk_Appointment new_id patient_id' doctor_id'
                    appointment_datetime' (appointment_duration doctor)
                    SCHEDULED appointment_type' notes' false false false
                    now now in
                match add_appointment db appointment with
                | (true, db') => (Ret new_id, db')
                | (false, db') =>
                    (Raise (ValueError "Failed to book appointment"), db')
                end
          end
      end
  end.

End Ranged.

(** ** Python helpers of the scorer *)

(** [min(a, b)]: the first argument unless the second is smaller. *)
Definition py_min (a b : float) : float := if (b <? a)%float then b else a.

(** [max(a, b)]: the first argument unless the second is greater. *)
Definition py_max (a b : float) : float := if (a <? b)%float then b else a.

(** [float(n)] for an [int]; exact below 2^53 in absolute value, which every
    count and day difference here is. *)
Definition float_of_int (n : Z) : float :=
  if n <? 0 then (- of_uint63 (Uint63.of_Z (- n)))%float
  else of_uint63 (Uint63.of_Z n).

(** [n / m] on two [int]s, for a divisor that is not zero. *)
Definition int_truediv (n m : Z) : float :=
  (float_of_int n / float_of_int m)%float.

(** [len(xs)]. *)
Definition len {A : Type} (xs : list A) : Z := Z.of_nat (length xs).

(** [sum(1 for x in xs if f(x))]. *)
Definition sum_1_if {A : Type} (f : A -> bool) (xs : list A) : Z :=
  fold_left (fun acc x => if f x then acc + 1 else acc) xs 0.

(** [str.lower()] on ASCII. *)
Definition lower_char (c : ascii) : ascii :=
  let n := nat_of_ascii c in
  if (Nat.leb 65 n && Nat.leb n 90)%bool then ascii_of_nat (n + 32) else c.

Fixpoint lower (s : string) : string :=
  match s with
  | EmptyString => EmptyString
  | String c r => String (lower_char c) (lower r)
  end.

(** [c.isspace()] on ASCII: tab to carriage return, the four separators
    28 to 31, and the space. *)
Definition isspace (c : ascii) : bool :=
  let n := nat_of_ascii c in
  ((Nat.leb 9 n && Nat.leb n 13) || (Nat.leb 28 n && Nat.leb n 32))%bool.

Fixpoint lstrip (s : string) : string :=
  match s with
  | String c r => if isspace c then lstrip r else s
  | EmptyString => EmptyString
  end.

Fixpoint rstrip (s : string) : string :=
  match s with
  | String c r =>
      match rstrip r with
      | EmptyString => if isspace c then EmptyString else String c EmptyString
      | r' => String c r'
      end
  | EmptyString => EmptyString
  end.

(** [str.strip()]. *)
Definition strip (s : string) : string := rstrip (lstrip s).

(** [len(s)] for a string. *)
Definition str_len (s : string) : Z := Z.of_nat (String.length s).

(** ** no_show_predictor.py *)

Definition is_no_show (a : Appointment) : bool :=
  AppointmentStatus_eqb (a_status a) NO_SHOW.

(** The part of [_calculate_historical_risk] after the database read. *)
Definition historical_risk_of (now : datetime)
    (appointments' : list Appointment) : float :=
  if len appointments' <? 2 then 0.3%float
  else
    let no_shows := sum_1_if is_no_show appointments' in
    let total_appointments := len appointments' in
    let no_show_rate := int_truediv no_shows total_appointments in
    let recent_appointments :=
      List.filter (fun a => now - days 90 <? appointment_datetime a)
        appointments' in
    let no_show_rate :=
      match recent_appointments with
      | [] => no_show_rate
      | _ :: _ =>
          let recent_no_shows := sum_1_if is_no_show recent_appointments in
          let recent_no_show_rate :=
            int_truediv recent_no_shows (len recent_appointments) in
          (no_show_rate * 0.3 + recent_no_show_rate * 0.7)%float
      end in
    py_min 1.0%float (no_show_rate * 2)%float.

Definition _calculate_historical_risk (db : MedicalDatabase) (now : datetime)
    (patient : Patient) : float :=
  historical_risk_of now
    (get_appointments db None (Some (p_id patient)) None None).

(** The [if days_advance > 30 ... elif days_advance > 60 ...] statement of
    [_calculate_timing_risk]. *)
Definition advance_booking_risk (days_advance : Z) (risk : float) : float :=
  if 30 <? days_advance then (risk + 0.1)%float
  else if 60 <? days_advance then (risk + 0.2)%float
  else risk.

Definition _calculate_timing_risk (appointment : Appointment) : float :=
  let risk := 0.0%float in
  let appointment_time := appointment_datetime appointment in
  let weekday' := weekday appointment_time in
  let risk :=
    if weekday' =? 0 then (risk + 0.1)%float
    else if weekday' =? 4 then (risk + 0.15)%float
    else if 5 <=? weekday' then (risk + 0.2)%float
    else risk in
  let hour' := hour appointment_time in
  let risk :=
    if (hour' <? 9) || (16 <? hour') then (risk + 0.1)%float
    else if hour' =? 12 then (risk + 0.05)%float
    else risk in
  let days_advance := td_days (appointment_time - created_at appointment) in
  let risk := advance_booking_risk days_advance risk in
  let risk := if days_advance <? 1 then (risk + 0.15)%float else risk in
  py_min 1.0%float risk.

Definition _calculate_demographic_risk (now : datetime) (patient : Patient)
  : float :=
  let risk := 0.0%float in
  let age :=
    (float_of_int (td_days (now - date_of_birth patient)%Z) / 365.25)%float in
  let risk :=
    if (age <? 25)%float then (risk + 0.2)%float
    else if (age <? 35)%float then (risk + 0.1)%float
    else if (65 <? age)%float then (risk - 0.1)%float
    else risk in
  let risk :=
    if String.eqb (preferred_communication patient) "email"
    then (risk + 0.05)%float else risk in
  let risk :=
    if String.eqb (PatientStatus_value (p_status patient)) "high_risk"
    then (risk + 0.3)%float else risk in
  let risk :=
    if String.eqb (emergency_contact patient) ""
       || (str_len (strip (emergency_contact patient)) <? 5)
    then (risk + 0.1)%float else risk in
  py_max 0.0%float (py_min 1.0%float risk).

Definition unreliable_providers : list string :=
  ["medicaid"; "medicare"; "self_pay"].

Definition _calculate_financial_risk (patient : Patient)
    (appointment : Appointment) : float :=
  let risk := 0.0%float in
  let risk :=
    if negb (insurance_verified appointment) then (risk + 0.2)%float
    else risk in
  let risk :=
    if existsb (String.eqb (lower (insurance_provider patient)))
         unreliable_providers
    then (risk + 0.1)%float else risk in
  let risk :=
    if str_len (insurance_number patient) <? 5 then (risk + 0.15)%float
    else risk in
  py_min 1.0%float risk.

(** [if risk > 0.3: risk_factors.append(label)]. *)
Definition append_if_high (risk : float) (label : string)
    (risk_factors' : list string) : list string :=
  if (0.3 <? risk)%float then risk_factors' ++ [label] else risk_factors'.

Definition predict_no_show_risk (db : MedicalDatabase) (now : datetime)
    (patient_id' appointment_id : string)
  : result NoShowPrediction * MedicalDatabase :=
  match get_patient db patient_id', get_appointment db appointment_id with
  | Some patient, Some appointment =>
      let risk_factors' := [] in
      let risk_score' := 0.0%float in
      let historical_risk := _calculate_historical_risk db now patient in
      let risk_score' := (risk_score' + historical_risk * 0.4)%float in
      let risk_factors' :=
        append_if_high historical_risk "High historical no-show rate"
          risk_factors' in
      let timing_risk := _calculate_timing_risk appointment in
      let risk_score' := (risk_score' + timing_risk * 0.25)%float in
      let risk_factors' :=
        append_if_high timing_risk "Unfavorable appointment timing"
          risk_factors' in
      let demographic_risk := _calculate_demographic_risk now patient in
      let risk_score' := (risk_score' + demographic_risk * 0.2)%float in
      let risk_factors' :=
        append_if_high demographic_risk "Demographic risk factors"
          risk_factors' in
      let financial_risk := _calculate_financial_risk patient appointment in
      let risk_score' := (risk_score' + financial_risk * 0.15)%float in
      let risk_factors' :=
        append_if_high financial_risk "Insurance/financial concerns"
          risk_factors' in
      let risk_score' := py_max 0.0%float (py_min 1.0%float risk_score') in
      let prediction :=
        mk_NoShowPrediction patient_id' appointment_id risk_score'
          risk_factors' now in
      (Ret prediction, snd (add_no_show_prediction db prediction))
  | _, _ => (Raise (ValueError "Patient or appointment not found"), db)
  end.

(** ** models.py and database.py, the remaining functions *)

(** [timedelta(hours=h)]. *)
Definition hours (h : Z) : timedelta := h * us_per_hour.

(** [AppointmentStatus.value]. *)
Definition AppointmentStatus_value (s : AppointmentStatus) : string :=
  match s with
  | SCHEDULED => "scheduled"
  | CONFIRMED => "confirmed"
  | COMPLETED => "completed"
  | CANCELLED => "cancelled"
  | NO_SHOW => "no_show"
  | RESCHEDULED => "rescheduled"
  end.

(** [AppointmentStatus(v)], the lookup by value of [_dict_to_appointment]. *)
Definition AppointmentStatus_of_value (v : string)
  : result AppointmentStatus :=
  if String.eqb v "scheduled" then Ret SCHEDULED
  else if String.eqb v "confirmed" then Ret CONFIRMED
  else if String.eqb v "completed" then Ret COMPLETED
  else if String.eqb v "cancelled" then Ret CANCELLED
  else if String.eqb v "no_show" then Ret NO_SHOW
  else if String.eqb v "rescheduled" then Ret RESCHEDULED
  else Raise (ValueError ("'" ++ v ++ "' is not a valid AppointmentStatus")%string).

(** [PatientStatus(v)], the lookup by value of [_dict_to_patient]. *)
Definition PatientStatus_of_value (v : string) : result PatientStatus :=
  if String.eqb v "active" then Ret ACTIVE
  else if String.eqb v "inactive" then Ret INACTIVE
  else if String.eqb v "high_risk" then Ret HIGH_RISK
  else Raise (ValueError ("'" ++ v ++ "' is not a valid PatientStatus")%string).

Definition PatientStatus_eqb (a b : PatientStatus) : bool :=
  match a, b with
  | ACTIVE, ACTIVE | INACTIVE, INACTIVE | HIGH_RISK, HIGH_RISK => true
  | _, _ => false
  end.

Definition get_patients (db : MedicalDatabase) : list Patient := patients db.

Definition get_doctors (db : MedicalDatabase) : list Doctor := doctors db.

Definition add_doctor (db : MedicalDatabase) (d : Doctor)
  : bool * MedicalDatabase :=
  if existsb (fun e => String.eqb (d_id e) (d_id d)) (doctors db)
  then (false, db)
  else (true, mk_db (patients db) (doctors db ++ [d]) (appointments db)
                    (predictions db)).

(** [v in xs] for strings. *)
Definition str_in (v : string) (xs : list string) : bool :=
  existsb (String.eqb v) xs.

(** [MedicalDatabase.get_appointments_needing_reminders]. *)
Definition db_get_appointments_needing_reminders (db : MedicalDatabase)
    (now : datetime) (hours_before : Z) : list Appointment :=
  let cutoff_time := now + hours hours_before in
  List.filter
    (fun appointment =>
       str_in (AppointmentStatus_value (a_status appointment))
         ["scheduled"; "confirmed"]
       && (appointment_datetime appointment <=? cutoff_time)
       && negb (reminder_sent appointment))
    (get_appointments db None None None None).

(** [MedicalDatabase.get_appointments_needing_confirmation]. *)
Definition db_get_appointments_needing_confirmation (db : MedicalDatabase)
    (now : datetime) (hours_before : Z) : list Appointment :=
  let cutoff_time := now + hours hours_before in
  List.filter
    (fun appointment =>
       String.eqb (AppointmentStatus_value (a_status appointment)) "scheduled"
       && (appointment_datetime appointment <=? cutoff_time)
       && negb (confirmation_sent appointment))
    (get_appointments db None None None None).

(** [MedicalDatabase.get_high_risk_patients]. *)
Definition db_get_high_risk_patients (db : MedicalDatabase) : list Patient :=
  List.filter
    (fun p => String.eqb (PatientStatus_value (p_status p)) "high_risk")
    (get_patients db).

(** ** scheduling_service.py, the queries *)

(** [sorted(xs, key=lambda x: x.appointment_datetime)].  Python's sort is
    stable, and the result of a stable sort is fixed by the list and the
    keys, so the insertion sort below returns the list that [sorted]
    returns. *)
Fixpoint insert_by_datetime (x : Appointment) (xs : list Appointment)
  : list Appointment :=
  match xs with
  | [] => [x]
  | y :: xs' =>
      if appointment_datetime x <=? appointment_datetime y
      then x :: y :: xs'
      else y :: insert_by_datetime x xs'
  end.

Definition sorted_by_datetime (xs : list Appointment) : list Appointment :=
  fold_right insert_by_datetime [] xs.

Definition get_patient_appointments (db : MedicalDatabase) (now : datetime)
    (patient_id' : string) (upcoming_only : bool) : list Appointment :=
  let appointments' := get_appointments db None (Some patient_id') None None in
  let appointments' :=
    if upcoming_only
    then List.filter (fun a => now <? appointment_datetime a) appointments'
    else appointments' in
  sorted_by_datetime appointments'.

(** [datetime.combine(d, time.max)]: 23:59:59.999999 of the day. *)
Definition combine_max (date_obj : Z) : datetime :=
  date_obj * us_per_day + 23 * us_per_hour + 59 * us_per_minute
  + 59 * us_per_second + 999999.

Definition get_doctor_schedule (db : MedicalDatabase) (doctor_id' : string)
    (date' : datetime) : list Appointment :=
  let start_of_day := combine (date date') (mk_time 0 0) in
  let end_of_day := combine_max (date date') in
  let appointments' :=
    get_appointments db (Some doctor_id') None (Some start_of_day)
      (Some end_of_day) in
  sorted_by_datetime appointments'.

Definition get_appointments_needing_reminders (db : MedicalDatabase)
    (now : datetime) (hours_before : Z) : list Appointment :=
  let cutoff_time := now + hours hours_before in
  List.filter
    (fun appointment =>
       occupies appointment
       && (appointment_datetime appointment <=? cutoff_time)
       && negb (reminder_sent appointment))
    (get_appointments db None None None None).

Definition get_appointments_needing_confirmation (db : MedicalDatabase)
    (now : datetime) (hours_before : Z) : list Appointment :=
  let cutoff_time := now + hours hours_before in
  List.filter
    (fun appointment =>
       AppointmentStatus_eqb (a_status appointment) SCHEDULED
       && (appointment_datetime appointment <=? cutoff_time)
       && negb (confirmation_sent appointment))
    (get_appointments db None None None None).

Definition get_high_risk_patients (db : MedicalDatabase) : list Patient :=
  List.filter (fun p => PatientStatus_eqb (p_status p) HIGH_RISK)
    (get_patients db).

(** A value of the dictionary of [get_appointment_statistics]: an [int] or
    a [float]. *)
Inductive number : Type :=
| Int (n : Z)
| Float (x : float).

(** [stats[k]] read as an [int], for a key that is there. *)
Definition stat (stats : gmap string number) (k : string) : Z :=
  match stats !! k with
  | Some (Int n) => n
  | _ => 0
  end.

(** The loop body of [get_appointment_statistics]:
    [if status in stats: stats[status] += 1]. *)
Definition count_status (stats : gmap string number) (a : Appointment)
  : gmap string number :=
  let status := AppointmentStatus_value (a_status a) in
  match stats !! status with
  | Some (Int n) => <[status := Int (n + 1)]> stats
  | Some (Float x) => <[status := Float (x + 1)%float]> stats
  | None => stats
  end.

Definition get_appointment_statistics (db : MedicalDatabase)
    (start_date end_date : datetime) : gmap string number :=
  let appointments' :=
    get_appointments db None None (Some start_date) (Some end_date) in
  let stats : gmap string number :=
    list_to_map
      [("total_appointments", Int (len appointments'));
       ("scheduled", Int 0); ("confirmed", Int 0); ("completed", Int 0);
       ("cancelled", Int 0); ("no_shows", Int 0); ("rescheduled", Int 0)] in
  let stats := fold_left count_status appointments' stats in
  let total_attempted :=
    stat stats "completed" + stat stats "no_shows" + stat stats "cancelled" in
  <["no_show_rate" :=
      if 0 <? total_attempted
      then Float (int_truediv (stat stats "no_shows") total_attempted * 100)
      else Int 0]> stats.

(** ** no_show_predictor.py, the risk list *)

(** The loop of [get_high_risk_appointments] over the appointments that are
    still to be looked at; [high_risk_appointments] is the list built so
    far. *)
Fixpoint high_risk_loop (db : MedicalDatabase) (now : datetime)
    (risk_threshold : float) (todo : list Appointment)
    (high_risk_appointments : list (Appointment * NoShowPrediction))
  : result (list (Appointment * NoShowPrediction)) * MedicalDatabase :=
  match todo with
  | [] => (Ret high_risk_appointments, db)
  | appointment :: todo' =>
      if occupies appointment then
        let found :=
          match get_no_show_prediction db (a_id appointment) with
          | Some prediction => (Ret prediction, db)
          | None =>
              predict_no_show_risk db now (patient_id appointment)
                (a_id appointment)
          end in
        match found with
        | (Ret prediction, db') =>
            high_risk_loop db' now risk_threshold todo'
              (if (risk_threshold <=? risk_score prediction)%float
               then high_risk_appointments ++ [(appointment, prediction)]
               else high_risk_appointments)
        | (Raise e, db') => (Raise e, db')
        | (NoReturn, db') => (NoReturn, db')
        end
      else
        high_risk_loop db now risk_threshold todo' high_risk_appointments
  end.

Definition get_high_risk_appointments (db : MedicalDatabase) (now : datetime)
    (risk_threshold : float)
  : result (list (Appointment * NoShowPrediction)) * MedicalDatabase :=
  high_risk_loop db now risk_threshold
    (get_appointments db None None None None) [].

(** ** notification_service.py, reminders and confirmations *)

Definition set_reminder_sent (a : Appointment) (now : datetime)
  : Appointment :=
  mk_Appointment (a_id a) (patient_id a) (doctor_id a)
    (appointment_datetime a) (duration a) (a_status a) (appointment_type a)
    (notes a) (insurance_verified a) true (confirmation_sent a)
    (created_at a) now.

Definition set_confirmation_sent (a : Appointment) (now : datetime)
  : Appointment :=
  mk_Appointment (a_id a) (patient_id a) (doctor_id a)
    (appointment_datetime a) (duration a) (a_status a) (appointment_type a)
    (notes a) (insurance_verified a) (reminder_sent a) true
    (created_at a) now.

(** [send_appointment_reminder]; [delivered] is what the [_send_..._reminder]
    helper of the patient's channel returns: [True] after it has composed and
    printed the message, [False] when that raised. *)
Definition send_appointment_reminder (db : MedicalDatabase) (now : datetime)
    (delivered : bool) (appointment_id : string) : bool * MedicalDatabase :=
  match get_appointment db appointment_id with
  | None => (false, db)
  | Some appointment =>
      match get_patient db (patient_id appointment),
            get_doctor db (doctor_id appointment) with
      | Some _, Some _ =>
          if reminder_sent appointment then (true, db)
          else if delivered
          then (true,
                snd (update_appointment db
                       (set_reminder_sent appointment now)))
          else (false, db)
      | _, _ => (false, db)
      end
  end.

(** [send_appointment_confirmation], with [delivered] as above. *)
Definition send_appointment_confirmation (db : MedicalDatabase)
    (now : datetime) (delivered : bool) (appointment_id : string)
  : bool * MedicalDatabase :=
  match get_appointment db appointment_id with
  | None => (false, db)
  | Some appointment =>
      match get_patient db (patient_id appointment),
            get_doctor db (doctor_id appointment) with
      | Some _, Some _ =>
          if confirmation_sent appointment then (true, db)
          else if delivered
          then (true,
                snd (update_appointment db
                       (set_confirmation_sent appointment now)))
          else (false, db)
      | _, _ => (false, db)
      end
  end.

(** * Vocabulary of the properties *)

(** ** Availability and booking *)

(** The working window that [get_available_slots] builds for a doctor and a
    date: [start_of_day] and [end_of_day], when the doctor exists, has an
    entry for the weekday and both of its bounds parse. *)
Definition working_window (db : MedicalDatabase) (doctor_id' : string)
    (date' : datetime) : option (datetime * datetime) :=
  match get_doctor db doctor_id' with
  | Some doctor =>
      match working_hours doctor !! day_name date' with
      | Some hours =>
          match strptime_HM (wh_start hours), strptime_HM (wh_end hours) with
          | Ret start_time, Ret end_time =>
              Some (combine (date date') start_time,
                    combine (date date') end_time)
          | _, _ => None
          end
      | None => None
      end
  | None => None
  end.

(** The [occupied_slots] list that [get_available_slots] builds. *)
Definition occupied_in (db : MedicalDatabase) (doctor_id' : string)
    (start_of_day end_of_day : datetime) : list datetime :=
  map appointment_datetime
    (List.filter occupies
       (get_appointments db (Some doctor_id') None
          (Some start_of_day) (Some end_of_day))).

(** An appointment counts for a query when it passes the filters of
    [get_appointments] and has a status that occupies its slot. *)
Definition counted (doctor_id' : string) (ws we : datetime)
    (b : Appointment) : bool :=
  negb (filtered_out (Some doctor_id') None (Some ws) (Some we) b)
  && occupies b.

(** The record that [book_appointment] creates. *)
Definition new_appointment (new_id : string) (now : datetime)
    (patient_id' doctor_id' : string) (dt : datetime) (d : Z)
    (appointment_type' notes' : string) : Appointment :=
  mk_Appointment new_id patient_id' doctor_id' dt d SCHEDULED
    appointment_type' notes' false false false now now.

(** ** The appointment file *)

(** [s] is a start of the walk over [ws, we] with stride [d]. *)
Definition on_grid (ws we : datetime) (d : Z) (s : datetime) : Prop :=
  (exists k, 0 <= k /\ s = ws + k * minutes d) /\ s + minutes d <= we.

(** What holds of every database that the service builds from one without
    appointments: ids are unique ([add_appointment] refuses a known id), an
    appointment has the duration of its doctor ([book_appointment] copies it
    and nothing changes it, nor any doctor), and an appointment that is still
    [SCHEDULED] sits where it was booked, on the grid of its doctor's
    window. *)
Record consistent (db : MedicalDatabase) : Prop := mk_consistent {
  ids_unique : NoDup (map a_id (appointments db));
  duration_of_doctor :
    forall a, In a (appointments db) ->
      exists doctor,
        get_doctor db (doctor_id a) = Some doctor
        /\ duration a = appointment_duration doctor;
  scheduled_on_grid :
    forall a, In a (appointments db) -> a_status a = SCHEDULED ->
      0 < duration a
      /\ exists ws we,
           working_window db (doctor_id a) (appointment_datetime a)
           = Some (ws, we)
           /\ on_grid ws we (duration a) (appointment_datetime a)
}.

(** The other appointments that occupy a slot and pass the doctor filter of
    a query for [a]'s doctor start at least [a]'s duration away from [a]. *)
Definition no_other_conflict (db : MedicalDatabase) (a : Appointment)
  : Prop :=
  forall b, In b (appointments db) -> a_id b <> a_id a ->
    occupies b = true ->
    str_filter (Some (doctor_id a)) (doctor_id b) = false ->
    minutes (duration a)
    <= Z.abs (appointment_datetime a - appointment_datetime b).

(** ** Operations *)

(** The calls that write to the database, with their arguments. *)
Inductive operation : Type :=
| RegisterPatient (new_id : string) (date_of_birth' : datetime)
    (emergency_contact' insurance_provider' insurance_number'
     preferred_communication' : string)
| Book (new_id : string) (now : datetime) (patient_id' doctor_id' : string)
    (appointment_datetime' : datetime) (appointment_type' notes' : string)
| Reschedule (now : datetime) (appointment_id : string)
    (new_datetime : datetime)
| Cancel (now : datetime) (appointment_id reason : string)
| MarkNoShow (now : datetime) (appointment_id : string)
| Complete (now : datetime) (appointment_id notes' : string)
| PredictRisk (now : datetime) (patient_id' appointment_id : string).

(** The database after a call, whatever the call returned or raised. *)
Definition run (op : operation) (db : MedicalDatabase) : MedicalDatabase :=
  match op with
  | RegisterPatient new_id dob ec ip inum pc =>
      snd (register_patient db new_id dob ec ip inum pc)
  | Book new_id now pid did t ty nt =>
      snd (book_appointment db new_id now pid did t ty nt)
  | Reschedule now id t => snd (reschedule_appointment db now id t)
  | Cancel now id reason => snd (cancel_appointment db now id reason)
  | MarkNoShow now id => snd (mark_no_show db now id)
  | Complete now id nt => snd (complete_appointment db now id nt)
  | PredictRisk now pid aid => snd (predict_no_show_risk db now pid aid)
  end.

(** ** The patient file *)

(** How one operation can change the patient file. *)
Inductive patients_change (ps : list Patient) : list Patient -> Prop :=
| pc_same : patients_change ps ps
| pc_no_show (p : Patient) (ps' : list Patient) :
    first_with p_id (p_id p) ps = Some p ->
    replace_first p_id (count_no_show p) ps = Some ps' ->
    patients_change ps ps'
| pc_visit (p : Patient) (dt : datetime) (ps' : list Patient) :
    first_with p_id (p_id p) ps = Some p ->
    replace_first p_id (set_last_appointment p dt) ps = Some ps' ->
    patients_change ps ps'
| pc_register (p : Patient) :
    p_status p = ACTIVE -> no_show_count p = 0 ->
    first_with p_id (p_id p) ps = None ->
    patients_change ps (ps ++ [p]).

(** The flag agrees with the counter: high risk exactly from three no-shows
    on. *)
Definition risk_flag_ok (p : Patient) : Prop :=
  p_status p = HIGH_RISK <-> 3 <= no_show_count p.

Definition high_risk_invariant (db : MedicalDatabase) : Prop :=
  forall p, In p (patients db) -> risk_flag_ok p.

(** ** Timing sub-score *)

(** [days_advance] of [_calculate_timing_risk]. *)
Definition days_advance (a : Appointment) : Z :=
  td_days (appointment_datetime a - created_at a).

(** The timing risk after the weekday and the hour steps. *)
Definition weekday_hour_risk (a : Appointment) : float :=
  let risk := 0.0%float in
  let risk :=
    if weekday (appointment_datetime a) =? 0 then (risk + 0.1)%float
    else if weekday (appointment_datetime a) =? 4 then (risk + 0.15)%float
    else if 5 <=? weekday (appointment_datetime a) then (risk + 0.2)%float
    else risk in
  if (hour (appointment_datetime a) <? 9)
     || (16 <? hour (appointment_datetime a))
  then (risk + 0.1)%float
  else if hour (appointment_datetime a) =? 12 then (risk + 0.05)%float
  else risk.

(** The advance-booking step as two independent [if] statements, both of
    which fire beyond 60 days: the reading under which a booking more than 60
    days ahead collects 0.10 and 0.20. *)
Definition advance_booking_risk_stacked (days_advance' : Z) (risk : float)
  : float :=
  let risk := if 30 <? days_advance' then (risk + 0.1)%float else risk in
  if 60 <? days_advance' then (risk + 0.2)%float else risk.

Definition timing_risk_stacked (a : Appointment) : float :=
  py_min 1.0%float
    (let risk :=
       advance_booking_risk_stacked (days_advance a) (weekday_hour_risk a) in
     if days_advance a <? 1 then (risk + 0.15)%float else risk).

(** ** Historical sub-score *)




(** The records that [_calculate_historical_risk] reads: every appointment
    that [get_appointments] returns for the patient's id, past or future, of
    any status. *)
Definition records_of (db : MedicalDatabase) (patient : Patient)
  : list Appointment :=
  get_appointments db None (Some (p_id patient)) None None.


(** ** Combined score and repeated prediction *)

(** The weighted sum of the four sub-scores, added from left to right. *)
Definition weighted_sum (h t d f : float) : float :=
  (h * 0.4 + t * 0.25 + d * 0.2 + f * 0.15)%float.

(** Equal, or both a zero of either sign. *)
Definition zeroish (x y : float) : Prop :=
  x = y
  \/ ((exists s, Prim2SF x = S754_zero s)
      /\ (exists s, Prim2SF y = S754_zero s)).

(** [x] clamped to [0, 1]: 0 when [x] is at most 0, [x] itself when it is
    between 0 and 1, and 1 from 1 on (and for [nan], which is neither). *)
Definition clamp01 (x : float) : float :=
  if (x <=? 0)%float then 0%float
  else if (x <? 1)%float then x
  else 1%float.

(** The four sub-scores with their labels, in the order of the source. *)
Definition labelled (h t d f : float) : list (float * string) :=
  [(h, "High historical no-show rate");
   (t, "Unfavorable appointment timing");
   (d, "Demographic risk factors");
   (f, "Insurance/financial concerns")].

(** The labels of the entries whose score is strictly above 0.3. *)
Definition labels_above (xs : list (float * string)) : list string :=
  map snd (List.filter (fun x => (0.3 <? fst x)%float) xs).

(** Two clock readings that the scorer cannot tell apart for a patient: the
    same age in whole days, and every appointment on record on the same side
    of the 90-day boundary. *)
Definition same_reading (db : MedicalDatabase) (patient : Patient)
    (now1 now2 : datetime) : Prop :=
  td_days (now1 - date_of_birth patient)
  = td_days (now2 - date_of_birth patient)
  /\ forall a, In a (records_of db patient) ->
       (now1 - days 90 <? appointment_datetime a)
       = (now2 - days 90 <? appointment_datetime a).

(** The score of a call that returned. *)
Definition score_of (r : result NoShowPrediction * MedicalDatabase)
  : option float :=
  match fst r with
  | Ret prediction => Some (risk_score prediction)
  | _ => None
  end.

(** ** The grid of a free day *)

(** The first [n] starts of the walk from [ws] with stride [d]. *)
Definition grid (ws : datetime) (d : Z) (n : nat) : list datetime :=
  map (fun k => ws + Z.of_nat k * minutes d) (seq 0 n).

(** ** What an appointment keeps for life *)

(** The fields that no operation writes after the booking. *)
Definition identity (a : Appointment)
  : string * string * string * Z * datetime :=
  (a_id a, patient_id a, doctor_id a, duration a, created_at a).

(** ** Order of a schedule *)

(** [a] does not start after [b]. *)
Definition starts_no_later (a b : Appointment) : Prop :=
  appointment_datetime a <= appointment_datetime b.

(** ** Counting by status *)

(** The number of appointments of a list that have status [s]. *)
Definition count_of (s : AppointmentStatus) (xs : list Appointment) : Z :=
  len (List.filter (fun a => AppointmentStatus_eqb (a_status a) s) xs).

(** Every value of the dictionary is an [int]. *)
Definition all_int (stats : gmap string number) : Prop :=
  forall k v, stats !! k = Some v -> exists n, v = Int n.

(** ** Double booking *)

(** No two stored appointments of one doctor that are both still
    [SCHEDULED] start closer to each other than the length of a slot. *)
Definition never_double_booked (db : MedicalDatabase) : Prop :=
  forall a b, In a (appointments db) -> In b (appointments db) ->
    a_id a <> a_id b ->
    a_status a = SCHEDULED -> a_status b = SCHEDULED ->
    doctor_id a = doctor_id b ->
    minutes (duration a)
    <= Z.abs (appointment_datetime a - appointment_datetime b).

(** ** What the schedule is made of *)

(** The fields of an appointment that bookings and availability read. *)
Definition booking (a : Appointment)
  : string * string * string * datetime * Z * AppointmentStatus :=
  (a_id a, patient_id a, doctor_id a, appointment_datetime a, duration a,
   a_status a).

(** ** The range of datetime *)

(** [t] is a value of Python's [datetime]. *)
Definition is_datetime (t : datetime) : Prop := 0 <= t <= datetime_max.

(** The last and largest sum that the loop condition of the slot walk
    computes for a positive stride: the first candidate end beyond
    [end_of_day]. *)
Definition last_probe (d : Z) (start_of_day end_of_day : datetime)
  : datetime :=
  start_of_day
  + (Z.max 0 ((end_of_day - start_of_day) / minutes d) + 1) * minutes d.

(** * Example data *)

(** One doctor, Monday to Friday 09:00 to 17:00, slots of 30 minutes;
    2024-01-01 is a Monday, day 738885 after 0001-01-01. *)

Module Clinic.

Definition week : gmap string Hours :=
  list_to_map
    (map (fun day => (day, mk_Hours "09:00" "17:00"))
       ["monday"; "tuesday"; "wednesday"; "thursday"; "friday"]).

Definition dr_lee : Doctor := mk_Doctor "doc-1" week 30 20 true.

(** Born 1984-01-01 (day 724275). *)
Definition jane : Patient :=
  mk_Patient "pat-1" (724275 * us_per_day) "John Roe 555-0100" "Aetna"
    "AET123456" ACTIVE 0 None "phone".

Definition monday : datetime := 738885 * us_per_day.
Definition at_time (day : datetime) (h m : Z) : datetime :=
  day + h * us_per_hour + m * us_per_minute.

Definition clinic : MedicalDatabase := mk_db [jane] [dr_lee] [] [].

End Clinic.

Module BookingExample.
Import Clinic.

Definition ten : datetime := at_time monday 10 0.
Definition booked_on : datetime := monday - days 5.

Definition slots : list datetime :=
  Eval vm_compute in
    match get_available_slots clinic "doc-1" ten 30 with
    | Ret l => l
    | _ => []
    end.

(** The clinic after [jane] has booked Monday 10:00 with [dr_lee]. *)
Definition clinic1 : MedicalDatabase :=
  Eval vm_compute in
    snd (book_appointment clinic "apt-1" booked_on "pat-1" "doc-1" ten
           "general" "").

End BookingExample.

Module LifecycleExample.
Import Clinic BookingExample.

Definition eleven : datetime := at_time monday 11 0.

(** [clinic1] after a second booking, Monday 11:00. *)
Definition clinic2 : MedicalDatabase :=
  Eval vm_compute in
    snd (book_appointment clinic1 "apt-2" booked_on "pat-1" "doc-1" eleven
           "follow_up" "").

Definition apt1 : Appointment :=
  new_appointment "apt-1" booked_on "pat-1" "doc-1" ten 30 "general" "".

Definition changed_on : datetime := monday - days 2.

(** [clinic1] after its appointment has moved to 11:00. *)
Definition moved : MedicalDatabase :=
  Eval vm_compute in
    snd (reschedule_appointment clinic1 changed_on "apt-1" eleven).

End LifecycleExample.

Module NoShowExample.
Import Clinic BookingExample LifecycleExample.

(** [clinic1] after its appointment has been marked as missed twice. *)
Definition two_missed : MedicalDatabase :=
  Eval vm_compute in
    run (MarkNoShow changed_on "apt-1")
      (run (MarkNoShow changed_on "apt-1") clinic1).

Definition jane2 : Patient :=
  mk_Patient "pat-1" (724275 * us_per_day) "John Roe 555-0100" "Aetna"
    "AET123456" ACTIVE 2 None "phone".

Definition apt1_missed : Appointment :=
  set_status apt1 NO_SHOW "" changed_on.

End NoShowExample.

Module TimingExample.
Import Clinic.

Definition tuesday_ten : datetime := at_time (monday + days 1) 10 0.

(** A Tuesday 10:00 appointment created [n] days before. *)
Definition booked_ahead (n : Z) : Appointment :=
  mk_Appointment "apt-5" "pat-1" "doc-1" tuesday_ten 30 SCHEDULED "general"
    "" true false false (tuesday_ten - days n) (tuesday_ten - days n).

End TimingExample.

Module HistoryExample.
Import Clinic.

Definition visit (id : string) (day : Z) (s : AppointmentStatus)
  : Appointment :=
  mk_Appointment id "pat-1" "doc-1" (at_time (monday + days day) 10 0) 30 s
    "general" "" true false false (monday + days (day - 7))
    (monday + days (day - 7)).

(** Two no-shows, 200 and 100 days before [monday], and one appointment
    booked for the week after. *)
Definition history : MedicalDatabase :=
  mk_db [jane] [dr_lee]
    [visit "apt-a" (-200) NO_SHOW; visit "apt-b" (-100) NO_SHOW;
     visit "apt-c" 7 SCHEDULED]
    [].


End HistoryExample.

Module ClockExample.
Import Clinic.

(** A patient who is 9131 days old on [monday]: 24.9993 years, and 25.0021
    years the day after. *)
Definition sam : Patient :=
  mk_Patient "pat-2" (monday - days 9131) "Ann Poe 555-0101" "Aetna"
    "AET654321" ACTIVE 0 None "phone".

Definition waiting : MedicalDatabase :=
  mk_db [sam] [dr_lee]
    [mk_Appointment "apt-5" "pat-2" "doc-1" (at_time (monday + days 8) 10 0)
       30 SCHEDULED "general" "" true false false (monday - days 1)
       (monday - days 1)]
    [].

End ClockExample.

Module RiskListExample.
Import Clinic HistoryExample.

(** The risk list of [history] on [monday] for a threshold of 0.1, and the
    database that the call leaves. *)
Definition listed : list (Appointment * NoShowPrediction) :=
  Eval vm_compute in
    match fst (get_high_risk_appointments history monday 0.1%float) with
    | Ret l => l
    | _ => []
    end.

Definition after : MedicalDatabase :=
  Eval vm_compute in
    snd (get_high_risk_appointments history monday 0.1%float).

End RiskListExample.

Module ScoreExample.
Import Clinic BookingExample LifecycleExample.

(** The four sub-scores of [jane]'s appointment in [clinic1], read on the day
    of the booking, and their weighted sum, 0.175. *)
Definition historical : float :=
  _calculate_historical_risk clinic1 booked_on jane.
Definition timing : float := _calculate_timing_risk apt1.
Definition demographic : float := _calculate_demographic_risk booked_on jane.
Definition financial : float := _calculate_financial_risk jane apt1.

Definition sum : float := weighted_sum historical timing demographic financial.

End ScoreExample.

Module OverflowExample.
Import Clinic.

(** A doctor whose appointments last 10^10 minutes, some nineteen thousand
    years. *)
Definition dr_long : Doctor := mk_Doctor "doc-1" week 10000000000 20 true.

Definition clinic : MedicalDatabase := mk_db [jane] [dr_long] [] [].

End OverflowExample.

(** * Properties *)

(** ** The slot walk *)

Section SlotWalk.

Variable occupied_slots : list datetime.
Variable d : Z.
Variable end_of_day : datetime.

Let walk (fuel : nat) (current_time : datetime) :=
  generate_slots fuel occupied_slots d end_of_day current_time.

Lemma minutes_pos : 0 < d -> 0 < minutes d.
Proof. unfold minutes, us_per_minute, us_per_second. lia. Qed.

(** With a stride of zero or less the loop never leaves once entered. *)
Lemma generate_slots_stuck (fuel : nat) (current_time : datetime) :
  d <= 0 -> current_time + minutes d <= end_of_day ->
  walk fuel current_time = NoReturn.
Proof.
  intros Hd. revert current_time.
  induction fuel as [|fuel IH]; intros cur Hc; [reflexivity|].
  unfold walk in *. simpl.
  destruct (Z.leb_spec (cur + minutes d) end_of_day) as [_|Hlt]; [|lia].
  rewrite IH; [reflexivity|].
  assert (minutes d <= 0)
    by (unfold minutes, us_per_minute, us_per_second; lia).
  lia.
Qed.

(** With a positive stride the fuel of [slots_fuel] is enough. *)
Lemma generate_slots_returns (fuel : nat) (current_time : datetime) :
  0 < d ->
  (Z.to_nat ((end_of_day - current_time) / minutes d) < fuel)%nat ->
  exists slots, walk fuel current_time = Ret slots.
Proof.
  intros Hd. pose proof (minutes_pos Hd) as Hm. revert current_time.
  induction fuel as [|fuel IH]; intros cur Hf; [lia|].
  unfold walk in *. simpl.
  destruct (Z.leb_spec (cur + minutes d) end_of_day) as [Hle|Hlt].
  - destruct (IH (cur + minutes d)) as [rest Hrest].
    + replace (end_of_day - (cur + minutes d))
        with (end_of_day - cur + (-1) * minutes d) by lia.
      rewrite Z.div_add by lia.
      assert (1 <= (end_of_day - cur) / minutes d)
        by (apply Z.div_le_lower_bound; lia).
      lia.
    + rewrite Hrest. simpl. eauto.
  - eauto.
Qed.

(** What a returned walk contains: the grid points from [current_time] on
    that leave room for one appointment and have no conflict. *)
Lemma generate_slots_In (fuel : nat) (current_time : datetime)
    (slots : list datetime) (s : datetime) :
  0 < d ->
  walk fuel current_time = Ret slots ->
  In s slots <->
  (exists k, 0 <= k /\ s = current_time + k * minutes d)
  /\ s + minutes d <= end_of_day
  /\ slot_conflict occupied_slots d s = false.
Proof.
  intros Hd. pose proof (minutes_pos Hd) as Hm.
  revert current_time slots.
  induction fuel as [|fuel IH]; intros cur slots Hw; [discriminate|].
  unfold walk in *. simpl in Hw.
  destruct (Z.leb_spec (cur + minutes d) end_of_day) as [Hle|Hlt].
  - destruct (generate_slots fuel occupied_slots d end_of_day
                (cur + minutes d)) as [rest| |] eqn:Hrest;
      simpl in Hw; try discriminate.
    specialize (IH _ _ Hrest).
    assert (Hgrid :
      (exists k, 0 <= k /\ s = cur + k * minutes d) <->
      s = cur \/ exists k, 0 <= k /\ s = cur + minutes d + k * minutes d).
    { split.
      - intros (k & Hk & ->).
        destruct (Z.eq_dec k 0) as [->|Hne]; [left; lia|].
        right. exists (k - 1). split; lia.
      - intros [->|(k & Hk & ->)].
        + exists 0. lia.
        + exists (k + 1). split; lia. }
    rewrite Hgrid.
    destruct (slot_conflict occupied_slots d cur) eqn:Hconf;
      injection Hw as <-.
    + rewrite IH. split.
      * intros (Hk & Hroom & Hfree). auto.
      * intros ([->|Hk] & Hroom & Hfree); [congruence|auto].
    + simpl. rewrite IH. split.
      * intros [<-|(Hk & Hroom & Hfree)]; auto.
      * intros ([->|Hk] & Hroom & Hfree); auto.
  - injection Hw as <-. simpl. split; [tauto|].
    intros ((k & Hk & ->) & Hroom & _). nia.
Qed.

Lemma generate_slots_sorted (fuel : nat) (current_time : datetime)
    (slots : list datetime) :
  0 < d ->
  walk fuel current_time = Ret slots ->
  StronglySorted Z.lt slots.
Proof.
  intros Hd. pose proof (minutes_pos Hd) as Hm.
  revert current_time slots.
  induction fuel as [|fuel IH]; intros cur slots Hw; [discriminate|].
  pose proof Hw as Hw'. unfold walk in *. simpl in Hw.
  destruct (Z.leb_spec (cur + minutes d) end_of_day) as [Hle|Hlt].
  - destruct (generate_slots fuel occupied_slots d end_of_day
                (cur + minutes d)) as [rest| |] eqn:Hrest;
      simpl in Hw; try discriminate.
    pose proof (IH _ _ Hrest) as Hsorted.
    destruct (slot_conflict occupied_slots d cur); injection Hw as <-;
      [assumption|].
    constructor; [assumption|].
    apply List.Forall_forall. intros s Hs.
    apply (generate_slots_In fuel (cur + minutes d) rest s Hd Hrest) in Hs.
    destruct Hs as ((k & Hk & ->) & _). nia.
  - injection Hw as <-. constructor.
Qed.

(** A walk that returns with a stride of zero or less returns nothing. *)
Lemma generate_slots_nonpos (fuel : nat) (current_time : datetime)
    (slots : list datetime) :
  d <= 0 -> walk fuel current_time = Ret slots -> slots = [].
Proof.
  intros Hd Hw. destruct fuel as [|fuel]; [discriminate|].
  destruct (Z.leb_spec (current_time + minutes d) end_of_day) as [Hle|Hlt].
  - rewrite (generate_slots_stuck (S fuel) current_time Hd Hle) in Hw.
    discriminate.
  - unfold walk in Hw. simpl in Hw.
    destruct (Z.leb_spec (current_time + minutes d) end_of_day); [lia|].
    congruence.
Qed.

End SlotWalk.

(** ** The availability engine *)

Lemma get_available_slots_walk (db : MedicalDatabase) (doctor_id' : string)
    (date' : datetime) (d : Z) (ws we : datetime) :
  working_window db doctor_id' date' = Some (ws, we) ->
  get_available_slots db doctor_id' date' d
  = generate_slots (slots_fuel d ws we) (occupied_in db doctor_id' ws we)
      d we ws.
Proof.
  unfold working_window, get_available_slots.
  destruct (get_doctor db doctor_id') as [doctor|]; [|discriminate].
  destruct (working_hours doctor !! day_name date') as [hours|];
    [|discriminate].
  destruct (strptime_HM (wh_start hours)) as [ts| |]; try discriminate.
  destruct (strptime_HM (wh_end hours)) as [te| |]; try discriminate.
  intros [= <- <-]. reflexivity.
Qed.

Lemma get_available_slots_returns (db : MedicalDatabase)
    (doctor_id' : string) (date' : datetime) (d : Z) (ws we : datetime) :
  working_window db doctor_id' date' = Some (ws, we) -> 0 < d ->
  exists slots, get_available_slots db doctor_id' date' d = Ret slots.
Proof.
  intros Hw Hd. rewrite (get_available_slots_walk _ _ _ _ _ _ Hw).
  apply generate_slots_returns; [assumption|]. unfold slots_fuel. lia.
Qed.

(** A returned list is not empty only for a positive duration. *)
Lemma get_available_slots_nonpos (db : MedicalDatabase) (doctor_id' : string)
    (date' : datetime) (d : Z) (slots : list datetime) :
  get_available_slots db doctor_id' date' d = Ret slots ->
  d <= 0 -> slots = [].
Proof.
  intros Hs Hd.
  destruct (working_window db doctor_id' date') as [[ws we]|] eqn:Hw.
  - rewrite (get_available_slots_walk _ _ _ _ _ _ Hw) in Hs.
    exact (generate_slots_nonpos _ _ _ _ _ _ Hd Hs).
  - revert Hw Hs. unfold working_window, get_available_slots.
    destruct (get_doctor db doctor_id') as [doctor|];
      [|intros _ [= <-]; reflexivity].
    destruct (working_hours doctor !! day_name date') as [hours|];
      [|intros _ [= <-]; reflexivity].
    destruct (strptime_HM (wh_start hours)) as [ts| |];
      [|intros _ Hs; discriminate Hs..].
    destruct (strptime_HM (wh_end hours)) as [te| |];
      intros Hw Hs; [discriminate Hw|discriminate Hs..].
Qed.

(** Membership in the availability output. *)
Lemma get_available_slots_In (db : MedicalDatabase) (doctor_id' : string)
    (date' : datetime) (d : Z) (ws we : datetime) (slots : list datetime)
    (s : datetime) :
  working_window db doctor_id' date' = Some (ws, we) -> 0 < d ->
  get_available_slots db doctor_id' date' d = Ret slots ->
  In s slots <->
  (exists k, 0 <= k /\ s = ws + k * minutes d)
  /\ s + minutes d <= we
  /\ slot_conflict (occupied_in db doctor_id' ws we) d s = false.
Proof.
  intros Hw Hd Hs. rewrite (get_available_slots_walk _ _ _ _ _ _ Hw) in Hs.
  exact (generate_slots_In _ _ _ _ _ _ _ Hd Hs).
Qed.

(** An available slot has a window and a positive duration behind it. *)
Lemma available_slot_inv (db : MedicalDatabase) (doctor_id' : string)
    (date' : datetime) (d : Z) (slots : list datetime) (s : datetime) :
  get_available_slots db doctor_id' date' d = Ret slots -> In s slots ->
  0 < d /\ exists ws we, working_window db doctor_id' date' = Some (ws, we).
Proof.
  intros Hs Hin. split.
  - destruct (Z.lt_ge_cases 0 d) as [|Hd]; [assumption|].
    rewrite (get_available_slots_nonpos _ _ _ _ _ Hs) in Hin by lia.
    destruct Hin.
  - revert Hs. unfold working_window, get_available_slots.
    destruct (get_doctor db doctor_id') as [doctor|];
      [|intros [= <-]; destruct Hin].
    destruct (working_hours doctor !! day_name date') as [hours|];
      [|intros [= <-]; destruct Hin].
    destruct (strptime_HM (wh_start hours)) as [ts| |]; try discriminate.
    destruct (strptime_HM (wh_end hours)) as [te| |]; try discriminate.
    eauto.
Qed.

Lemma mem_In (x : datetime) (xs : list datetime) :
  mem x xs = true <-> In x xs.
Proof.
  unfold mem. rewrite List.existsb_exists. split.
  - intros (y & Hy & Heq). apply Z.eqb_eq in Heq. subst y. exact Hy.
  - intros Hin. exists x. split; [assumption|apply Z.eqb_refl].
Qed.

(** C1. For a doctor with a working window [ws, we] on the weekday of the
    queried date and any duration [d]: a positive [d] makes
    [get_available_slots] return, and every list it returns holds only starts
    [s] with [ws <= s], [s + d <= we] and [s = ws + k*d] for some [k >= 0], in
    strictly increasing order. *)
Theorem available_slots_within_window (db : MedicalDatabase)
    (doctor_id' : string) (date' : datetime) (d : Z) (ws we : datetime) :
  working_window db doctor_id' date' = Some (ws, we) ->
  (0 < d ->
   exists slots, get_available_slots db doctor_id' date' d = Ret slots)
  /\ forall slots,
       get_available_slots db doctor_id' date' d = Ret slots ->
       (forall s, In s slots ->
          ws <= s /\ s + minutes d <= we
          /\ exists k, 0 <= k /\ s = ws + k * minutes d)
       /\ StronglySorted Z.lt slots.
Proof.
  intros Hw. split; [apply (get_available_slots_returns _ _ _ _ _ _ Hw)|].
  intros slots Hs.
  destruct (Z.lt_ge_cases 0 d) as [Hd|Hd].
  - split.
    + intros s Hin.
      apply (get_available_slots_In _ _ _ _ _ _ _ s Hw Hd Hs) in Hin.
      destruct Hin as ((k & Hk & ->) & Hroom & _).
      pose proof (minutes_pos d Hd).
      repeat split; [nia|assumption|eauto].
    + rewrite (get_available_slots_walk _ _ _ _ _ _ Hw) in Hs.
      exact (generate_slots_sorted _ _ _ _ _ _ Hd Hs).
  - rewrite (get_available_slots_nonpos _ _ _ _ _ Hs Hd).
    split; [intros s []|constructor].
Qed.

Lemma available_slots_within_window_witness :
  (0 < 30 ->
   exists slots,
     get_available_slots Clinic.clinic "doc-1" Clinic.monday 30 = Ret slots)
  /\ forall slots,
       get_available_slots Clinic.clinic "doc-1" Clinic.monday 30
       = Ret slots ->
       (forall s, In s slots ->
          Clinic.at_time Clinic.monday 9 0 <= s
          /\ s + minutes 30 <= Clinic.at_time Clinic.monday 17 0
          /\ exists k,
               0 <= k /\ s = Clinic.at_time Clinic.monday 9 0 + k * minutes 30)
       /\ StronglySorted Z.lt slots.
Proof.
  apply (available_slots_within_window Clinic.clinic "doc-1" Clinic.monday
           30 (Clinic.at_time Clinic.monday 9 0)
           (Clinic.at_time Clinic.monday 17 0)).
  vm_compute. reflexivity.
Defined.

(** ** The slot walk within the range of datetime *)

Lemma timedelta_minutes_in_range (m : Z) :
  0 <= minutes m <= datetime_max -> timedelta_minutes m = Ret (minutes m).
Proof.
  intros [Hlo Hhi]. unfold timedelta_minutes, td_days.
  assert (H0 : 0 <= minutes m / us_per_day)
    by (apply Z.div_pos; [assumption|reflexivity]).
  assert (H1 : minutes m / us_per_day <= 999999999).
  { apply Z.lt_succ_r. apply Z.div_lt_upper_bound; [reflexivity|].
    unfold datetime_max, us_per_day, us_per_hour, us_per_minute,
      us_per_second in *. lia. }
  destruct (Z.leb_spec (-999999999) (minutes m / us_per_day)); [|lia].
  destruct (Z.leb_spec (minutes m / us_per_day) 999999999); [|lia].
  reflexivity.
Qed.

Lemma datetime_add_in_range (dt : datetime) (td : timedelta) :
  0 <= dt + td <= datetime_max -> datetime_add dt td = Ret (dt + td).
Proof.
  intros [Hlo Hhi]. unfold datetime_add.
  destruct (Z.leb_spec 0 (dt + td)); [|lia].
  destruct (Z.leb_spec (dt + td) datetime_max); [|lia]. reflexivity.
Qed.

Lemma datetime_add_overflow (dt : datetime) (td : timedelta) :
  dt + td < 0 \/ datetime_max < dt + td ->
  datetime_add dt td = Raise OverflowError.
Proof.
  intros H. unfold datetime_add.
  destruct (Z.leb_spec 0 (dt + td)); [|reflexivity].
  destruct (Z.leb_spec (dt + td) datetime_max); [lia|reflexivity].
Qed.

Section RangedWalk.

Variable occupied_slots : list datetime.
Variable d : Z.
Variable end_of_day : datetime.

Let ranged_walk (fuel : nat) (current_time : datetime) :=
  Ranged.generate_slots fuel occupied_slots d end_of_day current_time.

(** What the walk returns within the range, the unbounded walk returns. *)
Lemma generate_slots_in_range (fuel : nat) (current_time : datetime)
    (slots : list datetime) :
  ranged_walk fuel current_time = Ret slots ->
  generate_slots fuel occupied_slots d end_of_day current_time = Ret slots.
Proof.
  revert current_time slots.
  induction fuel as [|fuel IH]; intros cur slots; [discriminate|].
  unfold ranged_walk in *. simpl. unfold timedelta_minutes, datetime_add.
  destruct (_ && _); [|discriminate]. simpl.
  destruct ((0 <=? cur + minutes d) && _); [|discriminate]. simpl.
  destruct (cur + minutes d <=? end_of_day); [|auto].
  destruct (Ranged.generate_slots fuel occupied_slots d end_of_day
              (cur + minutes d)) as [rest| |] eqn:Hrest;
    simpl; try discriminate.
  rewrite (IH _ _ Hrest). auto.
Qed.

(** With a stride of zero the loop, once entered, is never left. *)
Lemma generate_slots_zero (fuel : nat) (current_time : datetime) :
  d = 0 -> is_datetime current_time -> current_time <= end_of_day ->
  ranged_walk fuel current_time = NoReturn.
Proof.
  intros -> Hcur Hle. unfold ranged_walk.
  induction fuel as [|fuel IH]; [reflexivity|]. simpl.
  change (timedelta_minutes 0) with (Ret (A := timedelta) 0). simpl.
  rewrite datetime_add_in_range by (rewrite Z.add_0_r; exact Hcur).
  simpl. rewrite Z.add_0_r.
  destruct (Z.leb_spec current_time end_of_day); [|lia].
  rewrite IH. reflexivity.
Qed.

(** With a negative stride the walk goes down until a sum is below
    [datetime.min], if nothing overflows before. *)
Lemma generate_slots_negative (fuel : nat) (current_time : datetime) :
  d < 0 -> current_time + minutes d <= end_of_day ->
  (Z.to_nat (current_time / minutes (- d)) < fuel)%nat ->
  ranged_walk fuel current_time = Raise OverflowError.
Proof.
  intros Hd. unfold ranged_walk.
  assert (Hm : 0 < minutes (- d))
    by (unfold minutes, us_per_minute, us_per_second; lia).
  assert (Hneg : minutes d = - minutes (- d)) by (unfold minutes; lia).
  revert current_time.
  induction fuel as [|fuel IH]; intros cur Hfit Hf; [lia|]. simpl.
  destruct (timedelta_minutes d) as [step| |] eqn:Hstep;
    [|revert Hstep; unfold timedelta_minutes;
      destruct (_ && _); intros [= <-]; reflexivity
     |revert Hstep; unfold timedelta_minutes;
      destruct (_ && _); discriminate].
  assert (step = minutes d)
    by (revert Hstep; unfold timedelta_minutes; destruct (_ && _);
        congruence).
  subst step. simpl. unfold datetime_add.
  destruct (Z.leb_spec 0 (cur + minutes d)) as [Hlo|]; [|reflexivity].
  destruct (Z.leb_spec (cur + minutes d) datetime_max); [|reflexivity].
  simpl. destruct (Z.leb_spec (cur + minutes d) end_of_day); [|lia].
  rewrite IH; [reflexivity|lia|].
  rewrite Hneg.
  replace (cur + - minutes (- d)) with (cur + (-1) * minutes (- d)) by lia.
  rewrite Z.div_add by lia.
  assert (1 <= cur / minutes (- d))
    by (apply Z.div_le_lower_bound; lia).
  lia.
Qed.

(** With a positive stride, from a datetime and up to an end of day that is
    one, the walk within the range is the unbounded walk when its last sum is
    a datetime, and raises otherwise. *)
Lemma generate_slots_positive (fuel : nat) (current_time : datetime) :
  0 < d -> 0 <= current_time -> end_of_day <= datetime_max ->
  (Z.to_nat ((end_of_day - current_time) / minutes d) < fuel)%nat ->
  (last_probe d current_time end_of_day <= datetime_max ->
   ranged_walk fuel current_time
   = generate_slots fuel occupied_slots d end_of_day current_time)
  /\ (datetime_max < last_probe d current_time end_of_day ->
      ranged_walk fuel current_time = Raise OverflowError).
Proof.
  intros Hd Hcur0 Hend. unfold ranged_walk, last_probe.
  assert (Hm : 0 < minutes d)
    by (unfold minutes, us_per_minute, us_per_second; lia).
  revert current_time Hcur0.
  induction fuel as [|fuel IH]; intros cur Hcur Hf; [lia|].
  set (q := (end_of_day - cur) / minutes d) in *.
  assert (Hstepq : cur + minutes d <= end_of_day ->
            (end_of_day - (cur + minutes d)) / minutes d = q - 1 /\ 1 <= q).
  { intros Hle. split.
    - replace (end_of_day - (cur + minutes d))
        with (end_of_day - cur + (-1) * minutes d) by lia.
      rewrite Z.div_add by lia. unfold q. lia.
    - apply Z.div_le_lower_bound; lia. }
  assert (Hlastq : end_of_day < cur + minutes d -> q <= 0).
  { intros Hlt. apply Z.lt_succ_r. apply Z.div_lt_upper_bound; lia. }
  assert (Hprod : 0 <= Z.max 0 q * minutes d)
    by (apply Z.mul_nonneg_nonneg; lia).
  simpl. split.
  - intros Hprobe.
    rewrite Z.mul_add_distr_r in Hprobe.
    rewrite timedelta_minutes_in_range by lia. simpl.
    rewrite datetime_add_in_range by lia. simpl.
    destruct (Z.leb_spec (cur + minutes d) end_of_day) as [Hle|Hlt];
      [|reflexivity].
    destruct (Hstepq Hle) as [Hq Hq1].
    destruct (IH (cur + minutes d)) as [Hsame _]; [lia|lia|].
    rewrite Hsame; [reflexivity|].
    rewrite Hq. replace (Z.max 0 (q - 1)) with (q - 1) by lia.
    replace (Z.max 0 q) with q in Hprobe by lia. lia.
  - intros Hprobe.
    rewrite Z.mul_add_distr_r in Hprobe.
    destruct (timedelta_minutes d) as [step| |] eqn:Hstep;
      [|revert Hstep; unfold timedelta_minutes;
        destruct (_ && _); intros [= <-]; reflexivity
       |revert Hstep; unfold timedelta_minutes;
        destruct (_ && _); discriminate].
    assert (step = minutes d)
      by (revert Hstep; unfold timedelta_minutes; destruct (_ && _);
          congruence).
    subst step. simpl. unfold datetime_add.
    destruct (Z.leb_spec 0 (cur + minutes d)); [|reflexivity].
    destruct (Z.leb_spec (cur + minutes d) datetime_max) as [Hin|];
      [|reflexivity].
    simpl.
    destruct (Z.leb_spec (cur + minutes d) end_of_day) as [Hle|Hlt].
    + destruct (Hstepq Hle) as [Hq Hq1].
      destruct (IH (cur + minutes d)) as [_ Hover]; [lia|lia|].
      rewrite Hover; [reflexivity|].
      rewrite Hq. replace (Z.max 0 (q - 1)) with (q - 1) by lia.
      replace (Z.max 0 q) with q in Hprobe by lia. lia.
    + specialize (Hlastq Hlt).
      replace (Z.max 0 q) with 0 in Hprobe by lia. lia.
Qed.

(** A first sum beyond [datetime.max] raises at once. *)
Lemma ranged_walk_first_probe (fuel : nat) (current_time : datetime) :
  0 < d -> datetime_max < current_time + minutes d -> (0 < fuel)%nat ->
  ranged_walk fuel current_time = Raise OverflowError.
Proof.
  intros Hd Hover Hf. destruct fuel as [|fuel]; [lia|].
  unfold ranged_walk. simpl.
  unfold timedelta_minutes. destruct (_ && _); [|reflexivity]. simpl.
  rewrite datetime_add_overflow by lia. reflexivity.
Qed.

End RangedWalk.

Lemma ranged_get_available_slots_walk (db : MedicalDatabase)
    (doctor_id' : string) (date' : datetime) (d : Z) (ws we : datetime) :
  working_window db doctor_id' date' = Some (ws, we) ->
  Ranged.get_available_slots db doctor_id' date' d
  = Ranged.generate_slots (Ranged.slots_fuel d ws we)
      (occupied_in db doctor_id' ws we) d we ws.
Proof.
  unfold working_window, Ranged.get_available_slots.
  destruct (get_doctor db doctor_id') as [doctor|]; [|discriminate].
  destruct (working_hours doctor !! day_name date') as [hours|];
    [|discriminate].
  destruct (strptime_HM (wh_start hours)) as [ts| |]; try discriminate.
  destruct (strptime_HM (wh_end hours)) as [te| |]; try discriminate.
  intros [= <- <-]. reflexivity.
Qed.

(** What [get_available_slots] returns within the range, it returns with
    unbounded sums. *)
Lemma get_available_slots_in_range (db : MedicalDatabase)
    (doctor_id' : string) (date' : datetime) (d : Z)
    (slots : list datetime) :
  Ranged.get_available_slots db doctor_id' date' d = Ret slots ->
  get_available_slots db doctor_id' date' d = Ret slots.
Proof.
  destruct (working_window db doctor_id' date') as [[ws we]|] eqn:Hw.
  - rewrite (ranged_get_available_slots_walk _ _ _ _ _ _ Hw),
      (get_available_slots_walk _ _ _ _ _ _ Hw).
    intros Hs. apply generate_slots_in_range in Hs.
    destruct (Z.ltb_spec 0 d) as [Hd|Hd].
    + revert Hs. unfold Ranged.slots_fuel, slots_fuel.
      destruct (Z.ltb_spec 0 d); [auto|lia].
    + pose proof (generate_slots_nonpos _ _ _ _ _ _ Hd Hs) as ->.
      destruct (Z.leb_spec (ws + minutes d) we) as [Hle|Hlt].
      * rewrite (generate_slots_stuck _ _ _ _ _ Hd Hle) in Hs.
        discriminate.
      * unfold slots_fuel. simpl.
        destruct (Z.leb_spec (ws + minutes d) we); [lia|reflexivity].
  - revert Hw. unfold working_window, Ranged.get_available_slots,
      get_available_slots.
    destruct (get_doctor db doctor_id') as [doctor|]; [|auto].
    destruct (working_hours doctor !! day_name date') as [hours|]; [|auto].
    destruct (strptime_HM (wh_start hours)) as [ts| |]; try (simpl; auto).
    destruct (strptime_HM (wh_end hours)) as [te| |]; try (simpl; auto).
    discriminate.
Qed.

(** ** Lookup and replacement by id *)

Section ById.

Context {A : Type}.
Variable key : A -> string.

Lemma first_with_In (k : string) (xs : list A) (x : A) :
  first_with key k xs = Some x -> In x xs /\ key x = k.
Proof.
  induction xs as [|y xs IH]; simpl; [discriminate|].
  destruct (String.eqb_spec (key y) k) as [Heq|Hne].
  - intros [= <-]. auto.
  - intros H. destruct (IH H). auto.
Qed.

Lemma first_with_None (k : string) (xs : list A) :
  first_with key k xs = None <->
  existsb (fun x => String.eqb (key x) k) xs = false.
Proof.
  induction xs as [|y xs IH]; simpl; [tauto|].
  destruct (String.eqb (key y) k); simpl; [split; discriminate|exact IH].
Qed.

Lemma first_with_None_notin (k : string) (xs : list A) :
  first_with key k xs = None -> ~ In k (map key xs).
Proof.
  induction xs as [|y xs IH]; simpl; [tauto|].
  destruct (String.eqb_spec (key y) k); [discriminate|].
  intros H [Heq|Hin]; [congruence|exact (IH H Hin)].
Qed.

Lemma first_with_app (k : string) (xs ys : list A) :
  first_with key k (xs ++ ys)
  = match first_with key k xs with
    | Some x => Some x
    | None => first_with key k ys
    end.
Proof.
  induction xs as [|y xs IH]; simpl; [reflexivity|].
  destruct (String.eqb (key y) k); [reflexivity|exact IH].
Qed.

Lemma replace_first_Some (new : A) (xs : list A) (x : A) :
  first_with key (key new) xs = Some x ->
  exists ys, replace_first key new xs = Some ys.
Proof.
  induction xs as [|y xs IH]; simpl; [discriminate|].
  destruct (String.eqb (key y) (key new)); [eauto|].
  intros H. destruct (IH H) as [ys ->]. simpl. eauto.
Qed.

Lemma replace_first_keys (new : A) (xs ys : list A) :
  replace_first key new xs = Some ys -> map key ys = map key xs.
Proof.
  revert ys. induction xs as [|y xs IH]; intros ys; simpl; [discriminate|].
  destruct (String.eqb_spec (key y) (key new)) as [Heq|Hne].
  - intros [= <-]. simpl. congruence.
  - destruct (replace_first key new xs) as [ys'|]; [|discriminate].
    intros [= <-]. simpl. f_equal. auto.
Qed.

Lemma replace_first_In (new : A) (xs ys : list A) (y : A) :
  replace_first key new xs = Some ys -> In y ys -> y = new \/ In y xs.
Proof.
  revert ys. induction xs as [|x xs IH]; intros ys; simpl; [discriminate|].
  destruct (String.eqb (key x) (key new)).
  - intros [= <-] [<-|Hin]; auto.
  - destruct (replace_first key new xs) as [ys'|]; [|discriminate].
    intros [= <-] [<-|Hin]; [auto|].
    destruct (IH _ eq_refl Hin); auto.
Qed.

(** With unique ids, what is left of the old list has another id. *)
Lemma replace_first_In_other (new : A) (xs ys : list A) (y : A) :
  NoDup (map key xs) ->
  replace_first key new xs = Some ys -> In y ys ->
  y = new \/ (In y xs /\ key y <> key new).
Proof.
  revert ys. induction xs as [|x xs IH]; intros ys Hnd; simpl;
    [discriminate|].
  inversion Hnd as [|? ? Hnotin Hnd']; subst.
  destruct (String.eqb_spec (key x) (key new)) as [Heq|Hne].
  - intros [= <-] [<-|Hin]; [auto|]. right. split; [auto|].
    intros Hk. apply Hnotin, list_elem_of_In.
    rewrite Heq, <- Hk. apply in_map. exact Hin.
  - destruct (replace_first key new xs) as [ys'|]; [|discriminate].
    intros [= <-] [<-|Hin]; [auto|].
    destruct (IH _ Hnd' eq_refl Hin) as [|[? ?]]; auto.
Qed.

Lemma first_with_replace (new : A) (xs ys : list A) (k : string) :
  replace_first key new xs = Some ys ->
  first_with key k ys
  = if String.eqb k (key new) then Some new else first_with key k xs.
Proof.
  revert ys. induction xs as [|x xs IH]; intros ys; simpl; [discriminate|].
  destruct (String.eqb_spec (key x) (key new)) as [Heq|Hne].
  - intros [= <-]. simpl. rewrite Heq.
    destruct (String.eqb_spec k (key new)) as [Hk|Hk].
    + rewrite <- Hk, String.eqb_refl. reflexivity.
    + destruct (String.eqb_spec (key new) k); congruence.
  - destruct (replace_first key new xs) as [ys'|]; [|discriminate].
    intros [= <-]. simpl. rewrite (IH _ eq_refl).
    destruct (String.eqb_spec (key x) k) as [Hx|Hx]; [|reflexivity].
    destruct (String.eqb_spec k (key new)); congruence.
Qed.

End ById.

(** ** Conflicts and the occupied list *)

Lemma minutes_seconds (d : Z) : d * 60 * us_per_second = minutes d.
Proof. unfold minutes, us_per_minute. ring. Qed.

Lemma slot_conflict_false (occupied_slots : list datetime) (d : Z)
    (s : datetime) :
  slot_conflict occupied_slots d s = false <->
  forall o, In o occupied_slots -> minutes d <= Z.abs (s - o).
Proof.
  unfold slot_conflict. rewrite <- minutes_seconds.
  induction occupied_slots as [|o' occ IH]; simpl.
  - split; [intros _ o []|reflexivity].
  - rewrite orb_false_iff, IH, Z.ltb_ge. split.
    + intros [H1 H2] o [<-|Hin]; auto.
    + intros H. split; [|intros o Hin]; apply H; auto.
Qed.

Lemma slot_conflict_self (occupied_slots : list datetime) (d : Z)
    (s : datetime) :
  0 < d -> In s occupied_slots -> slot_conflict occupied_slots d s = true.
Proof.
  intros Hd Hin.
  destruct (slot_conflict occupied_slots d s) eqn:Hc; [reflexivity|].
  pose proof (proj1 (slot_conflict_false _ _ _) Hc s Hin) as H.
  pose proof (minutes_pos d Hd). rewrite Z.sub_diag in H. simpl in H. lia.
Qed.

Lemma occupied_in_In (db : MedicalDatabase) (doctor_id' : string)
    (ws we : datetime) (o : datetime) :
  In o (occupied_in db doctor_id' ws we) <->
  exists b, In b (appointments db) /\ counted doctor_id' ws we b = true
            /\ appointment_datetime b = o.
Proof.
  unfold occupied_in, get_appointments, counted. rewrite in_map_iff.
  split.
  - intros (b & Hdt & Hin). apply List.filter_In in Hin as [Hin Hocc].
    apply List.filter_In in Hin as [Hin Hpass].
    exists b. rewrite Hpass, Hocc. auto.
  - intros (b & Hin & Hc & Hdt). apply andb_true_iff in Hc as [Hpass Hocc].
    exists b. split; [assumption|].
    apply List.filter_In. split; [|assumption].
    apply List.filter_In. auto.
Qed.

(** The window depends on the doctors only. *)
Lemma working_window_doctors (db db' : MedicalDatabase) (doctor_id' : string)
    (date' : datetime) :
  doctors db' = doctors db ->
  working_window db' doctor_id' date' = working_window db doctor_id' date'.
Proof. unfold working_window, get_doctor. intros ->. reflexivity. Qed.

Lemma update_appointment_found (db : MedicalDatabase) (a b : Appointment) :
  get_appointment db (a_id a) = Some b ->
  exists l, replace_first a_id a (appointments db) = Some l
            /\ update_appointment db a
               = (true, mk_db (patients db) (doctors db) l (predictions db)).
Proof.
  intros Hget. unfold update_appointment.
  destruct (replace_first_Some a_id a (appointments db) b Hget) as [l ->].
  eauto.
Qed.

Lemma add_appointment_fresh (db : MedicalDatabase) (a : Appointment) :
  get_appointment db (a_id a) = None ->
  add_appointment db a
  = (true, mk_db (patients db) (doctors db) (appointments db ++ [a])
             (predictions db)).
Proof.
  intros Hnone. unfold add_appointment.
  apply first_with_None in Hnone. rewrite Hnone. reflexivity.
Qed.

(** ** Booking *)

Lemma book_appointment_success (db : MedicalDatabase) (new_id : string)
    (now : datetime) (pid did : string) (t : datetime) (ty nt : string)
    (p : Patient) (doctor : Doctor) (slots : list datetime) :
  get_patient db pid = Some p ->
  get_doctor db did = Some doctor ->
  get_available_slots db did t (appointment_duration doctor) = Ret slots ->
  In t slots ->
  get_appointment db new_id = None ->
  book_appointment db new_id now pid did t ty nt
  = (Ret new_id,
     mk_db (patients db) (doctors db)
       (appointments db
        ++ [new_appointment new_id now pid did t
              (appointment_duration doctor) ty nt])
       (predictions db)).
Proof.
  intros Hp Hd Hs Hin Hfresh. unfold book_appointment.
  rewrite Hp, Hd, Hs. apply mem_In in Hin. rewrite Hin. simpl.
  fold (new_appointment new_id now pid did t (appointment_duration doctor)
          ty nt).
  rewrite add_appointment_fresh by exact Hfresh. reflexivity.
Qed.

(** A counted appointment that starts at [t] takes [t] out of the output. *)
Lemma occupied_slot_unavailable (db : MedicalDatabase) (did : string)
    (t : datetime) (d : Z) (ws we : datetime) (b : Appointment)
    (slots : list datetime) :
  working_window db did t = Some (ws, we) ->
  In b (appointments db) -> counted did ws we b = true ->
  appointment_datetime b = t ->
  get_available_slots db did t d = Ret slots ->
  ~ In t slots.
Proof.
  intros Hw Hb Hc Hdt Hs Hin.
  destruct (available_slot_inv _ _ _ _ _ _ Hs Hin) as [Hd _].
  apply (get_available_slots_In _ _ _ _ _ _ _ t Hw Hd Hs) in Hin.
  destruct Hin as (_ & _ & Hfree).
  rewrite slot_conflict_self in Hfree; [discriminate|assumption|].
  apply occupied_in_In. eauto.
Qed.

(** C2. A datetime of the availability output, for an existing patient and
    doctor and a fresh id, is booked by the first call, which stores a
    scheduled appointment with the doctor's duration; after it, every call
    that books the same datetime with the same doctor, for any existing
    patient, is refused with the slot-not-available error and changes
    nothing. *)
Theorem book_available_slot_once (db : MedicalDatabase) (new_id : string)
    (now : datetime) (pid did : string) (t : datetime) (ty nt : string)
    (p : Patient) (doctor : Doctor) (slots : list datetime) :
  get_patient db pid = Some p ->
  get_doctor db did = Some doctor ->
  get_available_slots db did t (appointment_duration doctor) = Ret slots ->
  In t slots ->
  get_appointment db new_id = None ->
  exists db1,
    book_appointment db new_id now pid did t ty nt = (Ret new_id, db1)
    /\ get_appointment db1 new_id
       = Some (new_appointment new_id now pid did t
                 (appointment_duration doctor) ty nt)
    /\ forall id2 now2 pid2 ty2 nt2 p2,
         get_patient db1 pid2 = Some p2 ->
         book_appointment db1 id2 now2 pid2 did t ty2 nt2
         = (Raise (ValueError "Appointment slot not available"), db1).
Proof.
  intros Hp Hd Hs Hin Hfresh.
  eexists. split; [exact (book_appointment_success _ _ _ _ _ _ _ _ _ _ _
                            Hp Hd Hs Hin Hfresh)|].
  set (a := new_appointment new_id now pid did t
              (appointment_duration doctor) ty nt).
  set (db1 := mk_db _ _ _ _).
  split.
  - unfold get_appointment, db1. simpl. rewrite first_with_app.
    unfold get_appointment in Hfresh. rewrite Hfresh. simpl.
    rewrite String.eqb_refl. reflexivity.
  - intros id2 now2 pid2 ty2 nt2 p2 Hp2.
    destruct (available_slot_inv _ _ _ _ _ _ Hs Hin)
      as (Hpos & ws & we & Hw).
    pose proof (proj1 (get_available_slots_In _ _ _ _ _ _ _ t Hw Hpos Hs)
                  Hin) as ((k & Hk & Hgrid) & Hroom & _).
    pose proof (minutes_pos _ Hpos) as Hm.
    assert (Hw1 : working_window db1 did t = Some (ws, we))
      by (rewrite <- Hw; apply working_window_doctors; reflexivity).
    destruct (get_available_slots_returns _ _ _ _ _ _ Hw1 Hpos)
      as [slots1 Hs1].
    unfold book_appointment. rewrite Hp2.
    change (get_doctor db1 did) with (get_doctor db did).
    rewrite Hd, Hs1.
    assert (Hout : ~ In t slots1).
    { apply (occupied_slot_unavailable db1 did t
               (appointment_duration doctor) ws we a slots1 Hw1);
        [| |reflexivity|exact Hs1].
      - unfold db1. simpl. apply in_or_app. right. left. reflexivity.
      - unfold counted, filtered_out, str_filter, occupies. simpl.
        rewrite String.eqb_refl, andb_false_r. simpl.
        destruct (Z.ltb_spec t ws); [nia|].
        destruct (Z.ltb_spec we t); [lia|]. reflexivity. }
    destruct (mem t slots1) eqn:Hmem; [|reflexivity].
    apply mem_In in Hmem. contradiction.
Qed.

Lemma book_available_slot_once_witness :
  exists db1,
    book_appointment Clinic.clinic "apt-1" BookingExample.booked_on "pat-1"
      "doc-1" BookingExample.ten "general" "" = (Ret "apt-1", db1)
    /\ get_appointment db1 "apt-1"
       = Some (new_appointment "apt-1" BookingExample.booked_on "pat-1"
                 "doc-1" BookingExample.ten
                 (appointment_duration Clinic.dr_lee) "general" "")
    /\ forall id2 now2 pid2 ty2 nt2 p2,
         get_patient db1 pid2 = Some p2 ->
         book_appointment db1 id2 now2 pid2 "doc-1" BookingExample.ten ty2 nt2
         = (Raise (ValueError "Appointment slot not available"), db1).
Proof.
  apply (book_available_slot_once Clinic.clinic "apt-1"
           BookingExample.booked_on "pat-1" "doc-1" BookingExample.ten
           "general" "" Clinic.jane Clinic.dr_lee BookingExample.slots).
  - reflexivity.
  - reflexivity.
  - vm_compute. reflexivity.
  - vm_compute. tauto.
  - reflexivity.
Defined.

(** C8, as stated, fails: the code has no separate error kinds.  Booking
    for an unknown patient and booking a taken slot both raise the one class
    [ValueError]. *)
Lemma booking_errors_share_a_class :
  fst (book_appointment BookingExample.clinic1 "apt-9"
         BookingExample.booked_on "nobody" "doc-1" BookingExample.ten
         "general" "")
  = Raise (ValueError "Patient not found")
  /\ fst (book_appointment BookingExample.clinic1 "apt-9"
            BookingExample.booked_on "pat-1" "doc-1" BookingExample.ten
            "general" "")
     = Raise (ValueError "Appointment slot not available")
  /\ class_name (ValueError "Patient not found")
     = class_name (ValueError "Appointment slot not available").
Proof. repeat split; vm_compute; reflexivity. Qed.

(** C8, amended. [book_appointment] raises [ValueError] with the message
    "Patient not found" for an unknown patient and, the patient being known,
    "Doctor not found" for an unknown doctor; with the message "Appointment
    slot not available" when both are known and the datetime is not in the
    availability output for the doctor's default duration.  These failures
    are of the one class [ValueError] and differ by their message.  They are
    not the only ones: an exception that the availability computation raises
    escapes unchanged, and is the [OverflowError] of [datetime] when the
    doctor's duration takes the slot walk out of the range.  Whatever is
    raised, nothing has been written.  A call that succeeds returns the id of
    the appointment it has just stored. *)
Theorem book_appointment_outcomes (db : MedicalDatabase) (new_id : string)
    (now : datetime) (pid did : string) (t : datetime) (ty nt : string) :
  (get_patient db pid = None ->
   Ranged.book_appointment db new_id now pid did t ty nt
   = (Raise (ValueError "Patient not found"), db))
  /\ (forall p,
        get_patient db pid = Some p -> get_doctor db did = None ->
        Ranged.book_appointment db new_id now pid did t ty nt
        = (Raise (ValueError "Doctor not found"), db))
  /\ (forall p doctor slots,
        get_patient db pid = Some p -> get_doctor db did = Some doctor ->
        Ranged.get_available_slots db did t (appointment_duration doctor)
        = Ret slots ->
        ~ In t slots ->
        Ranged.book_appointment db new_id now pid did t ty nt
        = (Raise (ValueError "Appointment slot not available"), db))
  /\ (class_name (ValueError "Patient not found")
      = class_name (ValueError "Appointment slot not available")
      /\ class_name (ValueError "Doctor not found")
         = class_name (ValueError "Appointment slot not available")
      /\ message (ValueError "Patient not found")
         <> message (ValueError "Appointment slot not available")
      /\ message (ValueError "Doctor not found")
         <> message (ValueError "Appointment slot not available")
      /\ message (ValueError "Patient not found")
         <> message (ValueError "Doctor not found"))
  /\ (forall p doctor e,
        get_patient db pid = Some p -> get_doctor db did = Some doctor ->
        Ranged.get_available_slots db did t (appointment_duration doctor)
        = Raise e ->
        Ranged.book_appointment db new_id now pid did t ty nt
        = (Raise e, db))
  /\ (forall p doctor,
        get_patient db pid = Some p -> get_doctor db did = Some doctor ->
        0 < appointment_duration doctor ->
        (exists ws we,
           working_window db did t = Some (ws, we)
           /\ datetime_max < ws + minutes (appointment_duration doctor)) ->
        Ranged.book_appointment db new_id now pid did t ty nt
        = (Raise OverflowError, db))
  /\ (forall e db',
        Ranged.book_appointment db new_id now pid did t ty nt
        = (Raise e, db') ->
        db' = db
        /\ (e = ValueError "Patient not found"
            \/ e = ValueError "Doctor not found"
            \/ e = ValueError "Appointment slot not available"
            \/ e = ValueError "Failed to book appointment"
            \/ exists doctor,
                 get_doctor db did = Some doctor
                 /\ Ranged.get_available_slots db did t
                      (appointment_duration doctor) = Raise e))
  /\ (forall r db',
        Ranged.book_appointment db new_id now pid did t ty nt
        = (Ret r, db') ->
        r = new_id
        /\ exists a,
             get_appointment db' new_id = Some a
             /\ a_id a = new_id /\ patient_id a = pid /\ doctor_id a = did
             /\ appointment_datetime a = t
             /\ appointments db' = (appointments db ++ [a])%list).
Proof.
  unfold Ranged.book_appointment.
  split; [|split; [|split; [|split; [|split; [|split; [|split]]]]]].
  - intros ->. reflexivity.
  - intros p -> ->. reflexivity.
  - intros p doctor slots -> -> -> Hout.
    destruct (mem t slots) eqn:Hmem; [|reflexivity].
    apply mem_In in Hmem. contradiction.
  - repeat split; discriminate.
  - intros p doctor e -> -> ->. reflexivity.
  - intros p doctor -> -> Hd (ws & we & Hw & Hover).
    rewrite (ranged_get_available_slots_walk _ _ _ _ _ _ Hw).
    rewrite (ranged_walk_first_probe _ _ _ _ _ Hd Hover); [reflexivity|].
    unfold Ranged.slots_fuel. destruct (0 <? appointment_duration doctor);
      lia.
  - intros e db'.
    destruct (get_patient db pid); [|intros [= <- <-]; auto].
    destruct (get_doctor db did) as [doctor|]; [|intros [= <- <-]; auto].
    destruct (Ranged.get_available_slots db did t
                (appointment_duration doctor)) as [slots|e0|] eqn:Hs;
      try discriminate.
    + destruct (mem t slots); simpl; [|intros [= <- <-]; auto].
      unfold add_appointment. simpl.
      destruct (existsb _ (appointments db)); [|discriminate].
      intros [= <- <-]. auto 6.
    + intros [= <- <-]. split; [reflexivity|]. do 4 right. eauto.
  - intros r db'.
    destruct (get_patient db pid); [|discriminate].
    destruct (get_doctor db did) as [doctor|]; [|discriminate].
    destruct (Ranged.get_available_slots db did t
                (appointment_duration doctor)) as [slots| |];
      try discriminate.
    destruct (mem t slots); simpl; [|discriminate].
    unfold add_appointment. simpl.
    destruct (existsb _ (appointments db)) eqn:Hex; [discriminate|].
    intros [= <- <-]. split; [reflexivity|]. eexists.
    unfold get_appointment. simpl. rewrite first_with_app.
    apply first_with_None in Hex. rewrite Hex. simpl.
    rewrite String.eqb_refl. repeat split; reflexivity.
Qed.

Lemma book_appointment_outcomes_witness :
  Ranged.book_appointment BookingExample.clinic1 "apt-9"
    BookingExample.booked_on "nobody" "doc-1" BookingExample.ten "general" ""
  = (Raise (ValueError "Patient not found"), BookingExample.clinic1)
  /\ Ranged.book_appointment BookingExample.clinic1 "apt-9"
       BookingExample.booked_on "pat-1" "doc-7" BookingExample.ten "general"
       ""
     = (Raise (ValueError "Doctor not found"), BookingExample.clinic1)
  /\ Ranged.book_appointment BookingExample.clinic1 "apt-9"
       BookingExample.booked_on "pat-1" "doc-1" BookingExample.ten "general"
       ""
     = (Raise (ValueError "Appointment slot not available"),
        BookingExample.clinic1)
  /\ Ranged.book_appointment OverflowExample.clinic "apt-9"
       BookingExample.booked_on "pat-1" "doc-1" BookingExample.ten "general"
       ""
     = (Raise OverflowError, OverflowExample.clinic).
Proof.
  split; [|split; [|split]].
  - apply (proj1 (book_appointment_outcomes BookingExample.clinic1 "apt-9"
                    BookingExample.booked_on "nobody" "doc-1"
                    BookingExample.ten "general" "")).
    reflexivity.
  - apply (proj1 (proj2 (book_appointment_outcomes BookingExample.clinic1
                           "apt-9" BookingExample.booked_on "pat-1" "doc-7"
                           BookingExample.ten "general" ""))
             Clinic.jane); reflexivity.
  - apply (proj1 (proj2 (proj2 (book_appointment_outcomes
                                  BookingExample.clinic1 "apt-9"
                                  BookingExample.booked_on "pat-1" "doc-1"
                                  BookingExample.ten "general" "")))
             Clinic.jane Clinic.dr_lee
             (List.filter (fun s => negb (s =? BookingExample.ten))
                BookingExample.slots)).
    + reflexivity.
    + reflexivity.
    + vm_compute. reflexivity.
    + vm_compute. intuition discriminate.
  - apply (proj1 (proj2 (proj2 (proj2 (proj2 (proj2
             (book_appointment_outcomes OverflowExample.clinic "apt-9"
                BookingExample.booked_on "pat-1" "doc-1" BookingExample.ten
                "general" ""))))))
             Clinic.jane OverflowExample.dr_long).
    + reflexivity.
    + reflexivity.
    + reflexivity.
    + exists (Clinic.at_time Clinic.monday 9 0),
        (Clinic.at_time Clinic.monday 17 0).
      split; [vm_compute; reflexivity|vm_compute; reflexivity].
Defined.

(** ** The invariant of the appointment file *)

Lemma consistent_no_appointments (db : MedicalDatabase) :
  appointments db = [] -> consistent db.
Proof.
  intros H. split; rewrite H; simpl; [constructor|intros a []..].
Qed.

(** Only the appointments and the doctors matter. *)
Lemma consistent_same (db db' : MedicalDatabase) :
  appointments db' = appointments db -> doctors db' = doctors db ->
  consistent db -> consistent db'.
Proof.
  intros Ha Hd [Hu Hdur Hgrid].
  split; rewrite Ha; unfold get_doctor; try rewrite Hd; try assumption.
  intros a Hin Hs. destruct (Hgrid a Hin Hs) as (Hpos & ws & we & Hw & Hg).
  split; [assumption|]. exists ws, we. split; [|assumption].
  rewrite <- Hw. apply working_window_doctors. assumption.
Qed.

Lemma update_patient_fields (db : MedicalDatabase) (p : Patient) :
  appointments (snd (update_patient db p)) = appointments db
  /\ doctors (snd (update_patient db p)) = doctors db
  /\ predictions (snd (update_patient db p)) = predictions db.
Proof.
  unfold update_patient.
  destruct (replace_first p_id p (patients db)); simpl; auto.
Qed.

(** Rewriting a stored appointment into one that is not [SCHEDULED], with
    the same doctor and duration, keeps the invariant. *)
Lemma update_appointment_consistent (db db' : MedicalDatabase)
    (a a' : Appointment) (ok : bool) :
  consistent db ->
  get_appointment db (a_id a') = Some a ->
  doctor_id a' = doctor_id a -> duration a' = duration a ->
  a_status a' <> SCHEDULED ->
  update_appointment db a' = (ok, db') ->
  consistent db'.
Proof.
  intros [Hu Hdur Hgrid] Hget Hdoc Hd Hst Hup.
  destruct (update_appointment_found db a' a Hget) as (l & Hl & Heq).
  rewrite Heq in Hup. injection Hup as <- <-.
  destruct (first_with_In _ _ _ _ Hget) as [Hin _].
  split; simpl.
  - rewrite (replace_first_keys _ _ _ _ Hl). exact Hu.
  - intros b Hb. unfold get_doctor. simpl.
    destruct (replace_first_In _ _ _ _ _ Hl Hb) as [->|Hold].
    + rewrite Hdoc, Hd. exact (Hdur a Hin).
    + exact (Hdur b Hold).
  - intros b Hb Hs.
    destruct (replace_first_In _ _ _ _ _ Hl Hb) as [->|Hold];
      [contradiction|].
    exact (Hgrid b Hold Hs).
Qed.

Lemma book_appointment_consistent (db db' : MedicalDatabase)
    (new_id : string) (now : datetime) (pid did : string) (t : datetime)
    (ty nt : string) (r : result string) :
  consistent db ->
  book_appointment db new_id now pid did t ty nt = (r, db') ->
  consistent db'.
Proof.
  intros Hc. unfold book_appointment.
  destruct (get_patient db pid); [|intros [= _ <-]; exact Hc].
  destruct (get_doctor db did) as [doctor|] eqn:Hdoc;
    [|intros [= _ <-]; exact Hc].
  destruct (get_available_slots db did t (appointment_duration doctor))
    as [slots| |] eqn:Hs; try (intros [= _ <-]; exact Hc).
  destruct (mem t slots) eqn:Hmem; simpl; [|intros [= _ <-]; exact Hc].
  unfold add_appointment. simpl.
  destruct (existsb _ (appointments db)) eqn:Hex;
    [intros [= _ <-]; exact Hc|].
  intros [= _ <-]. destruct Hc as [Hu Hdur Hgrid].
  apply first_with_None in Hex. apply mem_In in Hmem.
  split; simpl.
  - rewrite map_app. apply NoDup_app. split; [exact Hu|]. split.
    + intros k Hk Hk'. apply list_elem_of_In in Hk, Hk'.
      destruct Hk' as [<-|[]].
      exact (first_with_None_notin _ _ _ Hex Hk).
    + apply NoDup_singleton.
  - intros b Hb. apply in_app_or in Hb as [Hb|[<-|[]]].
    + exact (Hdur b Hb).
    + simpl. eauto.
  - intros b Hb Hst. apply in_app_or in Hb as [Hb|[<-|[]]].
    + exact (Hgrid b Hb Hst).
    + simpl.
      destruct (available_slot_inv _ _ _ _ _ _ Hs Hmem)
        as (Hpos & ws & we & Hw).
      split; [assumption|]. exists ws, we. split; [exact Hw|].
      pose proof (proj1 (get_available_slots_In _ _ _ _ _ _ _ t Hw Hpos Hs)
                    Hmem) as (Hk & Hroom & _).
      split; assumption.
Qed.

Lemma cancel_appointment_consistent (db db' : MedicalDatabase)
    (now : datetime) (id reason : string) (ok : bool) :
  consistent db ->
  cancel_appointment db now id reason = (ok, db') ->
  consistent db'.
Proof.
  intros Hc. unfold cancel_appointment.
  destruct (get_appointment db id) as [a|] eqn:Hget;
    [|intros [= _ <-]; exact Hc].
  destruct (first_with_In _ _ _ _ Hget) as [_ Hid].
  apply (update_appointment_consistent db db' a); simpl;
    try rewrite Hid; try assumption; try reflexivity; discriminate.
Qed.

Lemma reschedule_appointment_consistent (db db' : MedicalDatabase)
    (now : datetime) (id : string) (t : datetime) (r : result bool) :
  consistent db ->
  reschedule_appointment db now id t = (r, db') ->
  consistent db'.
Proof.
  intros Hc. unfold reschedule_appointment.
  destruct (get_appointment db id) as [a|] eqn:Hget;
    [|intros [= _ <-]; exact Hc].
  destruct (get_available_slots db (doctor_id a) t (duration a))
    as [slots| |]; try (intros [= _ <-]; exact Hc).
  destruct (mem t slots); simpl; [|intros [= _ <-]; exact Hc].
  destruct (update_appointment db (set_schedule a t RESCHEDULED now))
    as [ok db1] eqn:Hup.
  intros [= _ <-].
  destruct (first_with_In _ _ _ _ Hget) as [_ Hid].
  apply (update_appointment_consistent db db1 a
           (set_schedule a t RESCHEDULED now) ok); simpl;
    try rewrite Hid; try assumption; try reflexivity; discriminate.
Qed.

Lemma mark_no_show_consistent (db db' : MedicalDatabase) (now : datetime)
    (id : string) (ok : bool) :
  consistent db ->
  mark_no_show db now id = (ok, db') ->
  consistent db'.
Proof.
  intros Hc. unfold mark_no_show.
  destruct (get_appointment db id) as [a|] eqn:Hget;
    [|intros [= _ <-]; exact Hc].
  destruct (first_with_In _ _ _ _ Hget) as [_ Hid].
  set (db1 := match get_patient db _ with Some _ => _ | None => db end).
  assert (H1 : appointments db1 = appointments db
               /\ doctors db1 = doctors db).
  { unfold db1. destruct (get_patient db _); [|auto].
    destruct (update_patient_fields db (count_no_show p)) as (? & ? & _).
    auto. }
  destruct H1 as [Happ Hdoc].
  apply (update_appointment_consistent db1 db' a); simpl;
    try reflexivity; try discriminate.
  - exact (consistent_same db db1 Happ Hdoc Hc).
  - unfold get_appointment. rewrite Happ, Hid. exact Hget.
Qed.

Lemma complete_appointment_consistent (db db' : MedicalDatabase)
    (now : datetime) (id nt : string) (ok : bool) :
  consistent db ->
  complete_appointment db now id nt = (ok, db') ->
  consistent db'.
Proof.
  intros Hc. unfold complete_appointment.
  destruct (get_appointment db id) as [a|] eqn:Hget;
    [|intros [= _ <-]; exact Hc].
  destruct (first_with_In _ _ _ _ Hget) as [_ Hid].
  set (db1 := match get_patient db _ with Some _ => _ | None => db end).
  assert (H1 : appointments db1 = appointments db
               /\ doctors db1 = doctors db).
  { unfold db1. destruct (get_patient db _); [|auto].
    destruct (update_patient_fields db
                (set_last_appointment p
                   (appointment_datetime
                      (set_status a COMPLETED
                         (annotate (notes a) "Completed" nt) now))))
      as (? & ? & _).
    auto. }
  destruct H1 as [Happ Hdoc].
  apply (update_appointment_consistent db1 db' a); simpl;
    try reflexivity; try discriminate.
  - exact (consistent_same db db1 Happ Hdoc Hc).
  - unfold get_appointment. rewrite Happ, Hid. exact Hget.
Qed.

Lemma predict_no_show_risk_consistent (db db' : MedicalDatabase)
    (now : datetime) (pid aid : string) (r : result NoShowPrediction) :
  consistent db ->
  predict_no_show_risk db now pid aid = (r, db') ->
  consistent db'.
Proof.
  intros Hc. unfold predict_no_show_risk.
  destruct (get_patient db pid); [|intros [= _ <-]; exact Hc].
  destruct (get_appointment db aid); intros [= _ <-]; [|exact Hc].
  apply (consistent_same db); [reflexivity..|exact Hc].
Qed.

Lemma register_patient_consistent (db db' : MedicalDatabase)
    (new_id : string) (dob : datetime) (ec ip inum pc : string)
    (r : result string) :
  consistent db ->
  register_patient db new_id dob ec ip inum pc = (r, db') ->
  consistent db'.
Proof.
  intros Hc. unfold register_patient, add_patient. simpl.
  destruct (existsb _ (patients db)); intros [= _ <-]; [exact Hc|].
  apply (consistent_same db); [reflexivity..|exact Hc].
Qed.

(** ** Cancel and reschedule *)

(** A grid point of the window that no counted appointment is close to is in
    the availability output. *)
Lemma slot_available (db : MedicalDatabase) (did : string) (t : datetime)
    (d : Z) (ws we : datetime) :
  working_window db did t = Some (ws, we) -> 0 < d ->
  on_grid ws we d t ->
  (forall b, In b (appointments db) -> counted did ws we b = true ->
     minutes d <= Z.abs (t - appointment_datetime b)) ->
  exists slots, get_available_slots db did t d = Ret slots /\ In t slots.
Proof.
  intros Hw Hd [Hk Hroom] Hfree.
  destruct (get_available_slots_returns _ _ _ _ _ _ Hw Hd) as [slots Hs].
  exists slots. split; [exact Hs|].
  apply (get_available_slots_In _ _ _ _ _ _ _ t Hw Hd Hs).
  repeat split; try assumption.
  apply slot_conflict_false. intros o Ho.
  apply occupied_in_In in Ho as (b & Hb & Hc & <-). auto.
Qed.

(** The converse, for the appointments that count. *)
Lemma available_slot_free (db : MedicalDatabase) (did : string)
    (t : datetime) (d : Z) (ws we : datetime) (slots : list datetime)
    (b : Appointment) :
  working_window db did t = Some (ws, we) ->
  get_available_slots db did t d = Ret slots -> In t slots ->
  In b (appointments db) -> counted did ws we b = true ->
  minutes d <= Z.abs (t - appointment_datetime b).
Proof.
  intros Hw Hs Hin Hb Hc.
  destruct (available_slot_inv _ _ _ _ _ _ Hs Hin) as [Hd _].
  apply (get_available_slots_In _ _ _ _ _ _ _ t Hw Hd Hs) in Hin.
  destruct Hin as (_ & _ & Hfree).
  apply (proj1 (slot_conflict_false _ _ _) Hfree).
  apply occupied_in_In. eauto.
Qed.

Lemma counted_occupies (did : string) (ws we : datetime) (b : Appointment) :
  counted did ws we b = true ->
  occupies b = true /\ str_filter (Some did) (doctor_id b) = false.
Proof.
  unfold counted, filtered_out. intros H.
  apply andb_true_iff in H as [Hpass Hocc]. split; [assumption|].
  apply negb_true_iff in Hpass.
  repeat (apply orb_false_iff in Hpass as [Hpass _]). exact Hpass.
Qed.

(** C7. Cancelling a [SCHEDULED] appointment of a consistent database, with
    no conflict from the other scheduled or confirmed appointments, succeeds,
    and the availability output for the same doctor, date and duration then
    contains the start of the cancelled appointment. *)
Theorem cancel_frees_slot (db : MedicalDatabase) (now : datetime)
    (id reason : string) (a : Appointment) :
  consistent db ->
  get_appointment db id = Some a ->
  a_status a = SCHEDULED ->
  no_other_conflict db a ->
  exists db' slots,
    cancel_appointment db now id reason = (true, db')
    /\ get_appointment db' id
       = Some (set_status a CANCELLED (annotate (notes a) "Cancelled" reason)
                 now)
    /\ get_available_slots db' (doctor_id a) (appointment_datetime a)
         (duration a) = Ret slots
    /\ In (appointment_datetime a) slots.
Proof.
  intros Hc Hget Hst Hfree.
  destruct (first_with_In _ _ _ _ Hget) as [Hin Hid].
  destruct (scheduled_on_grid db Hc a Hin Hst)
    as (Hpos & ws & we & Hw & Hgrid).
  set (a' := set_status a CANCELLED (annotate (notes a) "Cancelled" reason)
               now).
  assert (Hget' : get_appointment db (a_id a') = Some a)
    by (simpl; rewrite Hid; exact Hget).
  destruct (update_appointment_found db a' a Hget') as (l & Hl & Hup).
  set (db' := mk_db (patients db) (doctors db) l (predictions db)) in *.
  assert (Hw' : working_window db' (doctor_id a) (appointment_datetime a)
                = Some (ws, we))
    by (rewrite <- Hw; apply working_window_doctors; reflexivity).
  destruct (slot_available db' (doctor_id a) (appointment_datetime a)
              (duration a) ws we Hw' Hpos Hgrid) as (slots & Hs & Hslot).
  { intros b Hb Hcount.
    destruct (counted_occupies _ _ _ _ Hcount) as [Hocc Hdoc].
    destruct (replace_first_In_other a_id a' _ _ b (ids_unique db Hc) Hl Hb)
      as [->|[Hold Hne]]; [discriminate Hocc|].
    apply Hfree; assumption. }
  exists db', slots. unfold cancel_appointment. rewrite Hget.
  fold a'. rewrite Hup. repeat split; try assumption.
  unfold get_appointment, db'. simpl.
  rewrite (first_with_replace a_id a' _ _ id Hl). simpl.
  rewrite Hid, String.eqb_refl. reflexivity.
Qed.

(** The record that a successful reschedule stores, the availability of its
    new start, and the record of a booking of that start. *)
Lemma reschedule_then_book (db db' : MedicalDatabase)
    (now : datetime) (id : string) (t : datetime) (a : Appointment) :
  consistent db ->
  get_appointment db id = Some a ->
  reschedule_appointment db now id t = (Ret true, db') ->
  get_appointment db' id = Some (set_schedule a t RESCHEDULED now)
  /\ (exists slots,
        get_available_slots db' (doctor_id a) t (duration a) = Ret slots
        /\ In t slots)
  /\ forall new_id now2 pid p ty nt,
       get_patient db' pid = Some p ->
       get_appointment db' new_id = None ->
       exists db2,
         book_appointment db' new_id now2 pid (doctor_id a) t ty nt
         = (Ret new_id, db2)
         /\ get_appointment db2 id = Some (set_schedule a t RESCHEDULED now)
         /\ get_appointment db2 new_id
            = Some (new_appointment new_id now2 pid (doctor_id a) t
                      (duration a) ty nt).
Proof.
  intros Hc Hget Hres.
  destruct (first_with_In _ _ _ _ Hget) as [Hin Hid].
  unfold reschedule_appointment in Hres. rewrite Hget in Hres.
  destruct (get_available_slots db (doctor_id a) t (duration a))
    as [slots0| |] eqn:Hs0; try discriminate.
  destruct (mem t slots0) eqn:Hmem; simpl in Hres; [|discriminate].
  apply mem_In in Hmem.
  set (a' := set_schedule a t RESCHEDULED now) in *.
  assert (Hget' : get_appointment db (a_id a') = Some a)
    by (simpl; rewrite Hid; exact Hget).
  destruct (update_appointment_found db a' a Hget') as (l & Hl & Hup).
  rewrite Hup in Hres. injection Hres as <-.
  destruct (available_slot_inv _ _ _ _ _ _ Hs0 Hmem)
    as (Hpos & ws & we & Hw).
  set (db' := mk_db (patients db) (doctors db) l (predictions db)) in *.
  assert (Hw' : working_window db' (doctor_id a) t = Some (ws, we))
    by (rewrite <- Hw; apply working_window_doctors; reflexivity).
  assert (Hid' : get_appointment db' id = Some a').
  { unfold get_appointment, db'. simpl.
    rewrite (first_with_replace a_id a' _ _ id Hl). simpl.
    rewrite Hid, String.eqb_refl. reflexivity. }
  assert (Havail : exists slots,
             get_available_slots db' (doctor_id a) t (duration a) = Ret slots
             /\ In t slots).
  { apply (slot_available db' (doctor_id a) t (duration a) ws we Hw' Hpos).
    - pose proof (proj1 (get_available_slots_In _ _ _ _ _ _ _ t Hw Hpos Hs0)
                    Hmem) as (Hk & Hroom & _).
      split; assumption.
    - intros b Hb Hcount.
      destruct (counted_occupies _ _ _ _ Hcount) as [Hocc _].
      destruct (replace_first_In a_id a' _ _ b Hl Hb) as [->|Hold];
        [discriminate Hocc|].
      exact (available_slot_free db (doctor_id a) t (duration a) ws we
               slots0 b Hw Hs0 Hmem Hold Hcount). }
  split; [exact Hid'|]. split; [exact Havail|].
  intros new_id now2 pid p ty nt Hp Hfresh.
  destruct Havail as (slots & Hs & Hslot).
  destruct (duration_of_doctor db Hc a Hin) as (doctor & Hdoc & Hdur).
  rewrite Hdur in *.
  eexists. split.
  - apply (book_appointment_success db' new_id now2 pid (doctor_id a) t ty nt
             p doctor slots); assumption.
  - unfold get_appointment, db' in Hid', Hfresh |- *.
    simpl in Hid', Hfresh |- *.
    rewrite !first_with_app, Hid', Hfresh. simpl.
    rewrite String.eqb_refl. auto.
Qed.

Module LifecycleExampleFacts.
Import Clinic BookingExample LifecycleExample.

Lemma clinic_consistent : consistent clinic.
Proof. apply consistent_no_appointments. reflexivity. Qed.

Lemma clinic1_consistent : consistent clinic1.
Proof.
  apply (book_appointment_consistent clinic clinic1 "apt-1" booked_on "pat-1"
           "doc-1" ten "general" "" (Ret "apt-1") clinic_consistent).
  vm_compute. reflexivity.
Qed.

Lemma clinic2_consistent : consistent clinic2.
Proof.
  apply (book_appointment_consistent clinic1 clinic2 "apt-2" booked_on
           "pat-1" "doc-1" eleven "follow_up" "" (Ret "apt-2")
           clinic1_consistent).
  vm_compute. reflexivity.
Qed.

Lemma apt1_no_other_conflict : no_other_conflict clinic2 apt1.
Proof.
  intros b [<-|[<-|[]]] Hne _ _.
  - contradiction Hne. reflexivity.
  - vm_compute. discriminate.
Qed.

End LifecycleExampleFacts.

Lemma cancel_frees_slot_witness :
  exists db' slots,
    cancel_appointment LifecycleExample.clinic2 LifecycleExample.changed_on
      "apt-1" "patient request" = (true, db')
    /\ get_appointment db' "apt-1"
       = Some (set_status LifecycleExample.apt1 CANCELLED
                 (annotate (notes LifecycleExample.apt1) "Cancelled"
                    "patient request")
                 LifecycleExample.changed_on)
    /\ get_available_slots db' (doctor_id LifecycleExample.apt1)
         (appointment_datetime LifecycleExample.apt1)
         (duration LifecycleExample.apt1) = Ret slots
    /\ In (appointment_datetime LifecycleExample.apt1) slots.
Proof.
  apply (cancel_frees_slot LifecycleExample.clinic2
           LifecycleExample.changed_on "apt-1" "patient request"
           LifecycleExample.apt1).
  - exact LifecycleExampleFacts.clinic2_consistent.
  - reflexivity.
  - reflexivity.
  - exact LifecycleExampleFacts.apt1_no_other_conflict.
Defined.

(** C10. A successful reschedule leaves the appointment with the status
    [RESCHEDULED] and the new start, which does not occupy a slot; the
    availability output for its doctor, date and duration still contains that
    start; and booking it with the same doctor, for an existing patient and a
    fresh id, succeeds, after which the file holds a rescheduled and a
    scheduled appointment of one doctor, with different ids, that start at
    the same time. *)
Theorem reschedule_allows_double_booking (db db' : MedicalDatabase)
    (now : datetime) (id : string) (t : datetime) (a : Appointment) :
  consistent db ->
  get_appointment db id = Some a ->
  reschedule_appointment db now id t = (Ret true, db') ->
  exists a',
    get_appointment db' id = Some a'
    /\ (a_id a' = id /\ patient_id a' = patient_id a
        /\ doctor_id a' = doctor_id a /\ duration a' = duration a
        /\ appointment_datetime a' = t /\ a_status a' = RESCHEDULED
        /\ updated_at a' = now)
    /\ occupies a' = false
    /\ (exists slots,
          get_available_slots db' (doctor_id a') t (duration a') = Ret slots
          /\ In t slots)
    /\ forall new_id now2 pid p ty nt,
         get_patient db' pid = Some p ->
         get_appointment db' new_id = None ->
         exists db2 b,
           book_appointment db' new_id now2 pid (doctor_id a') t ty nt
           = (Ret new_id, db2)
           /\ get_appointment db2 id = Some a'
           /\ get_appointment db2 new_id = Some b
           /\ new_id <> id
           /\ (a_id b = new_id /\ patient_id b = pid
               /\ doctor_id b = doctor_id a' /\ duration b = duration a'
               /\ appointment_datetime b = appointment_datetime a'
               /\ a_status b = SCHEDULED)
           /\ In a' (appointments db2) /\ In b (appointments db2).
Proof.
  intros Hc Hget Hres.
  destruct (reschedule_then_book db db' now id t a Hc Hget Hres)
    as (Hmoved & Havail & Hbook).
  destruct (first_with_In _ _ _ _ Hget) as [_ Hid].
  exists (set_schedule a t RESCHEDULED now).
  split; [exact Hmoved|].
  split; [simpl; auto 8|].
  split; [reflexivity|].
  split; [exact Havail|].
  intros new_id now2 pid p ty nt Hp Hfresh.
  destruct (Hbook new_id now2 pid p ty nt Hp Hfresh)
    as (db2 & Hcall & Hkept & Hnew).
  exists db2, (new_appointment new_id now2 pid (doctor_id a) t (duration a)
                 ty nt).
  split; [exact Hcall|]. split; [exact Hkept|]. split; [exact Hnew|].
  split; [intros ->; congruence|].
  split; [simpl; auto 8|].
  split; [exact (proj1 (first_with_In _ _ _ _ Hkept))
         |exact (proj1 (first_with_In _ _ _ _ Hnew))].
Qed.

Lemma reschedule_allows_double_booking_witness :
  exists a',
    get_appointment LifecycleExample.moved "apt-1" = Some a'
    /\ (a_id a' = "apt-1"
        /\ patient_id a' = patient_id LifecycleExample.apt1
        /\ doctor_id a' = doctor_id LifecycleExample.apt1
        /\ duration a' = duration LifecycleExample.apt1
        /\ appointment_datetime a' = LifecycleExample.eleven
        /\ a_status a' = RESCHEDULED
        /\ updated_at a' = LifecycleExample.changed_on)
    /\ occupies a' = false
    /\ (exists slots,
          get_available_slots LifecycleExample.moved (doctor_id a')
            LifecycleExample.eleven (duration a') = Ret slots
          /\ In LifecycleExample.eleven slots)
    /\ forall new_id now2 pid p ty nt,
         get_patient LifecycleExample.moved pid = Some p ->
         get_appointment LifecycleExample.moved new_id = None ->
         exists db2 b,
           book_appointment LifecycleExample.moved new_id now2 pid
             (doctor_id a') LifecycleExample.eleven ty nt
           = (Ret new_id, db2)
           /\ get_appointment db2 "apt-1" = Some a'
           /\ get_appointment db2 new_id = Some b
           /\ new_id <> "apt-1"
           /\ (a_id b = new_id /\ patient_id b = pid
               /\ doctor_id b = doctor_id a' /\ duration b = duration a'
               /\ appointment_datetime b = appointment_datetime a'
               /\ a_status b = SCHEDULED)
           /\ In a' (appointments db2) /\ In b (appointments db2).
Proof.
  apply (reschedule_allows_double_booking BookingExample.clinic1
           LifecycleExample.moved LifecycleExample.changed_on "apt-1"
           LifecycleExample.eleven LifecycleExample.apt1).
  - exact LifecycleExampleFacts.clinic1_consistent.
  - reflexivity.
  - vm_compute. reflexivity.
Defined.

(** ** Operations as a state machine *)

(** Every operation keeps the invariant of the appointment file. *)
Lemma run_consistent (op : operation) (db : MedicalDatabase) :
  consistent db -> consistent (run op db).
Proof.
  intros Hc. destruct op; simpl.
  - eapply register_patient_consistent; [exact Hc|apply surjective_pairing].
  - eapply book_appointment_consistent; [exact Hc|apply surjective_pairing].
  - eapply reschedule_appointment_consistent;
      [exact Hc|apply surjective_pairing].
  - eapply cancel_appointment_consistent;
      [exact Hc|apply surjective_pairing].
  - eapply mark_no_show_consistent; [exact Hc|apply surjective_pairing].
  - eapply complete_appointment_consistent;
      [exact Hc|apply surjective_pairing].
  - eapply predict_no_show_risk_consistent;
      [exact Hc|apply surjective_pairing].
Qed.

(** So every database that the operations build from one without
    appointments is consistent. *)
Lemma consistent_reachable (ops : list operation) (db : MedicalDatabase) :
  appointments db = [] ->
  consistent (fold_left (fun db' op => run op db') ops db).
Proof.
  intros Hnone. pose proof (consistent_no_appointments db Hnone) as Hc.
  clear Hnone. revert db Hc.
  induction ops as [|op ops IH]; intros db Hc; simpl; [exact Hc|].
  apply IH. apply run_consistent. exact Hc.
Qed.

(** ** The no-show counter and the high-risk status *)

Lemma update_appointment_patients (db : MedicalDatabase) (a : Appointment) :
  patients (snd (update_appointment db a)) = patients db.
Proof.
  unfold update_appointment.
  destruct (replace_first a_id a (appointments db)); reflexivity.
Qed.

(** [update_patient] of a rewritten copy of the patient that [get_patient]
    has just returned. *)
Lemma update_patient_change (db : MedicalDatabase) (pid : string)
    (p p' : Patient) :
  get_patient db pid = Some p -> p_id p' = p_id p ->
  exists ps',
    replace_first p_id p' (patients db) = Some ps'
    /\ first_with p_id (p_id p) (patients db) = Some p
    /\ patients (snd (update_patient db p')) = ps'.
Proof.
  intros Hget Hid. destruct (first_with_In _ _ _ _ Hget) as [_ Hp].
  unfold get_patient in Hget. rewrite <- Hp in Hget.
  assert (Hget' : first_with p_id (p_id p') (patients db) = Some p)
    by (rewrite Hid; exact Hget).
  destruct (replace_first_Some p_id p' _ p Hget') as [ps' Hps].
  exists ps'. unfold update_patient. rewrite Hps. auto.
Qed.

Lemma run_patients (op : operation) (db : MedicalDatabase) :
  patients_change (patients db) (patients (run op db)).
Proof.
  destruct op; simpl.
  - unfold register_patient, add_patient. simpl.
    destruct (existsb _ (patients db)) eqn:Hex; simpl; [constructor|].
    apply first_with_None in Hex.
    apply pc_register; [reflexivity..|exact Hex].
  - unfold book_appointment.
    destruct (get_patient db patient_id'); [|constructor].
    destruct (get_doctor db doctor_id') as [doctor|]; [|constructor].
    destruct (get_available_slots db doctor_id' appointment_datetime'
                (appointment_duration doctor)) as [slots| |];
      try constructor.
    destruct (mem appointment_datetime' slots); simpl; [|constructor].
    unfold add_appointment.
    destruct (existsb _ (appointments db)); constructor.
  - unfold reschedule_appointment.
    destruct (get_appointment db appointment_id) as [a|]; [|constructor].
    destruct (get_available_slots db (doctor_id a) new_datetime
                (duration a)) as [slots| |]; try constructor.
    destruct (mem new_datetime slots); simpl; [|constructor].
    pose proof (update_appointment_patients db
                  (set_schedule a new_datetime RESCHEDULED now)) as H.
    destruct (update_appointment db _) as [ok db']. simpl in *.
    rewrite H. constructor.
  - unfold cancel_appointment.
    destruct (get_appointment db appointment_id) as [a|]; [|constructor].
    rewrite update_appointment_patients. constructor.
  - unfold mark_no_show.
    destruct (get_appointment db appointment_id) as [a|]; [|constructor].
    rewrite update_appointment_patients. simpl.
    destruct (get_patient db (patient_id a)) as [p|] eqn:Hp; [|constructor].
    destruct (update_patient_change db _ p (count_no_show p) Hp eq_refl)
      as (ps' & Hps & Hfirst & ->).
    exact (pc_no_show _ p ps' Hfirst Hps).
  - unfold complete_appointment.
    destruct (get_appointment db appointment_id) as [a|]; [|constructor].
    rewrite update_appointment_patients. simpl.
    destruct (get_patient db (patient_id a)) as [p|] eqn:Hp; [|constructor].
    destruct (update_patient_change db _ p
                (set_last_appointment p (appointment_datetime a)) Hp eq_refl)
      as (ps' & Hps & Hfirst & ->).
    exact (pc_visit _ p _ ps' Hfirst Hps).
  - unfold predict_no_show_risk.
    destruct (get_patient db patient_id'); [|constructor].
    destruct (get_appointment db appointment_id); constructor.
Qed.

Lemma count_no_show_flag (p : Patient) :
  risk_flag_ok p -> risk_flag_ok (count_no_show p).
Proof.
  unfold risk_flag_ok, count_no_show. simpl. intros [H1 H2].
  destruct (Z.leb_spec 3 (no_show_count p + 1)) as [Hge|Hlt].
  - tauto.
  - split; [intros Hs; specialize (H1 Hs)|]; lia.
Qed.

Lemma patients_change_flag (ps ps' : list Patient) :
  patients_change ps ps' ->
  (forall p, In p ps -> risk_flag_ok p) ->
  forall p, In p ps' -> risk_flag_ok p.
Proof.
  intros Hch Hinv. destruct Hch as [|p0 ps' Hf Hr|p0 dt ps' Hf Hr|p0 Hs Hn _].
  - exact Hinv.
  - intros p Hp. destruct (first_with_In _ _ _ _ Hf) as [Hin0 _].
    destruct (replace_first_In _ _ _ _ _ Hr Hp) as [->|Hold]; [|auto].
    apply count_no_show_flag. auto.
  - intros p Hp. destruct (first_with_In _ _ _ _ Hf) as [Hin0 _].
    destruct (replace_first_In _ _ _ _ _ Hr Hp) as [->|Hold]; [|auto].
    exact (Hinv p0 Hin0).
  - intros p Hp. apply in_app_or in Hp as [Hp|[<-|[]]]; [auto|].
    unfold risk_flag_ok. rewrite Hs, Hn. split; [discriminate|lia].
Qed.

Lemma patients_change_high_risk (ps ps' : list Patient) (pid : string)
    (p : Patient) :
  patients_change ps ps' ->
  first_with p_id pid ps = Some p -> p_status p = HIGH_RISK ->
  exists p', first_with p_id pid ps' = Some p' /\ p_status p' = HIGH_RISK.
Proof.
  intros Hch Hget Hs.
  destruct Hch as [|p0 ps' Hf Hr|p0 dt ps' Hf Hr|p0 _ _ _].
  - eauto.
  - rewrite (first_with_replace p_id _ _ _ pid Hr). simpl.
    destruct (String.eqb_spec pid (p_id p0)) as [->|Hne]; [|eauto].
    assert (p0 = p) as -> by congruence.
    eexists. split; [reflexivity|]. simpl. rewrite Hs.
    destruct (3 <=? no_show_count p + 1); reflexivity.
  - rewrite (first_with_replace p_id _ _ _ pid Hr). simpl.
    destruct (String.eqb_spec pid (p_id p0)) as [->|Hne]; [|eauto].
    assert (p0 = p) as -> by congruence.
    eexists. split; [reflexivity|]. exact Hs.
  - rewrite first_with_app, Hget. eauto.
Qed.

(** C3. [mark_no_show] on an existing appointment whose patient exists
    succeeds and leaves that patient with a counter one higher; when flag and
    counter agreed before, they agree after, and the status has turned to
    [HIGH_RISK] in this call exactly when the counter has just become 3.
    Every operation keeps the agreement of flag and counter for all
    patients, and no operation takes a patient out of [HIGH_RISK]. *)
Theorem no_show_count_and_high_risk :
  (forall db now id a p,
     get_appointment db id = Some a ->
     get_patient db (patient_id a) = Some p ->
     exists db' p',
       mark_no_show db now id = (true, db')
       /\ get_patient db' (patient_id a) = Some p'
       /\ no_show_count p' = no_show_count p + 1
       /\ (p_status p' <> HIGH_RISK -> p_status p' = p_status p)
       /\ (risk_flag_ok p ->
           risk_flag_ok p'
           /\ ((p_status p <> HIGH_RISK /\ p_status p' = HIGH_RISK)
               <-> no_show_count p' = 3)))
  /\ (forall op db, high_risk_invariant db -> high_risk_invariant (run op db))
  /\ (forall op db pid p,
        get_patient db pid = Some p -> p_status p = HIGH_RISK ->
        exists p',
          get_patient (run op db) pid = Some p' /\ p_status p' = HIGH_RISK).
Proof.
  split; [|split].
  - intros db now id a p Hget Hp.
    destruct (first_with_In _ _ _ _ Hget) as [_ Hid].
    destruct (update_patient_change db _ p (count_no_show p) Hp eq_refl)
      as (ps' & Hps & Hfirst & Hpat).
    destruct (update_patient_fields db (count_no_show p)) as (Happ & _ & _).
    set (db1 := snd (update_patient db (count_no_show p))) in *.
    set (a' := set_status a NO_SHOW (notes a) now).
    assert (Hget1 : get_appointment db1 (a_id a') = Some a)
      by (unfold get_appointment; rewrite Happ; simpl; rewrite Hid;
          exact Hget).
    destruct (update_appointment_found db1 a' a Hget1) as (l & Hl & Hup).
    eexists. exists (count_no_show p).
    split; [|split; [|split; [|split]]].
    + unfold mark_no_show. rewrite Hget. simpl. rewrite Hp.
      fold db1. fold a'. exact Hup.
    + unfold get_patient. simpl. rewrite Hpat.
      rewrite (first_with_replace p_id _ _ _ (patient_id a) Hps). simpl.
      destruct (first_with_In _ _ _ _ Hp) as [_ ->].
      rewrite String.eqb_refl. reflexivity.
    + reflexivity.
    + simpl. destruct (3 <=? no_show_count p + 1); [congruence|reflexivity].
    + intros Hok. split; [exact (count_no_show_flag p Hok)|].
      unfold risk_flag_ok in Hok. simpl.
      destruct (Z.leb_spec 3 (no_show_count p + 1)) as [Hge|Hlt].
      * split; [intros [Hn _]|intros H3; split; [|reflexivity]].
        -- assert (~ 3 <= no_show_count p) by tauto. lia.
        -- intros Hs. apply Hok in Hs. lia.
      * split; [intros [Hn Hs]; contradiction|lia].
  - intros op db Hinv.
    exact (patients_change_flag _ _ (run_patients op db) Hinv).
  - intros op db pid p Hget Hs.
    exact (patients_change_high_risk _ _ pid p (run_patients op db) Hget Hs).
Qed.

Lemma no_show_count_and_high_risk_witness :
  exists db' p',
    mark_no_show NoShowExample.two_missed LifecycleExample.changed_on "apt-1"
    = (true, db')
    /\ get_patient db' (patient_id NoShowExample.apt1_missed) = Some p'
    /\ no_show_count p' = no_show_count NoShowExample.jane2 + 1
    /\ (p_status p' <> HIGH_RISK -> p_status p' = p_status NoShowExample.jane2)
    /\ (risk_flag_ok NoShowExample.jane2 ->
        risk_flag_ok p'
        /\ ((p_status NoShowExample.jane2 <> HIGH_RISK
             /\ p_status p' = HIGH_RISK)
            <-> no_show_count p' = 3)).
Proof.
  apply (proj1 no_show_count_and_high_risk NoShowExample.two_missed
           LifecycleExample.changed_on "apt-1" NoShowExample.apt1_missed
           NoShowExample.jane2).
  - reflexivity.
  - reflexivity.
Defined.

(** * The risk scorer *)

(** ** Timing sub-score *)

Lemma _calculate_timing_risk_steps (a : Appointment) :
  _calculate_timing_risk a
  = py_min 1.0%float
      (let risk :=
         advance_booking_risk (days_advance a) (weekday_hour_risk a) in
       if days_advance a <? 1 then (risk + 0.15)%float else risk).
Proof. reflexivity. Qed.

(** C4, as stated, fails: an appointment on a Tuesday at 10:00 booked 61 days
    ahead has a timing sub-score of 0.1, the 30-day penalty alone, where both
    penalties together would give 0.1 + 0.2. *)
Lemma advance_penalties_do_not_stack :
  days_advance (TimingExample.booked_ahead 61) = 61
  /\ weekday_hour_risk (TimingExample.booked_ahead 61) = 0.0%float
  /\ _calculate_timing_risk (TimingExample.booked_ahead 61) = 0.1%float
  /\ timing_risk_stacked (TimingExample.booked_ahead 61)
     = 0.30000000000000004%float
  /\ (_calculate_timing_risk (TimingExample.booked_ahead 61)
      =? timing_risk_stacked (TimingExample.booked_ahead 61))%float = false.
Proof. repeat split; vm_compute; reflexivity. Qed.

(** C4, amended. The two advance-booking penalties are the arms of one
    [if]/[elif] and are never added together: whatever the lead time, the
    timing sub-score is the clamped weekday-and-hour score plus at most one
    of 0.1, 0.2 (advance booking) and 0.15 (last minute); a lead of 31 to 60
    days adds 0.1, a lead of 1 to 30 days adds nothing. *)
Theorem advance_booking_penalty_single (a : Appointment) :
  (30 < days_advance a <= 60 ->
   _calculate_timing_risk a
   = py_min 1.0%float (weekday_hour_risk a + 0.1)%float)
  /\ (1 <= days_advance a <= 30 ->
      _calculate_timing_risk a = py_min 1.0%float (weekday_hour_risk a))
  /\ (_calculate_timing_risk a = py_min 1.0%float (weekday_hour_risk a)
      \/ _calculate_timing_risk a
         = py_min 1.0%float (weekday_hour_risk a + 0.1)%float
      \/ _calculate_timing_risk a
         = py_min 1.0%float (weekday_hour_risk a + 0.2)%float
      \/ _calculate_timing_risk a
         = py_min 1.0%float (weekday_hour_risk a + 0.15)%float).
Proof.
  rewrite _calculate_timing_risk_steps. unfold advance_booking_risk. simpl.
  destruct (Z.ltb_spec 30 (days_advance a));
    destruct (Z.ltb_spec 60 (days_advance a));
    destruct (Z.ltb_spec (days_advance a) 1);
    repeat split; intros; try lia; auto.
Qed.

Lemma advance_booking_penalty_single_witness :
  _calculate_timing_risk (TimingExample.booked_ahead 45)
  = py_min 1.0%float
      (weekday_hour_risk (TimingExample.booked_ahead 45) + 0.1)%float
  /\ _calculate_timing_risk (TimingExample.booked_ahead 5)
     = py_min 1.0%float (weekday_hour_risk (TimingExample.booked_ahead 5)).
Proof.
  split.
  - apply (proj1 (advance_booking_penalty_single
                    (TimingExample.booked_ahead 45))).
    vm_compute. split; first [reflexivity|discriminate].
  - apply (proj1 (proj2 (advance_booking_penalty_single
                           (TimingExample.booked_ahead 5)))).
    vm_compute. split; first [reflexivity|discriminate].
Defined.

(** ** Historical sub-score *)





(** ** The combined score *)

Lemma ltb_leb (x y : float) : (x <? y)%float = true -> (x <=? y)%float = true.
Proof.
  rewrite ltb_spec, leb_spec. unfold SFltb, SFleb.
  destruct (SFcompare (Prim2SF x) (Prim2SF y)) as [[| |]|];
    congruence.
Qed.

(** Comparisons with zero, read off the sign and the class of a float. *)
Lemma leb_zero_ltb (x : float) :
  (x <? 1)%float = true -> (0 <? x)%float = negb (x <=? 0)%float.
Proof.
  rewrite !ltb_spec, leb_spec.
  change (Prim2SF 0%float) with (S754_zero false).
  destruct (Prim2SF x) as [[]|[]| |[] m e]; try reflexivity.
  discriminate.
Qed.

Lemma leb_zero_ltb_one (x : float) :
  (x <=? 0)%float = true -> (x <? 1)%float = true.
Proof.
  rewrite ltb_spec, leb_spec.
  change (Prim2SF 0%float) with (S754_zero false).
  change (Prim2SF 1%float)
    with (S754_finite false 4503599627370496 (-52)).
  destruct (Prim2SF x) as [[]|[]| |[] m e]; try reflexivity; discriminate.
Qed.

Lemma leb_zero_false (x : float) :
  (x <? 1)%float = true -> (x <=? 0)%float = false ->
  (0 <=? x)%float = true.
Proof.
  rewrite ltb_spec, !leb_spec.
  change (Prim2SF 0%float) with (S754_zero false).
  destruct (Prim2SF x) as [[]|[]| |[] m e]; try reflexivity; discriminate.
Qed.

(** The expression [max(0.0, min(1.0, x))] of the source clamps to
    [0, 1]. *)
Lemma clamp01_code (x : float) :
  py_max 0.0%float (py_min 1.0%float x) = clamp01 x.
Proof.
  unfold clamp01, py_min, py_max.
  destruct (x <? 1.0)%float eqn:H1.
  - rewrite (leb_zero_ltb x H1).
    destruct (x <=? 0)%float; reflexivity.
  - destruct (x <=? 0)%float eqn:H0; [|reflexivity].
    rewrite (leb_zero_ltb_one x H0) in H1. discriminate.
Qed.

(** The clamp ends in [0, 1] for every float, [nan] included (it gives 1.0,
    as [min(1.0, nan)] does). *)
Lemma clamp01_range (x : float) :
  (0.0 <=? clamp01 x)%float = true /\ (clamp01 x <=? 1.0)%float = true.
Proof.
  unfold clamp01.
  destruct (x <=? 0)%float eqn:H0; [split; reflexivity|].
  destruct (x <? 1)%float eqn:H1; [|split; reflexivity].
  split; [exact (leb_zero_false x H1 H0)|exact (ltb_leb x 1 H1)].
Qed.

(** [predict_no_show_risk] starts its sum at [0.0].  Adding to [0.0] changes
    nothing but the sign of a zero, further additions keep it so, and the
    clamp sends both zeros to [0.0]. *)
Lemma zeroish_add_zero (a : float) : zeroish (0.0 + a)%float a.
Proof.
  unfold zeroish. pose proof (add_spec 0.0%float a) as H.
  change (Prim2SF 0.0%float) with (S754_zero false) in H.
  destruct (Prim2SF a) as [s|s| |s m e] eqn:Ha.
  - right. split; [|eauto]. rewrite H. destruct s; simpl; eauto.
  - left. apply Prim2SF_inj. rewrite H, Ha. reflexivity.
  - left. apply Prim2SF_inj. rewrite H, Ha. reflexivity.
  - left. apply Prim2SF_inj. rewrite H, Ha. reflexivity.
Qed.

Lemma zeroish_add (x y b : float) :
  zeroish x y -> zeroish (x + b)%float (y + b)%float.
Proof.
  intros [->|[[s Hx] [s' Hy]]]; [left; reflexivity|].
  pose proof (add_spec x b) as H1. pose proof (add_spec y b) as H2.
  rewrite Hx in H1. rewrite Hy in H2.
  destruct (Prim2SF b) as [sb|sb| |sb m e] eqn:Hb.
  - right. rewrite H1, H2. split; destruct s, s', sb; simpl; eauto.
  - left. apply Prim2SF_inj. rewrite H1, H2. reflexivity.
  - left. apply Prim2SF_inj. rewrite H1, H2. reflexivity.
  - left. apply Prim2SF_inj. rewrite H1, H2. reflexivity.
Qed.

Lemma zero_cases (x : float) (s : bool) :
  Prim2SF x = S754_zero s -> x = (if s then (-0.0)%float else 0.0%float).
Proof.
  intros H. rewrite <- (SF2Prim_Prim2SF x), H. destruct s; reflexivity.
Qed.

Lemma zeroish_clamp01 (x y : float) : zeroish x y -> clamp01 x = clamp01 y.
Proof.
  intros [->|[[s Hx] [s' Hy]]]; [reflexivity|].
  rewrite (zero_cases x s Hx), (zero_cases y s' Hy).
  destruct s, s'; reflexivity.
Qed.

Lemma clamp01_sum_from_zero (h t d f : float) :
  clamp01 (0.0 + h * 0.4 + t * 0.25 + d * 0.2 + f * 0.15)%float
  = clamp01 (weighted_sum h t d f).
Proof.
  apply zeroish_clamp01. unfold weighted_sum.
  repeat apply zeroish_add. apply zeroish_add_zero.
Qed.

Lemma append_if_high_labels (h t d f : float) :
  append_if_high f "Insurance/financial concerns"
    (append_if_high d "Demographic risk factors"
       (append_if_high t "Unfavorable appointment timing"
          (append_if_high h "High historical no-show rate" [])))
  = labels_above (labelled h t d f).
Proof.
  unfold append_if_high, labels_above, labelled. simpl.
  destruct (0.3 <? h)%float, (0.3 <? t)%float, (0.3 <? d)%float,
    (0.3 <? f)%float; reflexivity.
Qed.

(** C5. For an existing patient and appointment, [predict_no_show_risk]
    returns a prediction whose score is the weighted sum of the four
    sub-scores (weights 0.4, 0.25, 0.2, 0.15) clamped to [0, 1]: 0 when the
    sum is at most 0, the sum itself when it is between 0 and 1, and 1
    otherwise; hence within [0, 1].  Its factor list holds exactly the labels
    of the sub-scores strictly above 0.3, in the order historical, timing,
    demographic, financial. *)
Theorem predict_no_show_risk_score (db : MedicalDatabase) (now : datetime)
    (pid aid : string) (patient : Patient) (appointment : Appointment) :
  get_patient db pid = Some patient ->
  get_appointment db aid = Some appointment ->
  let h := _calculate_historical_risk db now patient in
  let t := _calculate_timing_risk appointment in
  let d := _calculate_demographic_risk now patient in
  let f := _calculate_financial_risk patient appointment in
  exists prediction db',
    predict_no_show_risk db now pid aid = (Ret prediction, db')
    /\ risk_score prediction = clamp01 (weighted_sum h t d f)
    /\ ((weighted_sum h t d f <=? 0)%float = true ->
        risk_score prediction = 0%float)
    /\ ((0 <? weighted_sum h t d f)%float = true ->
        (weighted_sum h t d f <? 1)%float = true ->
        risk_score prediction = weighted_sum h t d f)
    /\ ((weighted_sum h t d f <? 1)%float = false ->
        risk_score prediction = 1%float)
    /\ (0.0 <=? risk_score prediction)%float = true
    /\ (risk_score prediction <=? 1.0)%float = true
    /\ risk_factors prediction = labels_above (labelled h t d f).
Proof.
  intros Hp Ha h t d f. unfold predict_no_show_risk. rewrite Hp, Ha.
  eexists. eexists. split; [reflexivity|]. simpl.
  fold h t d f.
  rewrite clamp01_code, clamp01_sum_from_zero.
  destruct (clamp01_range (weighted_sum h t d f)) as [H0 H1].
  split; [reflexivity|].
  split; [intros Hlow; unfold clamp01; rewrite Hlow; reflexivity|].
  split.
  { intros Hpos Hone. unfold clamp01.
    rewrite (leb_zero_ltb _ Hone) in Hpos.
    apply negb_true_iff in Hpos. rewrite Hpos, Hone. reflexivity. }
  split.
  { intros Hone. unfold clamp01.
    destruct (weighted_sum h t d f <=? 0)%float eqn:Hlow;
      [|rewrite Hone; reflexivity].
    rewrite (leb_zero_ltb_one _ Hlow) in Hone. discriminate. }
  repeat split; try assumption.
  apply append_if_high_labels.
Qed.

Lemma predict_no_show_risk_score_witness :
  exists prediction db',
    predict_no_show_risk BookingExample.clinic1 BookingExample.booked_on
      "pat-1" "apt-1" = (Ret prediction, db')
    /\ risk_score prediction = clamp01 ScoreExample.sum
    /\ ((ScoreExample.sum <=? 0)%float = true ->
        risk_score prediction = 0%float)
    /\ ((0 <? ScoreExample.sum)%float = true ->
        (ScoreExample.sum <? 1)%float = true ->
        risk_score prediction = ScoreExample.sum)
    /\ ((ScoreExample.sum <? 1)%float = false ->
        risk_score prediction = 1%float)
    /\ (0.0 <=? risk_score prediction)%float = true
    /\ (risk_score prediction <=? 1.0)%float = true
    /\ risk_factors prediction
       = labels_above
           (labelled ScoreExample.historical ScoreExample.timing
              ScoreExample.demographic ScoreExample.financial).
Proof.
  apply (predict_no_show_risk_score BookingExample.clinic1
           BookingExample.booked_on "pat-1" "apt-1" Clinic.jane
           LifecycleExample.apt1); reflexivity.
Defined.

(** ** Repeated prediction *)

Lemma same_reading_refl (db : MedicalDatabase) (patient : Patient)
    (now : datetime) : same_reading db patient now now.
Proof. split; [reflexivity|intros a _; reflexivity]. Qed.

Lemma historical_risk_same_reading (db : MedicalDatabase) (patient : Patient)
    (now1 now2 : datetime) :
  same_reading db patient now1 now2 ->
  _calculate_historical_risk db now2 patient
  = _calculate_historical_risk db now1 patient.
Proof.
  intros [_ Hrec]. unfold _calculate_historical_risk, historical_risk_of.
  fold (records_of db patient).
  rewrite (List.filter_ext_in
             (fun a => now2 - days 90 <? appointment_datetime a)
             (fun a => now1 - days 90 <? appointment_datetime a)
             (records_of db patient));
    [reflexivity|].
  intros a Ha. symmetry. exact (Hrec a Ha).
Qed.

Lemma demographic_risk_same_reading (db : MedicalDatabase) (patient : Patient)
    (now1 now2 : datetime) :
  same_reading db patient now1 now2 ->
  _calculate_demographic_risk now2 patient
  = _calculate_demographic_risk now1 patient.
Proof.
  intros [Hage _]. unfold _calculate_demographic_risk. rewrite Hage.
  reflexivity.
Qed.

Lemma filter_after_drop (aid : string) (xs : list NoShowPrediction) :
  List.filter (fun q => String.eqb (np_appointment_id q) aid)
    (List.filter (fun q => negb (String.eqb (np_appointment_id q) aid)) xs)
  = [].
Proof.
  induction xs as [|x xs IH]; simpl; [reflexivity|].
  destruct (String.eqb (np_appointment_id x) aid) eqn:Hx; simpl;
    [exact IH|]. rewrite Hx. exact IH.
Qed.

(** C9, as stated, fails: the score reads the clock.  Two calls for the same
    patient and appointment, the second on the very state that the first
    left, one day apart, return 0.16 and then 0.14 (the patient has turned
    25 in between). *)
Lemma prediction_depends_on_clock :
  score_of (predict_no_show_risk ClockExample.waiting Clinic.monday "pat-2"
              "apt-5")
  = Some 0.16%float
  /\ score_of
       (predict_no_show_risk
          (snd (predict_no_show_risk ClockExample.waiting Clinic.monday
                  "pat-2" "apt-5"))
          (Clinic.monday + days 1) "pat-2" "apt-5")
     = Some 0.14000000000000001%float
  /\ (0.16 =? 0.14000000000000001)%float = false.
Proof. repeat split; vm_compute; reflexivity. Qed.

(** C9, amended. [predict_no_show_risk] is a function of the persisted state
    and of the clock: after a call that returned, a second call on the state
    it left returns too, with the same score and the same factor list
    whenever the scorer cannot tell the two clock readings apart (same age in
    whole days, no appointment of the patient across the 90-day boundary;
    the same reading in particular); the second prediction replaces the
    first, so that exactly one prediction is stored for the appointment; and
    the patients, doctors and appointments are those of the start. *)
Theorem predict_no_show_risk_twice (db db1 : MedicalDatabase)
    (now1 now2 : datetime) (pid aid : string) (pr1 : NoShowPrediction) :
  predict_no_show_risk db now1 pid aid = (Ret pr1, db1) ->
  exists patient pr2 db2,
    get_patient db pid = Some patient
    /\ predict_no_show_risk db1 now2 pid aid = (Ret pr2, db2)
    /\ (same_reading db patient now1 now2 ->
        risk_score pr2 = risk_score pr1
        /\ risk_factors pr2 = risk_factors pr1)
    /\ List.filter (fun q => String.eqb (np_appointment_id q) aid)
         (predictions db2) = [pr2]
    /\ patients db2 = patients db
    /\ doctors db2 = doctors db
    /\ appointments db2 = appointments db.
Proof.
  unfold predict_no_show_risk at 1.
  destruct (get_patient db pid) as [patient|] eqn:Hp; [|discriminate].
  destruct (get_appointment db aid) as [appointment|] eqn:Ha;
    [|discriminate].
  intros [= <- <-]. exists patient.
  unfold predict_no_show_risk, get_patient, get_appointment. simpl.
  unfold get_patient, get_appointment in Hp, Ha. rewrite Hp, Ha.
  eexists. eexists. split; [reflexivity|]. split; [reflexivity|].
  simpl. split; [|split; [|auto]].
  - intros Hsame.
    change (_calculate_historical_risk
              {| patients := patients db; doctors := doctors db;
                 appointments := appointments db;
                 predictions := _ |} now2 patient)
      with (_calculate_historical_risk db now2 patient).
    rewrite (historical_risk_same_reading db patient now1 now2 Hsame).
    rewrite (demographic_risk_same_reading db patient now1 now2 Hsame).
    split; reflexivity.
  - rewrite !List.filter_app. simpl. rewrite !String.eqb_refl. simpl.
    rewrite filter_after_drop. reflexivity.
Qed.

Lemma predict_no_show_risk_twice_witness :
  exists patient pr2 db2,
    get_patient ClockExample.waiting "pat-2" = Some patient
    /\ predict_no_show_risk
         (snd (predict_no_show_risk ClockExample.waiting Clinic.monday
                 "pat-2" "apt-5"))
         (Clinic.monday + minutes 1) "pat-2" "apt-5" = (Ret pr2, db2)
    /\ (same_reading ClockExample.waiting patient Clinic.monday
          (Clinic.monday + minutes 1) ->
        risk_score pr2 = 0.16%float /\ risk_factors pr2 = [])
    /\ List.filter (fun q => String.eqb (np_appointment_id q) "apt-5")
         (predictions db2) = [pr2]
    /\ patients db2 = patients ClockExample.waiting
    /\ doctors db2 = doctors ClockExample.waiting
    /\ appointments db2 = appointments ClockExample.waiting.
Proof.
  apply (predict_no_show_risk_twice ClockExample.waiting
           (snd (predict_no_show_risk ClockExample.waiting Clinic.monday
                   "pat-2" "apt-5"))
           Clinic.monday (Clinic.monday + minutes 1) "pat-2" "apt-5"
           (mk_NoShowPrediction "pat-2" "apt-5" 0.16%float []
              Clinic.monday)).
  vm_compute. reflexivity.
Defined.

(** * Further properties *)

(** ** The patient and prediction files *)

(** X1. Registering under an id that is not stored returns the id and stores
    a patient that [get_patient] then returns, active, with no no-show and
    no last appointment, every other lookup and the other files being as
    before; registering under a stored id raises [ValueError] and leaves the
    database as it was. *)
Theorem register_patient_lookup (db : MedicalDatabase) (new_id : string)
    (dob : datetime) (ec ip inum pc : string) :
  (get_patient db new_id = None ->
   exists db',
     register_patient db new_id dob ec ip inum pc = (Ret new_id, db')
     /\ get_patient db' new_id
        = Some (mk_Patient new_id dob ec ip inum ACTIVE 0 None pc)
     /\ (forall id, id <> new_id -> get_patient db' id = get_patient db id)
     /\ doctors db' = doctors db /\ appointments db' = appointments db
     /\ predictions db' = predictions db)
  /\ (forall q, get_patient db new_id = Some q ->
      register_patient db new_id dob ec ip inum pc
      = (Raise (ValueError
                  "Failed to register patient - patient may already exist"),
         db)).
Proof.
  unfold register_patient, add_patient, get_patient. simpl. split.
  - intros Hnone. pose proof (proj1 (first_with_None _ _ _) Hnone) as Hex.
    rewrite Hex. eexists. split; [reflexivity|]. simpl.
    split; [|split; [|auto]].
    + rewrite first_with_app, Hnone. simpl. rewrite String.eqb_refl.
      reflexivity.
    + intros id Hne. rewrite first_with_app.
      destruct (first_with p_id id (patients db)); [reflexivity|]. simpl.
      destruct (String.eqb_spec new_id id); congruence.
  - intros q Hq.
    destruct (existsb _ (patients db)) eqn:Hex; [reflexivity|].
    apply first_with_None in Hex. congruence.
Qed.

(** X2. [update_patient] of a record whose id is not stored returns [False]
    and writes nothing; of a record whose id is stored, it returns [True],
    the lookup of that id then gives the new record, every other lookup is
    as before and the file has as many records as before. *)
Theorem update_patient_lookup (db : MedicalDatabase) (p : Patient) :
  (get_patient db (p_id p) = None -> update_patient db p = (false, db))
  /\ (forall q, get_patient db (p_id p) = Some q ->
      exists db',
        update_patient db p = (true, db')
        /\ get_patient db' (p_id p) = Some p
        /\ (forall id, id <> p_id p ->
              get_patient db' id = get_patient db id)
        /\ map p_id (patients db') = map p_id (patients db)).
Proof.
  unfold update_patient, get_patient. split.
  - intros Hnone.
    destruct (replace_first p_id p (patients db)) as [ps|] eqn:Hr;
      [|reflexivity].
    pose proof (first_with_replace p_id p _ _ (p_id p) Hr) as H.
    rewrite String.eqb_refl in H.
    pose proof (replace_first_keys p_id p _ _ Hr) as Hk.
    exfalso. apply (first_with_None_notin p_id _ _ Hnone).
    rewrite <- Hk. destruct (first_with_In _ _ _ _ H) as [Hin _].
    apply in_map. exact Hin.
  - intros q Hq.
    destruct (replace_first_Some p_id p _ q Hq) as [ps Hr]. rewrite Hr.
    eexists. split; [reflexivity|]. simpl.
    split; [|split].
    + rewrite (first_with_replace p_id p _ _ _ Hr), String.eqb_refl.
      reflexivity.
    + intros id Hne. rewrite (first_with_replace p_id p _ _ _ Hr).
      destruct (String.eqb_spec id (p_id p)); congruence.
    + exact (replace_first_keys p_id p _ _ Hr).
Qed.

Lemma first_with_drop (k k' : string) (xs : list NoShowPrediction) :
  first_with np_appointment_id k
    (List.filter (fun q => negb (String.eqb (np_appointment_id q) k')) xs)
  = if String.eqb k k' then None else first_with np_appointment_id k xs.
Proof.
  induction xs as [|x xs IH]; simpl.
  - destruct (String.eqb k k'); reflexivity.
  - destruct (String.eqb_spec (np_appointment_id x) k') as [Hx|Hx]; simpl.
    + rewrite IH. destruct (String.eqb_spec k k') as [Hk|Hk]; [reflexivity|].
      destruct (String.eqb_spec (np_appointment_id x) k); congruence.
    + rewrite IH.
      destruct (String.eqb_spec (np_appointment_id x) k) as [Hxk|Hxk];
        [|reflexivity].
      destruct (String.eqb_spec k k'); congruence.
Qed.

(** X3. After [add_no_show_prediction], [get_no_show_prediction] of that
    appointment returns the prediction just added, which is the only one
    stored for it; the lookup of every other appointment is as before. *)
Theorem add_no_show_prediction_lookup (db : MedicalDatabase)
    (p : NoShowPrediction) :
  get_no_show_prediction (snd (add_no_show_prediction db p))
    (np_appointment_id p) = Some p
  /\ List.filter
       (fun q => String.eqb (np_appointment_id q) (np_appointment_id p))
       (predictions (snd (add_no_show_prediction db p))) = [p]
  /\ forall id, id <> np_appointment_id p ->
       get_no_show_prediction (snd (add_no_show_prediction db p)) id
       = get_no_show_prediction db id.
Proof.
  unfold get_no_show_prediction. simpl. split; [|split].
  - rewrite first_with_app, first_with_drop, String.eqb_refl. simpl.
    rewrite String.eqb_refl. reflexivity.
  - rewrite List.filter_app, filter_after_drop. simpl.
    rewrite String.eqb_refl. reflexivity.
  - intros id Hne. rewrite first_with_app, first_with_drop.
    destruct (String.eqb_spec id (np_appointment_id p)); [congruence|].
    destruct (first_with np_appointment_id id (predictions db));
      [reflexivity|].
    simpl. destruct (String.eqb_spec (np_appointment_id p) id); congruence.
Qed.

(** ** More on availability *)

Lemma grid_cons (ws : datetime) (d : Z) (n : nat) :
  grid ws d (S n) = ws :: grid (ws + minutes d) d n.
Proof.
  unfold grid. simpl. f_equal; [lia|].
  rewrite <- seq_shift, map_map. apply map_ext. intros k. lia.
Qed.

Lemma generate_slots_free (fuel : nat) (d : Z) (e cur : datetime) :
  0 < d ->
  (Z.to_nat ((e - cur) / minutes d) < fuel)%nat ->
  generate_slots fuel [] d e cur
  = Ret (grid cur d (Z.to_nat ((e - cur) / minutes d))).
Proof.
  intros Hd. pose proof (minutes_pos d Hd) as Hm. revert cur.
  induction fuel as [|fuel IH]; intros cur Hf; [lia|]. simpl.
  destruct (Z.leb_spec (cur + minutes d) e) as [Hle|Hlt].
  - assert (Hq : (e - (cur + minutes d)) / minutes d
                 = (e - cur) / minutes d - 1).
    { replace (e - (cur + minutes d)) with (e - cur + (-1) * minutes d)
        by lia.
      rewrite Z.div_add by lia. lia. }
    assert (1 <= (e - cur) / minutes d)
      by (apply Z.div_le_lower_bound; lia).
    rewrite IH by lia. simpl. rewrite Hq.
    replace (Z.to_nat ((e - cur) / minutes d))
      with (S (Z.to_nat ((e - cur) / minutes d - 1))) by lia.
    rewrite grid_cons. reflexivity.
  - assert (Hq : (e - cur) / minutes d <= 0).
    { destruct (Z.le_gt_cases ((e - cur) / minutes d) 0) as [|Hpos];
        [assumption|].
      assert (minutes d * 1 <= e - cur); [|lia].
      etransitivity; [|apply (Z.mul_div_le (e - cur) (minutes d)); lia].
      apply Z.mul_le_mono_nonneg_l; lia. }
    replace (Z.to_nat ((e - cur) / minutes d)) with O by lia.
    reflexivity.
Qed.

(** The availability of a day does not depend on the time of day of the
    query. *)
Lemma get_available_slots_same_date (db : MedicalDatabase) (did : string)
    (date1 date2 : datetime) (d : Z) :
  date date1 = date date2 ->
  get_available_slots db did date1 d = get_available_slots db did date2 d.
Proof.
  intros H. unfold get_available_slots, day_name, weekday. rewrite H.
  reflexivity.
Qed.

Lemma slot_conflict_app (occ : list datetime) (d : Z) (t s : datetime) :
  slot_conflict (occ ++ [t]) d s
  = slot_conflict occ d s || (Z.abs (s - t) <? d * 60 * us_per_second).
Proof.
  unfold slot_conflict. rewrite existsb_app. simpl.
  rewrite orb_false_r. reflexivity.
Qed.

(** One more occupied start on the grid of the walk removes that start and
    nothing else. *)
Lemma generate_slots_one_more (fuel : nat) (occ : list datetime) (d : Z)
    (e cur t : datetime) (slots : list datetime) :
  0 < d ->
  (exists k, t = cur + k * minutes d) ->
  generate_slots fuel occ d e cur = Ret slots ->
  generate_slots fuel (occ ++ [t]) d e cur
  = Ret (List.filter (fun s => negb (s =? t)) slots).
Proof.
  intros Hd. pose proof (minutes_pos d Hd) as Hm. revert cur slots.
  induction fuel as [|fuel IH]; intros cur slots Hk Hw; [discriminate|].
  simpl in Hw |- *.
  destruct (Z.leb_spec (cur + minutes d) e) as [Hle|Hlt];
    [|injection Hw as <-; reflexivity].
  destruct (generate_slots fuel occ d e (cur + minutes d)) as [rest| |] eqn:Hr;
    simpl in Hw; try discriminate.
  assert (Hk' : exists k, t = cur + minutes d + k * minutes d).
  { destruct Hk as [k ->]. exists (k - 1). lia. }
  rewrite (IH _ _ Hk' Hr). simpl. rewrite slot_conflict_app.
  assert (Hsame : (Z.abs (cur - t) <? d * 60 * us_per_second) = (cur =? t)).
  { rewrite minutes_seconds. destruct Hk as [k ->].
    destruct (Z.eqb_spec cur (cur + k * minutes d)) as [Heq|Hne].
    - apply Z.ltb_lt. replace (cur - (cur + k * minutes d)) with 0 by lia.
      simpl. lia.
    - apply Z.ltb_ge. assert (k <> 0) by nia.
      replace (cur - (cur + k * minutes d)) with (- k * minutes d) by lia.
      nia. }
  rewrite Hsame.
  destruct (slot_conflict occ d cur); injection Hw as <-; simpl.
  - reflexivity.
  - destruct (cur =? t); reflexivity.
Qed.

Lemma occupied_in_add (db : MedicalDatabase) (a : Appointment) (did : string)
    (ws we : datetime) :
  occupied_in
    (mk_db (patients db) (doctors db) (appointments db ++ [a])
       (predictions db)) did ws we
  = (occupied_in db did ws we
     ++ (if counted did ws we a then [appointment_datetime a] else []))%list.
Proof.
  unfold occupied_in, get_appointments, counted. simpl.
  rewrite !List.filter_app, map_app. simpl.
  destruct (filtered_out (Some did) None (Some ws) (Some we) a); simpl;
    [reflexivity|].
  destruct (occupies a); reflexivity.
Qed.

(** X6. A booking that succeeds takes exactly the booked start out of the
    availability of its doctor for the doctor's duration: queried again for
    any time of the same date, the output is the earlier one without that
    start, every other slot in place. *)
Theorem book_removes_only_that_slot (db db1 : MedicalDatabase)
    (new_id : string) (now : datetime) (pid did : string) (t : datetime)
    (ty nt : string) (doctor : Doctor) (slots : list datetime)
    (date' : datetime) :
  book_appointment db new_id now pid did t ty nt = (Ret new_id, db1) ->
  get_doctor db did = Some doctor ->
  get_available_slots db did t (appointment_duration doctor) = Ret slots ->
  date date' = date t ->
  get_available_slots db1 did date' (appointment_duration doctor)
  = Ret (List.filter (fun s => negb (s =? t)) slots)
  /\ In t slots.
Proof.
  intros Hbook Hdoc Hs Hdate.
  rewrite (get_available_slots_same_date db1 did date' t _ Hdate).
  unfold book_appointment in Hbook.
  destruct (get_patient db pid); [|discriminate].
  rewrite Hdoc, Hs in Hbook.
  destruct (mem t slots) eqn:Hmem; simpl in Hbook; [|discriminate].
  apply mem_In in Hmem. split; [|exact Hmem].
  unfold add_appointment in Hbook. simpl in Hbook.
  destruct (existsb _ (appointments db)); [discriminate|].
  injection Hbook as <-.
  destruct (available_slot_inv _ _ _ _ _ _ Hs Hmem) as (Hpos & ws & we & Hw).
  pose proof (proj1 (get_available_slots_In _ _ _ _ _ _ _ t Hw Hpos Hs) Hmem)
    as ((k & Hk & Hgrid) & Hroom & _).
  pose proof (minutes_pos _ Hpos) as Hm.
  set (a := mk_Appointment _ _ _ _ _ _ _ _ _ _ _ _ _).
  set (db1 := mk_db _ _ _ _).
  assert (Hw1 : working_window db1 did t = Some (ws, we))
    by (rewrite <- Hw; apply working_window_doctors; reflexivity).
  rewrite (get_available_slots_walk _ _ _ _ _ _ Hw1).
  rewrite (get_available_slots_walk _ _ _ _ _ _ Hw) in Hs.
  unfold db1. rewrite occupied_in_add.
  assert (Hc : counted did ws we a = true).
  { unfold counted, filtered_out, str_filter, occupies, a. simpl.
    rewrite String.eqb_refl, andb_false_r. simpl.
    destruct (Z.ltb_spec t ws); [nia|].
    destruct (Z.ltb_spec we t); [lia|]. reflexivity. }
  rewrite Hc. apply generate_slots_one_more; eauto.
Qed.

Lemma book_removes_only_that_slot_witness :
  get_available_slots BookingExample.clinic1 "doc-1"
    (Clinic.at_time Clinic.monday 15 45) (appointment_duration Clinic.dr_lee)
  = Ret (List.filter (fun s => negb (s =? BookingExample.ten))
           BookingExample.slots)
  /\ In BookingExample.ten BookingExample.slots.
Proof.
  apply (book_removes_only_that_slot Clinic.clinic BookingExample.clinic1
           "apt-1" BookingExample.booked_on "pat-1" "doc-1" BookingExample.ten
           "general" "" Clinic.dr_lee BookingExample.slots
           (Clinic.at_time Clinic.monday 15 45)).
  - vm_compute. reflexivity.
  - reflexivity.
  - vm_compute. reflexivity.
  - vm_compute. reflexivity.
Defined.

Lemma is_digit_range (c : ascii) :
  is_digit c = true -> 0 <= digit c <= 9.
Proof.
  unfold is_digit, digit. intros H. apply andb_true_iff in H as [H1 H2].
  apply Z.leb_le in H1, H2. lia.
Qed.

Lemma parse_H_range (s r : string) (h : Z) :
  parse_H s = Some (h, r) -> 0 <= h < 24.
Proof.
  unfold parse_H. destruct s as [|a [|b s']].
  - discriminate.
  - destruct (is_digit a) eqn:Ha; [|discriminate].
    intros [= <- _]. pose proof (is_digit_range a Ha). lia.
  - destruct (is_digit a) eqn:Ha; simpl.
    + destruct (is_digit b) eqn:Hb; simpl.
      * destruct (Z.ltb_spec (10 * digit a + digit b) 24).
        -- intros [= <- _]. pose proof (is_digit_range a Ha).
           pose proof (is_digit_range b Hb). lia.
        -- intros [= <- _]. pose proof (is_digit_range a Ha). lia.
      * intros [= <- _]. pose proof (is_digit_range a Ha). lia.
    + discriminate.
Qed.

Lemma parse_M_range (s r : string) (m : Z) :
  parse_M s = Some (m, r) -> 0 <= m < 60.
Proof.
  unfold parse_M. destruct s as [|a [|b s']].
  - discriminate.
  - destruct (is_digit a) eqn:Ha; [|discriminate].
    intros [= <- _]. pose proof (is_digit_range a Ha). lia.
  - destruct (is_digit a) eqn:Ha; simpl.
    + destruct (is_digit b) eqn:Hb; simpl.
      * destruct (Z.ltb_spec (digit a) 6).
        -- intros [= <- _]. pose proof (is_digit_range a Ha).
           pose proof (is_digit_range b Hb). lia.
        -- intros [= <- _]. pose proof (is_digit_range a Ha). lia.
      * intros [= <- _]. pose proof (is_digit_range a Ha). lia.
    + discriminate.
Qed.

(** What [strptime] accepts is a time of day. *)
Lemma strptime_HM_range (s : string) (t : time) :
  strptime_HM s = Ret t -> 0 <= t_hour t < 24 /\ 0 <= t_minute t < 60.
Proof.
  unfold strptime_HM.
  destruct (parse_H s) as [[h r]|] eqn:Hh; [|discriminate].
  destruct r as [|c r]; [discriminate|].
  destruct (Ascii.eqb_spec c ":"%char) as [->|Hc].
  - destruct (parse_M r) as [[m r']|] eqn:Hm; [|discriminate].
    destruct r'; [|discriminate]. intros [= <-]. simpl.
    split; [exact (parse_H_range _ _ _ Hh)|exact (parse_M_range _ _ _ Hm)].
  - destruct c as [[] [] [] [] [] [] [] []]; try discriminate.
    contradiction Hc. reflexivity.
Qed.

(** Both ends of a working window lie on the queried date. *)
Lemma working_window_on_date (db : MedicalDatabase) (did : string)
    (date' : datetime) (ws we : datetime) :
  working_window db did date' = Some (ws, we) ->
  date ws = date date' /\ date we = date date'.
Proof.
  unfold working_window.
  destruct (get_doctor db did) as [doctor|]; [|discriminate].
  destruct (working_hours doctor !! day_name date') as [hrs|];
    [|discriminate].
  destruct (strptime_HM (wh_start hrs)) as [ts| |] eqn:Hs; try discriminate.
  destruct (strptime_HM (wh_end hrs)) as [te| |] eqn:He; try discriminate.
  intros [= <- <-].
  destruct (strptime_HM_range _ _ Hs) as [Hsh Hsm].
  destruct (strptime_HM_range _ _ He) as [Heh Hem].
  unfold date, combine, us_per_day, us_per_hour, us_per_minute,
    us_per_second.
  split; symmetry.
  - apply Z.div_unique_pos
      with (r := t_hour ts * (60 * (60 * 1000000))
                 + t_minute ts * (60 * 1000000));
      lia.
  - apply Z.div_unique_pos
      with (r := t_hour te * (60 * (60 * 1000000))
                 + t_minute te * (60 * 1000000));
      lia.
Qed.

(** An appointment that a query does not see changes nothing for it. *)
Lemma get_available_slots_add_unseen (db : MedicalDatabase)
    (a : Appointment) (did : string) (date' : datetime) (d : Z) :
  (forall ws we, working_window db did date' = Some (ws, we) ->
     filtered_out (Some did) None (Some ws) (Some we) a = true) ->
  get_available_slots
    (mk_db (patients db) (doctors db) (appointments db ++ [a])
       (predictions db)) did date' d
  = get_available_slots db did date' d.
Proof.
  intros Hunseen. unfold working_window in Hunseen.
  unfold get_available_slots, get_doctor in *. simpl.
  destruct (first_with d_id did (doctors db)) as [doctor|]; [|reflexivity].
  destruct (working_hours doctor !! day_name date') as [hrs|];
    [|reflexivity].
  destruct (strptime_HM (wh_start hrs)) as [ts| |]; try reflexivity.
  destruct (strptime_HM (wh_end hrs)) as [te| |]; try reflexivity.
  simpl. unfold get_appointments. simpl.
  rewrite List.filter_app. simpl.
  rewrite (Hunseen _ _ eq_refl). simpl. rewrite app_nil_r. reflexivity.
Qed.

(** X7. A booking that succeeds changes the availability of no other
    doctor and of no other date: for a doctor with another, non-empty id, or
    for a date other than the booked one, [get_available_slots] gives what
    it gave before, for every duration. *)
Theorem book_leaves_the_rest (db db1 : MedicalDatabase) (new_id : string)
    (now : datetime) (pid did : string) (t : datetime) (ty nt : string)
    (did2 : string) (date' : datetime) (d : Z) :
  book_appointment db new_id now pid did t ty nt = (Ret new_id, db1) ->
  (did2 <> did /\ did2 <> "") \/ date date' <> date t ->
  get_available_slots db1 did2 date' d = get_available_slots db did2 date' d.
Proof.
  intros Hbook Hother. unfold book_appointment in Hbook.
  destruct (get_patient db pid); [|discriminate].
  destruct (get_doctor db did) as [doctor|]; [|discriminate].
  destruct (get_available_slots db did t (appointment_duration doctor))
    as [slots| |]; try discriminate.
  destruct (mem t slots); simpl in Hbook; [|discriminate].
  unfold add_appointment in Hbook. simpl in Hbook.
  destruct (existsb _ (appointments db)); [discriminate|].
  injection Hbook as <-.
  apply get_available_slots_add_unseen. intros ws we Hw.
  unfold filtered_out, str_filter. simpl.
  destruct Hother as [[Hd He]|Hdate].
  - destruct (String.eqb_spec did2 ""); [contradiction|].
    destruct (String.eqb_spec did did2); [congruence|]. reflexivity.
  - destruct (working_window_on_date _ _ _ _ _ Hw) as [Hs He].
    apply orb_true_iff.
    destruct (Z.ltb_spec t ws) as [|Hge]; [left; apply orb_true_r|].
    right. apply Z.ltb_lt.
    destruct (Z.lt_ge_cases we t) as [|Hle]; [assumption|].
    exfalso. apply Hdate. unfold date in *.
    assert (ws / us_per_day <= t / us_per_day)
      by (apply Z.div_le_mono; [reflexivity|assumption]).
    assert (t / us_per_day <= we / us_per_day)
      by (apply Z.div_le_mono; [reflexivity|assumption]).
    lia.
Qed.

Lemma book_leaves_the_rest_witness :
  get_available_slots BookingExample.clinic1 "doc-1"
    (Clinic.monday + days 1) 30
  = get_available_slots Clinic.clinic "doc-1" (Clinic.monday + days 1) 30.
Proof.
  apply (book_leaves_the_rest Clinic.clinic BookingExample.clinic1 "apt-1"
           BookingExample.booked_on "pat-1" "doc-1" BookingExample.ten
           "general" "" "doc-1" (Clinic.monday + days 1) 30).
  - vm_compute. reflexivity.
  - right. vm_compute. discriminate.
Defined.

(** ** More on the lifecycle *)

Lemma update_appointment_true (db : MedicalDatabase) (a b : Appointment) :
  get_appointment db (a_id a) = Some b ->
  fst (update_appointment db a) = true.
Proof.
  intros H. destruct (update_appointment_found db a b H) as (l & _ & ->).
  reflexivity.
Qed.

(** X8. A call that reports failure has written nothing: a booking that
    raises or does not return, a reschedule that returns [False], raises or
    does not return, and a cancel, no-show mark or completion that returns
    [False] all leave the database as it was. *)
Theorem failure_writes_nothing (db db' : MedicalDatabase) :
  (forall new_id now pid did t ty nt r,
     book_appointment db new_id now pid did t ty nt = (r, db') ->
     (forall id, r <> Ret id) -> db' = db)
  /\ (forall now id t r,
        reschedule_appointment db now id t = (r, db') ->
        r <> Ret true -> db' = db)
  /\ (forall now id reason,
        cancel_appointment db now id reason = (false, db') -> db' = db)
  /\ (forall now id,
        mark_no_show db now id = (false, db') -> db' = db)
  /\ (forall now id nt,
        complete_appointment db now id nt = (false, db') -> db' = db).
Proof.
  split; [|split; [|split; [|split]]].
  - intros new_id now pid did t ty nt r. unfold book_appointment.
    destruct (get_patient db pid); [|congruence].
    destruct (get_doctor db did) as [doctor|]; [|congruence].
    destruct (get_available_slots db did t (appointment_duration doctor))
      as [slots| |]; try congruence.
    destruct (mem t slots); simpl; [|congruence].
    unfold add_appointment.
    destruct (existsb _ (appointments db)); [congruence|].
    intros [= <- <-] Hr. contradiction (Hr new_id). reflexivity.
  - intros now id t r. unfold reschedule_appointment.
    destruct (get_appointment db id) as [a|] eqn:Hget; [|congruence].
    destruct (get_available_slots db (doctor_id a) t (duration a))
      as [slots| |]; try congruence.
    destruct (mem t slots); simpl; [|congruence].
    destruct (first_with_In _ _ _ _ Hget) as [_ Hid].
    pose proof (update_appointment_true db
                  (set_schedule a t RESCHEDULED now) a) as Hok.
    simpl in Hok. rewrite Hid in Hok. specialize (Hok Hget).
    destruct (update_appointment db _) as [ok db1]. simpl in Hok.
    intros [= <- <-] Hr. congruence.
  - intros now id reason. unfold cancel_appointment.
    destruct (get_appointment db id) as [a|] eqn:Hget; [|congruence].
    destruct (first_with_In _ _ _ _ Hget) as [_ Hid].
    pose proof (update_appointment_true db
                  (set_status a CANCELLED
                     (annotate (notes a) "Cancelled" reason) now) a) as Hok.
    simpl in Hok. rewrite Hid in Hok. specialize (Hok Hget).
    intros H. rewrite H in Hok. discriminate.
  - intros now id. unfold mark_no_show.
    destruct (get_appointment db id) as [a|] eqn:Hget; [|congruence].
    destruct (first_with_In _ _ _ _ Hget) as [_ Hid].
    set (db1 := match get_patient db _ with Some _ => _ | None => db end).
    assert (Happ : appointments db1 = appointments db).
    { unfold db1. destruct (get_patient db _); [|reflexivity].
      apply update_patient_fields. }
    pose proof (update_appointment_true db1
                  (set_status a NO_SHOW (notes a) now) a) as Hok.
    unfold get_appointment in Hok. rewrite Happ in Hok. simpl in Hok.
    rewrite Hid in Hok. specialize (Hok Hget).
    intros H. rewrite H in Hok. discriminate.
  - intros now id nt. unfold complete_appointment.
    destruct (get_appointment db id) as [a|] eqn:Hget; [|congruence].
    destruct (first_with_In _ _ _ _ Hget) as [_ Hid].
    set (db1 := match get_patient db _ with Some _ => _ | None => db end).
    assert (Happ : appointments db1 = appointments db).
    { unfold db1. destruct (get_patient db _); [|reflexivity].
      apply update_patient_fields. }
    pose proof (update_appointment_true db1
                  (set_status a COMPLETED
                     (annotate (notes a) "Completed" nt) now) a) as Hok.
    unfold get_appointment in Hok. rewrite Happ in Hok. simpl in Hok.
    rewrite Hid in Hok. specialize (Hok Hget).
    intros H. rewrite H in Hok. discriminate.
Qed.

(** X9. An appointment that is scheduled or confirmed cannot be rescheduled
    to the start it already has: it occupies that start itself, so the call
    never returns [True] and leaves the database as it was. *)
Theorem reschedule_to_own_start (db db' : MedicalDatabase) (now : datetime)
    (id : string) (a : Appointment) (r : result bool) :
  get_appointment db id = Some a ->
  occupies a = true ->
  reschedule_appointment db now id (appointment_datetime a) = (r, db') ->
  r <> Ret true /\ db' = db.
Proof.
  intros Hget Hocc. unfold reschedule_appointment. rewrite Hget.
  destruct (first_with_In _ _ _ _ Hget) as [Hin _].
  destruct (get_available_slots db (doctor_id a) (appointment_datetime a)
              (duration a)) as [slots| |] eqn:Hs;
    try (intros [= <- <-]; split; [discriminate|reflexivity]).
  destruct (mem (appointment_datetime a) slots) eqn:Hmem; simpl;
    [|intros [= <- <-]; split; [discriminate|reflexivity]].
  exfalso. apply mem_In in Hmem.
  destruct (available_slot_inv _ _ _ _ _ _ Hs Hmem) as (Hpos & ws & we & Hw).
  pose proof (proj1 (get_available_slots_In _ _ _ _ _ _ _ _ Hw Hpos Hs) Hmem)
    as ((k & Hk & Hgrid) & Hroom & _).
  pose proof (minutes_pos _ Hpos) as Hm.
  apply (occupied_slot_unavailable db (doctor_id a) (appointment_datetime a)
           (duration a) ws we a slots Hw Hin); try assumption;
    [|reflexivity].
  unfold counted, filtered_out, str_filter. rewrite Hocc.
  rewrite String.eqb_refl, andb_false_r. simpl.
  destruct (Z.ltb_spec (appointment_datetime a) ws); [nia|].
  destruct (Z.ltb_spec we (appointment_datetime a)); [lia|]. reflexivity.
Qed.

Lemma reschedule_to_own_start_witness :
  Ret false <> Ret true /\ BookingExample.clinic1 = BookingExample.clinic1.
Proof.
  apply (reschedule_to_own_start BookingExample.clinic1
           BookingExample.clinic1 LifecycleExample.changed_on "apt-1"
           LifecycleExample.apt1 (Ret false)).
  - reflexivity.
  - reflexivity.
  - vm_compute. reflexivity.
Defined.

Lemma replace_first_map {A B : Type} (key : A -> string) (f : A -> B)
    (new old : A) (xs ys : list A) :
  first_with key (key new) xs = Some old -> f new = f old ->
  replace_first key new xs = Some ys ->
  map f ys = map f xs.
Proof.
  intros Hold Hf. revert ys.
  induction xs as [|x xs IH]; intros ys; simpl in *; [discriminate|].
  destruct (String.eqb (key x) (key new)).
  - injection Hold as ->. intros [= <-]. simpl. congruence.
  - destruct (replace_first key new xs) as [ys'|]; [|discriminate].
    intros [= <-]. simpl. f_equal. apply IH; [assumption|reflexivity].
Qed.

Lemma update_appointment_identity (db : MedicalDatabase)
    (a' a : Appointment) :
  get_appointment db (a_id a') = Some a -> identity a' = identity a ->
  map identity (appointments (snd (update_appointment db a')))
  = map identity (appointments db).
Proof.
  intros Hget Hid.
  destruct (update_appointment_found db a' a Hget) as (l & Hl & ->). simpl.
  exact (replace_first_map a_id identity a' a _ _ Hget Hid Hl).
Qed.

(** X10. No operation deletes an appointment or rewrites its id, patient,
    doctor, duration or creation time: after any operation the appointment
    file lists the same identities in the same order, followed by at most one
    new one. *)
Theorem appointments_are_kept (op : operation) (db : MedicalDatabase) :
  exists added,
    map identity (appointments (run op db))
    = (map identity (appointments db) ++ added)%list
    /\ (length added <= 1)%nat.
Proof.
  assert (Hsame : forall db', map identity (appointments db')
                              = map identity (appointments db) ->
            exists added,
              map identity (appointments db')
              = (map identity (appointments db) ++ added)%list
              /\ (length added <= 1)%nat).
  { intros db' H. exists []. rewrite app_nil_r. split; [exact H|simpl; lia]. }
  destruct op; simpl.
  - apply Hsame. unfold register_patient, add_patient. simpl.
    destruct (existsb _ (patients db)); reflexivity.
  - unfold book_appointment.
    destruct (get_patient db patient_id'); [|apply Hsame; reflexivity].
    destruct (get_doctor db doctor_id') as [doctor|];
      [|apply Hsame; reflexivity].
    destruct (get_available_slots db doctor_id' appointment_datetime'
                (appointment_duration doctor)) as [slots| |];
      try (apply Hsame; reflexivity).
    destruct (mem appointment_datetime' slots); simpl;
      [|apply Hsame; reflexivity].
    unfold add_appointment.
    destruct (existsb _ (appointments db)); simpl;
      [apply Hsame; reflexivity|].
    eexists. rewrite map_app. split; [reflexivity|simpl; lia].
  - apply Hsame. unfold reschedule_appointment.
    destruct (get_appointment db appointment_id) as [a|] eqn:Hget;
      [|reflexivity].
    destruct (get_available_slots db (doctor_id a) new_datetime (duration a))
      as [slots| |]; try reflexivity.
    destruct (mem new_datetime slots); simpl; [|reflexivity].
    destruct (first_with_In _ _ _ _ Hget) as [_ Hid].
    pose proof (update_appointment_identity db
                  (set_schedule a new_datetime RESCHEDULED now) a) as H.
    simpl in H. rewrite Hid in H. specialize (H Hget eq_refl).
    destruct (update_appointment db _). exact H.
  - apply Hsame. unfold cancel_appointment.
    destruct (get_appointment db appointment_id) as [a|] eqn:Hget;
      [|reflexivity].
    destruct (first_with_In _ _ _ _ Hget) as [_ Hid].
    apply (update_appointment_identity db _ a); [|reflexivity].
    simpl. rewrite Hid. exact Hget.
  - apply Hsame. unfold mark_no_show.
    destruct (get_appointment db appointment_id) as [a|] eqn:Hget;
      [|reflexivity].
    destruct (first_with_In _ _ _ _ Hget) as [_ Hid].
    set (db1 := match get_patient db _ with Some _ => _ | None => db end).
    assert (Happ : appointments db1 = appointments db).
    { unfold db1. destruct (get_patient db _); [|reflexivity].
      apply update_patient_fields. }
    rewrite <- Happ.
    apply (update_appointment_identity db1 _ a); [|reflexivity].
    unfold get_appointment. rewrite Happ. simpl. rewrite Hid. exact Hget.
  - apply Hsame. unfold complete_appointment.
    destruct (get_appointment db appointment_id) as [a|] eqn:Hget;
      [|reflexivity].
    destruct (first_with_In _ _ _ _ Hget) as [_ Hid].
    set (db1 := match get_patient db _ with Some _ => _ | None => db end).
    assert (Happ : appointments db1 = appointments db).
    { unfold db1. destruct (get_patient db _); [|reflexivity].
      apply update_patient_fields. }
    rewrite <- Happ.
    apply (update_appointment_identity db1 _ a); [|reflexivity].
    unfold get_appointment. rewrite Happ. simpl. rewrite Hid. exact Hget.
  - apply Hsame. unfold predict_no_show_risk.
    destruct (get_patient db patient_id'); [|reflexivity].
    destruct (get_appointment db appointment_id); reflexivity.
Qed.

(** The records that [complete_appointment] stores for an existing
    appointment whose patient exists. *)
Lemma complete_appointment_records (db : MedicalDatabase) (now : datetime)
    (id nt : string) (a : Appointment) (p : Patient) :
  get_appointment db id = Some a ->
  get_patient db (patient_id a) = Some p ->
  exists db' p',
    complete_appointment db now id nt = (true, db')
    /\ get_appointment db' id
       = Some (set_status a COMPLETED (annotate (notes a) "Completed" nt) now)
    /\ get_patient db' (patient_id a) = Some p'
    /\ last_appointment p' = Some (appointment_datetime a)
    /\ no_show_count p' = no_show_count p
    /\ p_status p' = p_status p.
Proof.
  intros Hget Hp.
  destruct (first_with_In _ _ _ _ Hget) as [_ Hid].
  set (a' := set_status a COMPLETED (annotate (notes a) "Completed" nt) now).
  set (p' := set_last_appointment p (appointment_datetime a)).
  destruct (update_patient_change db _ p p' Hp eq_refl)
    as (ps' & Hps & Hfirst & Hpat).
  destruct (update_patient_fields db p') as (Happ & _ & _).
  set (db1 := snd (update_patient db p')) in *.
  assert (Hget1 : get_appointment db1 (a_id a') = Some a)
    by (unfold get_appointment; rewrite Happ; simpl; rewrite Hid;
        exact Hget).
  destruct (update_appointment_found db1 a' a Hget1) as (l & Hl & Hup).
  eexists. exists p'. split; [|split; [|split; [|auto]]].
  - unfold complete_appointment. rewrite Hget. simpl. rewrite Hp.
    fold p'. fold db1. fold a'. exact Hup.
  - unfold get_appointment. simpl.
    rewrite (first_with_replace a_id a' _ _ id Hl). simpl.
    rewrite Hid, String.eqb_refl. reflexivity.
  - unfold get_patient. simpl. rewrite Hpat.
    rewrite (first_with_replace p_id _ _ _ (patient_id a) Hps). simpl.
    destruct (first_with_In _ _ _ _ Hp) as [_ ->].
    rewrite String.eqb_refl. reflexivity.
Qed.

(** X11. Completing an existing appointment whose patient exists succeeds
    whatever the status of the appointment was.  The stored appointment then
    has the status [COMPLETED], the earlier notes followed by a line
    "Completed: <text>", or "Completed" for an empty text, the time of the
    call as its update time, and every other field as before.  The patient's
    last appointment is the start of the appointment, the patient's counter
    and status being as before. *)
Theorem complete_appointment_effect (db : MedicalDatabase) (now : datetime)
    (id nt : string) (a : Appointment) (p : Patient) :
  get_appointment db id = Some a ->
  get_patient db (patient_id a) = Some p ->
  exists db' a' p',
    complete_appointment db now id nt = (true, db')
    /\ get_appointment db' id = Some a'
    /\ a_status a' = COMPLETED
    /\ notes a'
       = (if String.eqb nt ""
          then notes a ++ String "010" "Completed"
          else notes a ++ String "010" "Completed: " ++ nt)%string
    /\ updated_at a' = now
    /\ (a_id a' = id /\ patient_id a' = patient_id a
        /\ doctor_id a' = doctor_id a
        /\ appointment_datetime a' = appointment_datetime a
        /\ duration a' = duration a
        /\ appointment_type a' = appointment_type a
        /\ insurance_verified a' = insurance_verified a
        /\ reminder_sent a' = reminder_sent a
        /\ confirmation_sent a' = confirmation_sent a
        /\ created_at a' = created_at a)
    /\ get_patient db' (patient_id a) = Some p'
    /\ last_appointment p' = Some (appointment_datetime a)
    /\ no_show_count p' = no_show_count p
    /\ p_status p' = p_status p.
Proof.
  intros Hget Hp.
  destruct (complete_appointment_records db now id nt a p Hget Hp)
    as (db' & p' & Hcall & Hstored & Hpat & Hlast & Hcount & Hstatus).
  destruct (first_with_In _ _ _ _ Hget) as [_ Hid].
  exists db',
    (set_status a COMPLETED (annotate (notes a) "Completed" nt) now), p'.
  split; [exact Hcall|]. split; [exact Hstored|].
  split; [reflexivity|].
  split; [simpl; unfold annotate, newline; destruct (String.eqb nt "");
          reflexivity|].
  split; [reflexivity|].
  split; [simpl; auto 12|].
  auto.
Qed.

Lemma complete_appointment_effect_witness :
  exists db' a' p',
    complete_appointment BookingExample.clinic1 LifecycleExample.changed_on
      "apt-1" "seen" = (true, db')
    /\ get_appointment db' "apt-1" = Some a'
    /\ a_status a' = COMPLETED
    /\ notes a'
       = (if String.eqb "seen" ""
          then notes LifecycleExample.apt1 ++ String "010" "Completed"
          else notes LifecycleExample.apt1
               ++ String "010" "Completed: " ++ "seen")%string
    /\ updated_at a' = LifecycleExample.changed_on
    /\ (a_id a' = "apt-1"
        /\ patient_id a' = patient_id LifecycleExample.apt1
        /\ doctor_id a' = doctor_id LifecycleExample.apt1
        /\ appointment_datetime a'
           = appointment_datetime LifecycleExample.apt1
        /\ duration a' = duration LifecycleExample.apt1
        /\ appointment_type a' = appointment_type LifecycleExample.apt1
        /\ insurance_verified a' = insurance_verified LifecycleExample.apt1
        /\ reminder_sent a' = reminder_sent LifecycleExample.apt1
        /\ confirmation_sent a' = confirmation_sent LifecycleExample.apt1
        /\ created_at a' = created_at LifecycleExample.apt1)
    /\ get_patient db' (patient_id LifecycleExample.apt1) = Some p'
    /\ last_appointment p'
       = Some (appointment_datetime LifecycleExample.apt1)
    /\ no_show_count p' = no_show_count Clinic.jane
    /\ p_status p' = p_status Clinic.jane.
Proof.
  apply (complete_appointment_effect BookingExample.clinic1
           LifecycleExample.changed_on "apt-1" "seen" LifecycleExample.apt1
           Clinic.jane); reflexivity.
Defined.

(** ** Queries *)

Lemma PatientStatus_value_high_risk (s : PatientStatus) :
  String.eqb (PatientStatus_value s) "high_risk"
  = PatientStatus_eqb s HIGH_RISK.
Proof. destruct s; reflexivity. Qed.

(** X13. The two implementations of the high-risk list, the service's and
    the database's, return the same patients; when flag and counter agree
    for all patients, these are the patients with three no-shows or more, in
    file order. *)
Theorem high_risk_patients_agree (db : MedicalDatabase) :
  get_high_risk_patients db = db_get_high_risk_patients db
  /\ (high_risk_invariant db ->
      get_high_risk_patients db
      = List.filter (fun p => 3 <=? no_show_count p) (patients db)).
Proof.
  unfold get_high_risk_patients, db_get_high_risk_patients, get_patients.
  split.
  - apply List.filter_ext. intros p.
    symmetry. apply PatientStatus_value_high_risk.
  - intros Hinv. apply List.filter_ext_in. intros p Hp.
    specialize (Hinv p Hp). unfold risk_flag_ok in Hinv.
    destruct (Z.leb_spec 3 (no_show_count p)) as [Hge|Hlt].
    + rewrite (proj2 Hinv Hge). reflexivity.
    + destruct (p_status p); try reflexivity.
      assert (3 <= no_show_count p) by (apply Hinv; reflexivity). lia.
Qed.

Lemma occupies_by_value (a : Appointment) :
  str_in (AppointmentStatus_value (a_status a)) ["scheduled"; "confirmed"]
  = occupies a.
Proof. unfold occupies. destruct (a_status a); reflexivity. Qed.

Lemma scheduled_by_value (a : Appointment) :
  String.eqb (AppointmentStatus_value (a_status a)) "scheduled"
  = AppointmentStatus_eqb (a_status a) SCHEDULED.
Proof. destruct (a_status a); reflexivity. Qed.

(** X14. The service and the database each implement the two work lists,
    one on the enumeration and one on its string values; both pairs return
    the same appointments, for every clock reading and lead time. *)
Theorem work_lists_agree (db : MedicalDatabase) (now : datetime)
    (hours_before : Z) :
  get_appointments_needing_reminders db now hours_before
  = db_get_appointments_needing_reminders db now hours_before
  /\ get_appointments_needing_confirmation db now hours_before
     = db_get_appointments_needing_confirmation db now hours_before.
Proof.
  unfold get_appointments_needing_reminders,
    db_get_appointments_needing_reminders,
    get_appointments_needing_confirmation,
    db_get_appointments_needing_confirmation.
  split; apply List.filter_ext; intros a.
  - rewrite occupies_by_value. reflexivity.
  - rewrite scheduled_by_value. reflexivity.
Qed.

Lemma get_all_appointments (db : MedicalDatabase) :
  get_appointments db None None None None = appointments db.
Proof.
  unfold get_appointments, filtered_out. simpl.
  induction (appointments db) as [|a l IH]; simpl; [reflexivity|].
  f_equal. exact IH.
Qed.

(** X15. A reminder that is delivered for an appointment without one, of a
    database with unique ids, marks the appointment, which from then on is in
    no reminder list, whatever the clock and the lead time; a further call
    returns [True] without sending or writing anything, delivered or not. *)
Theorem reminder_is_sent_once (db : MedicalDatabase) (now : datetime)
    (id : string) (a : Appointment) (p : Patient) (doctor : Doctor) :
  NoDup (map a_id (appointments db)) ->
  get_appointment db id = Some a ->
  get_patient db (patient_id a) = Some p ->
  get_doctor db (doctor_id a) = Some doctor ->
  reminder_sent a = false ->
  exists db',
    send_appointment_reminder db now true id = (true, db')
    /\ get_appointment db' id = Some (set_reminder_sent a now)
    /\ (forall now' hours_before b,
          In b (get_appointments_needing_reminders db' now' hours_before) ->
          a_id b <> id)
    /\ forall now' delivered,
         send_appointment_reminder db' now' delivered id = (true, db').
Proof.
  intros Hnd Hget Hp Hdoc Hflag.
  destruct (first_with_In _ _ _ _ Hget) as [_ Hid].
  set (a' := set_reminder_sent a now).
  assert (Hget' : get_appointment db (a_id a') = Some a)
    by (simpl; rewrite Hid; exact Hget).
  destruct (update_appointment_found db a' a Hget') as (l & Hl & Hup).
  assert (Hnew : first_with a_id id l = Some a').
  { rewrite (first_with_replace a_id a' _ _ id Hl). simpl.
    rewrite Hid, String.eqb_refl. reflexivity. }
  exists (mk_db (patients db) (doctors db) l (predictions db)).
  split; [|split; [|split]].
  - unfold send_appointment_reminder. rewrite Hget, Hp, Hdoc, Hflag.
    fold a'. rewrite Hup. reflexivity.
  - exact Hnew.
  - intros now' hb b Hb Hbid.
    unfold get_appointments_needing_reminders in Hb.
    rewrite get_all_appointments in Hb. simpl in Hb.
    apply List.filter_In in Hb as [Hb Hcond].
    destruct (replace_first_In_other a_id a' _ _ b Hnd Hl Hb)
      as [->|[_ Hne]].
    + simpl in Hcond. rewrite andb_false_r in Hcond. discriminate.
    + apply Hne. simpl. congruence.
  - intros now' delivered. unfold send_appointment_reminder.
    unfold get_appointment, get_patient, get_doctor. simpl.
    rewrite Hnew. simpl.
    unfold get_patient in Hp. unfold get_doctor in Hdoc.
    rewrite Hp, Hdoc. reflexivity.
Qed.

Lemma reminder_is_sent_once_witness :
  exists db',
    send_appointment_reminder BookingExample.clinic1
      LifecycleExample.changed_on true "apt-1" = (true, db')
    /\ get_appointment db' "apt-1"
       = Some (set_reminder_sent LifecycleExample.apt1
                 LifecycleExample.changed_on)
    /\ (forall now' hours_before b,
          In b (get_appointments_needing_reminders db' now' hours_before) ->
          a_id b <> "apt-1")
    /\ forall now' delivered,
         send_appointment_reminder db' now' delivered "apt-1" = (true, db').
Proof.
  apply (reminder_is_sent_once BookingExample.clinic1
           LifecycleExample.changed_on "apt-1" LifecycleExample.apt1
           Clinic.jane Clinic.dr_lee).
  - exact (ids_unique _ LifecycleExampleFacts.clinic1_consistent).
  - reflexivity.
  - reflexivity.
  - reflexivity.
  - reflexivity.
Defined.

(** An appointment that has been rewritten into a status that does not
    occupy a slot is in neither work list. *)
Lemma released_from_work_lists (db : MedicalDatabase) (a' a : Appointment)
    (now' hours_before : Z) (b : Appointment) :
  NoDup (map a_id (appointments db)) ->
  get_appointment db (a_id a') = Some a ->
  occupies a' = false ->
  In b (get_appointments_needing_reminders
          (snd (update_appointment db a')) now' hours_before)
  \/ In b (get_appointments_needing_confirmation
             (snd (update_appointment db a')) now' hours_before) ->
  a_id b <> a_id a'.
Proof.
  intros Hnd Hget Hocc Hb.
  destruct (update_appointment_found db a' a Hget) as (l & Hl & Hup).
  rewrite Hup in Hb. simpl in Hb.
  unfold get_appointments_needing_reminders,
    get_appointments_needing_confirmation in Hb.
  rewrite get_all_appointments in Hb. simpl in Hb.
  assert (Hin : In b l /\ occupies b = true).
  { destruct Hb as [Hb|Hb]; apply List.filter_In in Hb as [Hb Hcond];
      (split; [exact Hb|]);
      apply andb_true_iff in Hcond as [Hcond _];
      apply andb_true_iff in Hcond as [Hcond _]; [exact Hcond|].
    unfold occupies. rewrite Hcond. reflexivity. }
  destruct Hin as [Hin Hb_occ].
  destruct (replace_first_In_other a_id a' _ _ b Hnd Hl Hin) as [->|[_ Hne]];
    [congruence|exact Hne].
Qed.

(** X16. After a reschedule that returned [True], in a database with unique
    ids, the moved appointment is in neither work list, whatever the clock
    and the lead time: its status [RESCHEDULED] keeps it out, so it gets no
    reminder and no confirmation request for its new start. *)
Theorem rescheduled_is_never_reminded (db db' : MedicalDatabase)
    (now : datetime) (id : string) (t : datetime) :
  NoDup (map a_id (appointments db)) ->
  reschedule_appointment db now id t = (Ret true, db') ->
  exists a',
    get_appointment db' id = Some a'
    /\ a_status a' = RESCHEDULED
    /\ forall now' hours_before b,
         In b (get_appointments_needing_reminders db' now' hours_before)
         \/ In b (get_appointments_needing_confirmation db' now'
                    hours_before) ->
         a_id b <> id.
Proof.
  intros Hnd Hres. unfold reschedule_appointment in Hres.
  destruct (get_appointment db id) as [a|] eqn:Hget; [|discriminate].
  destruct (get_available_slots db (doctor_id a) t (duration a))
    as [slots| |]; try discriminate.
  destruct (mem t slots); simpl in Hres; [|discriminate].
  destruct (first_with_In _ _ _ _ Hget) as [_ Hid].
  set (a' := set_schedule a t RESCHEDULED now) in *.
  assert (Hget' : get_appointment db (a_id a') = Some a)
    by (simpl; rewrite Hid; exact Hget).
  pose proof (released_from_work_lists db a' a) as H.
  destruct (update_appointment_found db a' a Hget') as (l & Hl & Hup).
  rewrite Hup in Hres, H. simpl in H. injection Hres as <-.
  exists a'. split; [|split; [reflexivity|]].
  - unfold get_appointment. simpl.
    rewrite (first_with_replace a_id a' _ _ id Hl). simpl.
    rewrite Hid, String.eqb_refl. reflexivity.
  - intros now' hb b Hb. rewrite <- Hid.
    apply (H now' hb b Hnd Hget' eq_refl Hb).
Qed.

Lemma rescheduled_is_never_reminded_witness :
  exists a',
    get_appointment LifecycleExample.moved "apt-1" = Some a'
    /\ a_status a' = RESCHEDULED
    /\ forall now' hours_before b,
         In b (get_appointments_needing_reminders LifecycleExample.moved
                 now' hours_before)
         \/ In b (get_appointments_needing_confirmation
                    LifecycleExample.moved now' hours_before) ->
         a_id b <> "apt-1".
Proof.
  apply (rescheduled_is_never_reminded BookingExample.clinic1
           LifecycleExample.moved LifecycleExample.changed_on "apt-1"
           LifecycleExample.eleven).
  - exact (ids_unique _ LifecycleExampleFacts.clinic1_consistent).
  - vm_compute. reflexivity.
Defined.

(** ** Sorted views *)

Lemma insert_by_datetime_perm (x : Appointment) (xs : list Appointment) :
  Permutation (x :: xs) (insert_by_datetime x xs).
Proof.
  induction xs as [|y xs IH]; simpl; [reflexivity|].
  destruct (appointment_datetime x <=? appointment_datetime y);
    [reflexivity|].
  rewrite perm_swap. apply perm_skip. exact IH.
Qed.

Lemma sorted_by_datetime_perm (xs : list Appointment) :
  Permutation xs (sorted_by_datetime xs).
Proof.
  induction xs as [|x xs IH]; simpl; [reflexivity|].
  rewrite <- insert_by_datetime_perm. apply perm_skip. exact IH.
Qed.

Lemma insert_by_datetime_sorted (x : Appointment) (xs : list Appointment) :
  StronglySorted starts_no_later xs ->
  StronglySorted starts_no_later (insert_by_datetime x xs).
Proof.
  induction xs as [|y xs IH]; intros Hs; simpl.
  - constructor; constructor.
  - inversion Hs as [|? ? Hs' Hall]; subst.
    destruct (Z.leb_spec (appointment_datetime x) (appointment_datetime y))
      as [Hle|Hgt].
    + constructor; [exact Hs|]. constructor; [exact Hle|].
      eapply List.Forall_impl; [|exact Hall].
      intros b Hb. unfold starts_no_later in *. lia.
    + constructor; [exact (IH Hs')|].
      apply List.Forall_forall. intros b Hb.
      apply (Permutation_in _ (Permutation_sym
                                 (insert_by_datetime_perm x xs))) in Hb.
      destruct Hb as [<-|Hb].
      * unfold starts_no_later. lia.
      * exact (proj1 (List.Forall_forall _ _) Hall b Hb).
Qed.

Lemma sorted_by_datetime_sorted (xs : list Appointment) :
  StronglySorted starts_no_later (sorted_by_datetime xs).
Proof.
  induction xs as [|x xs IH]; simpl; [constructor|].
  apply insert_by_datetime_sorted. exact IH.
Qed.

Lemma on_date_iff (dt d : datetime) :
  (dt <? combine (date d) (mk_time 0 0)) = false
  /\ (combine_max (date d) <? dt) = false
  <-> date dt = date d.
Proof.
  unfold combine, combine_max, date, us_per_day, us_per_hour, us_per_minute,
    us_per_second. simpl t_hour. simpl t_minute.
  rewrite !Z.ltb_ge.
  change (24 * (60 * (60 * 1000000))) with 86400000000.
  change (60 * (60 * 1000000)) with 3600000000.
  change (60 * 1000000) with 60000000.
  pose proof (Z.div_mod dt 86400000000 ltac:(lia)).
  pose proof (Z.mod_pos_bound dt 86400000000 ltac:(lia)).
  split.
  - intros [H1 H2]. symmetry.
    apply (Z.div_unique_pos dt 86400000000 _
             (dt - 86400000000 * (d / 86400000000))); lia.
  - intros <-. lia.
Qed.

(** X17. The schedule of a doctor for a date is, in ascending order of
    start, a rearrangement of the stored appointments that pass the doctor
    filter and start on that calendar date, from 00:00:00 to 23:59:59.999999,
    whatever their status: cancelled and missed ones are listed too. *)
Theorem doctor_schedule_is_the_day (db : MedicalDatabase) (did : string)
    (date' : datetime) :
  StronglySorted starts_no_later (get_doctor_schedule db did date')
  /\ Permutation
       (List.filter
          (fun a =>
             negb (str_filter (Some did) (doctor_id a))
             && (date (appointment_datetime a) =? date date'))
          (appointments db))
       (get_doctor_schedule db did date').
Proof.
  unfold get_doctor_schedule. split; [apply sorted_by_datetime_sorted|].
  rewrite <- sorted_by_datetime_perm. unfold get_appointments.
  assert (Hext : forall a,
            negb (str_filter (Some did) (doctor_id a))
            && (date (appointment_datetime a) =? date date')
            = negb (filtered_out (Some did) None
                      (Some (combine (date date') (mk_time 0 0)))
                      (Some (combine_max (date date'))) a)).
  { intros a. unfold filtered_out.
    change (str_filter None (patient_id a)) with false.
    rewrite orb_false_r.
    destruct (str_filter (Some did) (doctor_id a)); [reflexivity|].
    pose proof (on_date_iff (appointment_datetime a) date') as H.
    destruct (Z.eqb_spec (date (appointment_datetime a)) (date date'))
      as [Heq|Hne].
    - destruct (proj2 H Heq) as [-> ->]. reflexivity.
    - destruct (_ <? combine _ _) eqn:H1; [reflexivity|].
      destruct (combine_max _ <? _) eqn:H2; [reflexivity|].
      contradiction Hne. apply H. auto. }
  rewrite (List.filter_ext _ _ Hext). reflexivity.
Qed.

(** X18. The appointments of a patient come back in ascending order of
    start, as a rearrangement of the patient's records; with
    [upcoming_only], of those records that start strictly after now, so
    that none of the listed ones has started. *)
Theorem patient_appointments_sorted (db : MedicalDatabase) (now : datetime)
    (pid : string) (upcoming_only : bool) :
  StronglySorted starts_no_later
    (get_patient_appointments db now pid upcoming_only)
  /\ Permutation
       (List.filter
          (fun a => negb upcoming_only || (now <? appointment_datetime a))
          (get_appointments db None (Some pid) None None))
       (get_patient_appointments db now pid upcoming_only)
  /\ (upcoming_only = true ->
      forall a, In a (get_patient_appointments db now pid upcoming_only) ->
        now < appointment_datetime a).
Proof.
  unfold get_patient_appointments.
  split; [apply sorted_by_datetime_sorted|]. split.
  - rewrite <- sorted_by_datetime_perm. destruct upcoming_only; simpl.
    + reflexivity.
    + induction (get_appointments db None (Some pid) None None)
        as [|a l IH]; simpl; [reflexivity|]. apply perm_skip. exact IH.
  - intros -> a Ha.
    apply (Permutation_in _ (Permutation_sym (sorted_by_datetime_perm _)))
      in Ha.
    apply List.filter_In in Ha as [_ Ha]. apply Z.ltb_lt. exact Ha.
Qed.

(** ** Statistics *)

Lemma count_status_lookup (stats : gmap string number) (a : Appointment)
    (k : string) :
  all_int stats ->
  count_status stats a !! k
  = match stats !! k with
    | Some (Int n) =>
        Some (Int (if String.eqb (AppointmentStatus_value (a_status a)) k
                   then n + 1 else n))
    | other => other
    end.
Proof.
  intros Hint. unfold count_status.
  destruct (String.eqb_spec (AppointmentStatus_value (a_status a)) k)
    as [->|Hne].
  - destruct (stats !! k) as [[n|x]|] eqn:Hk.
    + rewrite lookup_insert_eq. reflexivity.
    + destruct (Hint _ _ Hk) as [n Hn]. discriminate.
    + rewrite Hk. reflexivity.
  - destruct (stats !! AppointmentStatus_value (a_status a)) as [[n|x]|]
      eqn:Hs.
    + rewrite lookup_insert_ne by exact Hne.
      destruct (stats !! k) as [[m|y]|]; reflexivity.
    + destruct (Hint _ _ Hs) as [n Hn]. discriminate.
    + destruct (stats !! k) as [[m|y]|]; reflexivity.
Qed.

Lemma count_status_all_int (stats : gmap string number) (a : Appointment) :
  all_int stats -> all_int (count_status stats a).
Proof.
  intros Hint k v. rewrite (count_status_lookup stats a k Hint).
  destruct (stats !! k) as [[n|x]|] eqn:Hk.
  - intros [= <-]. eauto.
  - intros [= <-]. exact (Hint _ _ Hk).
  - discriminate.
Qed.

Lemma fold_count_status_lookup (xs : list Appointment)
    (stats : gmap string number) (k : string) :
  all_int stats ->
  fold_left count_status xs stats !! k
  = match stats !! k with
    | Some (Int n) =>
        Some (Int (n + len (List.filter
                              (fun a =>
                                 String.eqb
                                   (AppointmentStatus_value (a_status a)) k)
                              xs)))
    | other => other
    end.
Proof.
  revert stats. induction xs as [|a xs IH]; intros stats Hint; simpl.
  - destruct (stats !! k) as [[n|x]|]; [|reflexivity..].
    unfold len. simpl. do 2 f_equal. lia.
  - rewrite IH by (apply count_status_all_int; exact Hint).
    rewrite (count_status_lookup stats a k Hint).
    destruct (stats !! k) as [[n|x]|]; [|reflexivity..].
    destruct (String.eqb (AppointmentStatus_value (a_status a)) k);
      unfold len; simpl; do 2 f_equal; lia.
Qed.

Lemma value_filter (s : AppointmentStatus) (xs : list Appointment) :
  len (List.filter
         (fun a =>
            String.eqb (AppointmentStatus_value (a_status a))
              (AppointmentStatus_value s)) xs)
  = count_of s xs.
Proof.
  unfold count_of. f_equal. apply List.filter_ext. intros a.
  destruct (a_status a), s; reflexivity.
Qed.

Lemma filter_not_a_value (k : string) (xs : list Appointment) :
  (forall s, AppointmentStatus_value s <> k) ->
  List.filter
    (fun a => String.eqb (AppointmentStatus_value (a_status a)) k) xs = [].
Proof.
  intros Hk. induction xs as [|a xs IH]; simpl; [reflexivity|].
  destruct (String.eqb_spec (AppointmentStatus_value (a_status a)) k)
    as [Heq|_]; [|exact IH].
  contradiction (Hk _ Heq).
Qed.

(** X19. [get_appointment_statistics] never counts a no-show: the status
    value of a missed appointment is ["no_show"] and the counter is kept
    under ["no_shows"], so that entry is 0 and the rate is computed from a
    numerator of 0, however many appointments were missed.  The total and
    the other five counters are the numbers of appointments in range, all
    and by status. *)
Theorem statistics_miss_the_no_shows (db : MedicalDatabase)
    (start_date end_date : datetime) :
  let in_range :=
    get_appointments db None None (Some start_date) (Some end_date) in
  let stats := get_appointment_statistics db start_date end_date in
  stats !! "no_shows" = Some (Int 0)
  /\ stats !! "total_appointments" = Some (Int (len in_range))
  /\ (forall s, s <> NO_SHOW ->
        stats !! AppointmentStatus_value s = Some (Int (count_of s in_range)))
  /\ stats !! "no_show_rate"
     = Some (if 0 <? count_of COMPLETED in_range + count_of CANCELLED in_range
             then Float
                    (int_truediv 0
                       (count_of COMPLETED in_range
                        + count_of CANCELLED in_range) * 100)
             else Int 0).
Proof.
  intros in_range stats. unfold stats, get_appointment_statistics.
  fold in_range.
  set (stats0 := list_to_map _ : gmap string number).
  assert (Hint : all_int stats0).
  { intros k v Hk. apply elem_of_list_to_map_2 in Hk.
    repeat (apply elem_of_cons in Hk as [[= _ ->]|Hk]; [eauto|]).
    apply elem_of_nil in Hk. destruct Hk. }
  assert (Hcount : forall s, s <> NO_SHOW ->
            fold_left count_status in_range stats0
              !! AppointmentStatus_value s
            = Some (Int (count_of s in_range))).
  { intros s Hs. rewrite (fold_count_status_lookup _ _ _ Hint).
    rewrite value_filter. destruct s; try contradiction; reflexivity. }
  assert (Hns : fold_left count_status in_range stats0 !! "no_shows"
                = Some (Int 0)).
  { rewrite (fold_count_status_lookup _ _ _ Hint), filter_not_a_value
      by (intros []; discriminate).
    reflexivity. }
  split; [|split; [|split]].
  - rewrite lookup_insert_ne by discriminate. exact Hns.
  - rewrite lookup_insert_ne by discriminate.
    rewrite (fold_count_status_lookup _ _ _ Hint), filter_not_a_value
      by (intros []; discriminate).
    unfold stats0. simpl. do 2 f_equal. unfold len at 2. simpl. lia.
  - intros s Hs. rewrite lookup_insert_ne by (destruct s; discriminate).
    exact (Hcount s Hs).
  - rewrite lookup_insert_eq. unfold stat.
    pose proof (Hcount COMPLETED ltac:(discriminate)) as Hco.
    pose proof (Hcount CANCELLED ltac:(discriminate)) as Hca.
    simpl in Hco, Hca. rewrite Hco, Hca, Hns.
    rewrite Z.add_0_r. reflexivity.
Qed.

(** ** The risk list *)

Lemma add_no_show_prediction_lookup_aux (db : MedicalDatabase)
    (p : NoShowPrediction) :
  get_no_show_prediction (snd (add_no_show_prediction db p))
    (np_appointment_id p) = Some p
  /\ forall id, id <> np_appointment_id p ->
       get_no_show_prediction (snd (add_no_show_prediction db p)) id
       = get_no_show_prediction db id.
Proof.
  unfold get_no_show_prediction. simpl. split.
  - rewrite first_with_app, first_with_drop, String.eqb_refl. simpl.
    rewrite String.eqb_refl. reflexivity.
  - intros id Hne. rewrite first_with_app, first_with_drop.
    destruct (String.eqb_spec id (np_appointment_id p)); [congruence|].
    destruct (first_with np_appointment_id id (predictions db));
      [reflexivity|].
    simpl. destruct (String.eqb_spec (np_appointment_id p) id); congruence.
Qed.

(** A prediction that is computed because none was stored is stored, and
    keeps the stored ones. *)
Lemma predict_no_show_risk_stores (db db1 : MedicalDatabase) (now : datetime)
    (pid aid : string) (pr : NoShowPrediction) :
  get_no_show_prediction db aid = None ->
  predict_no_show_risk db now pid aid = (Ret pr, db1) ->
  patients db1 = patients db /\ doctors db1 = doctors db
  /\ appointments db1 = appointments db
  /\ get_no_show_prediction db1 aid = Some pr
  /\ forall id p, get_no_show_prediction db id = Some p ->
       get_no_show_prediction db1 id = Some p.
Proof.
  intros Hnone. unfold predict_no_show_risk.
  destruct (get_patient db pid) as [patient|]; [|discriminate].
  destruct (get_appointment db aid) as [appointment|]; [|discriminate].
  intros [= <- <-].
  set (pr := mk_NoShowPrediction _ _ _ _ _).
  destruct (add_no_show_prediction_lookup_aux db pr) as (Hget & Hother).
  repeat split; try reflexivity; [exact Hget|].
  intros id p Hp. rewrite Hother; [exact Hp|].
  intros ->. simpl in Hp. congruence.
Qed.

Lemma high_risk_loop_spec (now : datetime) (threshold : float)
    (todo : list Appointment) :
  forall (db db' : MedicalDatabase)
         (acc listed : list (Appointment * NoShowPrediction)),
    high_risk_loop db now threshold todo acc = (Ret listed, db') ->
    (patients db' = patients db /\ doctors db' = doctors db
     /\ appointments db' = appointments db)
    /\ (forall id p, get_no_show_prediction db id = Some p ->
          get_no_show_prediction db' id = Some p)
    /\ (forall a, In a todo -> occupies a = true ->
          exists p, get_no_show_prediction db' (a_id a) = Some p)
    /\ (forall x, In x listed ->
          In x acc
          \/ (In (fst x) todo /\ occupies (fst x) = true
              /\ (threshold <=? risk_score (snd x))%float = true
              /\ get_no_show_prediction db' (a_id (fst x)) = Some (snd x))).
Proof.
  induction todo as [|a todo IH]; intros db db' acc listed; simpl.
  - intros [= <- <-]. repeat split; auto. intros a [].
  - destruct (occupies a) eqn:Hocc.
    + set (found := match get_no_show_prediction db (a_id a) with
                    | Some prediction => (Ret prediction, db)
                    | None => predict_no_show_risk db now (patient_id a)
                                (a_id a)
                    end).
      destruct found as [[pr|e|] db1] eqn:Hfound; try discriminate.
      assert (Hstep :
        (patients db1 = patients db /\ doctors db1 = doctors db
         /\ appointments db1 = appointments db)
        /\ get_no_show_prediction db1 (a_id a) = Some pr
        /\ forall id p, get_no_show_prediction db id = Some p ->
             get_no_show_prediction db1 id = Some p).
      { unfold found in Hfound.
        destruct (get_no_show_prediction db (a_id a)) as [p0|] eqn:Hp0.
        - injection Hfound as <- <-. auto.
        - destruct (predict_no_show_risk_stores _ _ _ _ _ _ Hp0 Hfound)
            as (? & ? & ? & ? & ?). auto. }
      destruct Hstep as ((Hpa & Hdo & Hap) & Hstored & Hkeep).
      intros Hloop. apply IH in Hloop.
      destruct Hloop as ((Hpa' & Hdo' & Hap') & Hkeep' & Hall & Hlisted).
      split; [repeat split; congruence|].
      split; [intros id p Hp; exact (Hkeep' _ _ (Hkeep _ _ Hp))|].
      split.
      * intros b [<-|Hb] Hb_occ; [eauto|exact (Hall b Hb Hb_occ)].
      * intros x Hx. destruct (Hlisted x Hx) as [Hacc|(Hin & Ho & Hth & Hg)].
        -- destruct (threshold <=? risk_score pr)%float eqn:Hth;
             [|left; exact Hacc].
           apply in_app_or in Hacc as [Hacc|[<-|[]]]; [left; exact Hacc|].
           right. simpl. auto.
        -- right. auto.
    + intros Hloop. apply IH in Hloop.
      destruct Hloop as (Hsame & Hkeep & Hall & Hlisted).
      split; [exact Hsame|]. split; [exact Hkeep|]. split.
      * intros b [<-|Hb] Hb_occ; [congruence|exact (Hall b Hb Hb_occ)].
      * intros x Hx.
        destruct (Hlisted x Hx) as [|(? & ? & ? & ?)]; [left|right]; auto.
Qed.

(** X20. When [get_high_risk_appointments] returns, every scheduled or
    confirmed appointment has a stored prediction; a prediction that was
    stored before is still the stored one, so a score is computed once and
    never refreshed; each listed pair is a scheduled or confirmed
    appointment with its stored prediction, whose score is at least the
    threshold; and nothing but the prediction file has changed. *)
Theorem high_risk_list_fills_predictions (db db' : MedicalDatabase)
    (now : datetime) (threshold : float)
    (listed : list (Appointment * NoShowPrediction)) :
  get_high_risk_appointments db now threshold = (Ret listed, db') ->
  (patients db' = patients db /\ doctors db' = doctors db
   /\ appointments db' = appointments db)
  /\ (forall id p, get_no_show_prediction db id = Some p ->
        get_no_show_prediction db' id = Some p)
  /\ (forall a, In a (appointments db) -> occupies a = true ->
        exists p, get_no_show_prediction db' (a_id a) = Some p)
  /\ (forall a p, In (a, p) listed ->
        In a (appointments db) /\ occupies a = true
        /\ (threshold <=? risk_score p)%float = true
        /\ get_no_show_prediction db' (a_id a) = Some p).
Proof.
  unfold get_high_risk_appointments. rewrite get_all_appointments.
  intros Hloop. apply high_risk_loop_spec in Hloop.
  destruct Hloop as (Hsame & Hkeep & Hall & Hlisted).
  repeat split; try tauto; try (apply Hsame);
    destruct (Hlisted _ H) as [[]|(? & ? & ? & ?)]; assumption.
Qed.

Lemma high_risk_list_fills_predictions_witness :
  get_high_risk_appointments HistoryExample.history Clinic.monday 0.1%float
  = (Ret RiskListExample.listed, RiskListExample.after)
  /\ (patients RiskListExample.after = patients HistoryExample.history
      /\ doctors RiskListExample.after = doctors HistoryExample.history
      /\ appointments RiskListExample.after
         = appointments HistoryExample.history)
  /\ (forall id p,
        get_no_show_prediction HistoryExample.history id = Some p ->
        get_no_show_prediction RiskListExample.after id = Some p)
  /\ (forall a, In a (appointments HistoryExample.history) ->
        occupies a = true ->
        exists p, get_no_show_prediction RiskListExample.after (a_id a)
                  = Some p)
  /\ (forall a p, In (a, p) RiskListExample.listed ->
        In a (appointments HistoryExample.history) /\ occupies a = true
        /\ (0.1 <=? risk_score p)%float = true
        /\ get_no_show_prediction RiskListExample.after (a_id a) = Some p).
Proof.
  split; [vm_compute; reflexivity|].
  apply (high_risk_list_fills_predictions HistoryExample.history
           RiskListExample.after Clinic.monday 0.1%float
           RiskListExample.listed).
  vm_compute. reflexivity.
Defined.

(** ** Double booking *)

Lemma working_window_same_date (db : MedicalDatabase) (did : string)
    (date1 date2 : datetime) :
  date date1 = date date2 ->
  working_window db did date1 = working_window db did date2.
Proof.
  intros H. unfold working_window, day_name, weekday. rewrite H.
  reflexivity.
Qed.

(** A working window lies within the queried day. *)
Lemma working_window_bounds (db : MedicalDatabase) (did : string)
    (date' : datetime) (ws we : datetime) :
  working_window db did date' = Some (ws, we) ->
  date date' * us_per_day <= ws < (date date' + 1) * us_per_day
  /\ date date' * us_per_day <= we < (date date' + 1) * us_per_day.
Proof.
  unfold working_window.
  destruct (get_doctor db did) as [doctor|]; [|discriminate].
  destruct (working_hours doctor !! day_name date') as [hrs|];
    [|discriminate].
  destruct (strptime_HM (wh_start hrs)) as [ts| |] eqn:Hs; try discriminate.
  destruct (strptime_HM (wh_end hrs)) as [te| |] eqn:He; try discriminate.
  intros [= <- <-].
  destruct (strptime_HM_range _ _ Hs) as [Hsh Hsm].
  destruct (strptime_HM_range _ _ He) as [Heh Hem].
  unfold combine, us_per_day, us_per_hour, us_per_minute, us_per_second.
  lia.
Qed.

(** A slot that the availability output offers for a doctor is at least a
    slot away from every [SCHEDULED] appointment of that doctor, on the same
    day or on any other. *)
Lemma offered_slot_apart (db : MedicalDatabase) (did : string)
    (t : datetime) (d : Z) (slots : list datetime) (b : Appointment) :
  consistent db ->
  get_available_slots db did t d = Ret slots -> In t slots ->
  In b (appointments db) -> a_status b = SCHEDULED ->
  doctor_id b = did -> duration b = d ->
  minutes d <= Z.abs (t - appointment_datetime b).
Proof.
  intros Hc Hs Hin Hb Hst Hdoc Hdur.
  destruct (available_slot_inv _ _ _ _ _ _ Hs Hin) as (Hd & ws & we & Hw).
  destruct (counted did ws we b) eqn:Hcount.
  - exact (available_slot_free _ _ _ _ _ _ _ _ Hw Hs Hin Hb Hcount).
  - pose proof (proj1 (get_available_slots_In _ _ _ _ _ _ _ t Hw Hd Hs) Hin)
      as ((k & Hk & Ht) & Hroom & _).
    destruct (scheduled_on_grid _ Hc b Hb Hst)
      as (_ & wsb & web & Hwb & (kb & Hkb & Htb) & Hroomb).
    rewrite Hdoc, Hdur in *.
    assert (Hmin : 0 < minutes d) by (unfold minutes, us_per_minute,
                                        us_per_second; lia).
    assert (Hstep : 0 <= k * minutes d) by (apply Z.mul_nonneg_nonneg; lia).
    assert (Hstepb : 0 <= kb * minutes d)
      by (apply Z.mul_nonneg_nonneg; lia).
    destruct (Z.eq_dec (date (appointment_datetime b)) (date t)) as [He|Hne].
    + rewrite (working_window_same_date _ _ _ _ He), Hw in Hwb.
      injection Hwb as <- <-.
      unfold counted, filtered_out, str_filter, occupies in Hcount.
      rewrite Hst, Hdoc, String.eqb_refl in Hcount. simpl in Hcount.
      rewrite andb_false_r, andb_true_r in Hcount. simpl in Hcount.
      apply negb_false_iff, orb_true_iff in Hcount as [Hlow|Hhigh].
      * apply Z.ltb_lt in Hlow. lia.
      * apply Z.ltb_lt in Hhigh. lia.
    + pose proof (working_window_bounds _ _ _ _ _ Hw) as [Hws Hwe].
      pose proof (working_window_bounds _ _ _ _ _ Hwb) as [Hwsb Hweb].
      unfold us_per_day, us_per_hour, us_per_minute, us_per_second in *.
      lia.
Qed.

(** Rewriting a stored appointment into one that is not [SCHEDULED] adds no
    [SCHEDULED] appointment. *)
Lemma update_appointment_scheduled (db : MedicalDatabase) (a' x : Appointment) :
  a_status a' <> SCHEDULED ->
  In x (appointments (snd (update_appointment db a'))) ->
  a_status x = SCHEDULED ->
  In x (appointments db).
Proof.
  intros Hst. unfold update_appointment.
  destruct (replace_first a_id a' (appointments db)) as [l|] eqn:Hl; simpl;
    [|auto].
  intros Hx Hs. destruct (replace_first_In _ _ _ _ _ Hl Hx) as [->|Hold];
    [contradiction|exact Hold].
Qed.

(** A [SCHEDULED] appointment of the database after a call was there before,
    or the call is a booking that offered its slot and this is its record. *)
Lemma run_scheduled (op : operation) (db : MedicalDatabase) (x : Appointment) :
  In x (appointments (run op db)) -> a_status x = SCHEDULED ->
  In x (appointments db)
  \/ (exists new_id now pid did t ty nt doctor slots,
        op = Book new_id now pid did t ty nt
        /\ x = new_appointment new_id now pid did t
                 (appointment_duration doctor) ty nt
        /\ get_doctor db did = Some doctor
        /\ get_available_slots db did t (appointment_duration doctor)
           = Ret slots
        /\ In t slots).
Proof.
  destruct op; simpl.
  - unfold register_patient, add_patient. simpl.
    destruct (existsb _ (patients db)); simpl; auto.
  - unfold book_appointment.
    destruct (get_patient db patient_id'); [|simpl; auto].
    destruct (get_doctor db doctor_id') as [doctor|] eqn:Hdoc;
      [|simpl; auto].
    destruct (get_available_slots db doctor_id' appointment_datetime'
                (appointment_duration doctor)) as [slots| |] eqn:Hs;
      try (simpl; auto; fail).
    destruct (mem appointment_datetime' slots) eqn:Hmem; simpl;
      [|auto].
    unfold add_appointment. simpl.
    destruct (existsb _ (appointments db)) eqn:Hex; simpl; [auto|].
    intros Hx Hst. apply in_app_or in Hx as [Hx|[<-|[]]]; [auto|].
    right. apply mem_In in Hmem.
    exists new_id, now, patient_id', doctor_id', appointment_datetime',
      appointment_type', notes', doctor, slots.
    repeat split; assumption.
  - unfold reschedule_appointment.
    destruct (get_appointment db appointment_id) as [a|]; [|simpl; auto].
    destruct (get_available_slots db (doctor_id a) new_datetime (duration a))
      as [slots| |]; try (simpl; auto; fail).
    destruct (mem new_datetime slots); simpl; [|auto].
    destruct (update_appointment db (set_schedule a new_datetime RESCHEDULED
                                       now)) as [ok db1] eqn:Hup.
    simpl. intros Hx Hst. left.
    apply (update_appointment_scheduled db
             (set_schedule a new_datetime RESCHEDULED now));
      [discriminate|rewrite Hup; exact Hx|exact Hst].
  - unfold cancel_appointment.
    destruct (get_appointment db appointment_id) as [a|]; [|simpl; auto].
    intros Hx Hst. left.
    eapply update_appointment_scheduled; [|exact Hx|exact Hst].
    discriminate.
  - unfold mark_no_show.
    destruct (get_appointment db appointment_id) as [a|]; [|simpl; auto].
    intros Hx Hst. left.
    apply update_appointment_scheduled in Hx; [|discriminate|exact Hst].
    revert Hx. simpl. destruct (get_patient db (patient_id a)); [|auto].
    destruct (update_patient_fields db (count_no_show p)) as (-> & _).
    auto.
  - unfold complete_appointment.
    destruct (get_appointment db appointment_id) as [a|]; [|simpl; auto].
    intros Hx Hst. left.
    apply update_appointment_scheduled in Hx; [|discriminate|exact Hst].
    revert Hx. simpl. destruct (get_patient db (patient_id a)); [|auto].
    match goal with
    | |- context [update_patient db ?q] =>
        destruct (update_patient_fields db q) as (-> & _)
    end.
    auto.
  - unfold predict_no_show_risk.
    destruct (get_patient db patient_id'); [|simpl; auto].
    destruct (get_appointment db appointment_id); simpl; auto.
Qed.

(** Every operation keeps the doctors' diaries free of double bookings. *)
Lemma run_never_double_booked (op : operation) (db : MedicalDatabase) :
  consistent db -> never_double_booked db ->
  never_double_booked (run op db).
Proof.
  intros Hc Hn a b Ha Hb Hid Hsa Hsb Hdoc.
  destruct (run_scheduled op db a Ha Hsa)
    as [Ha_old|(ida & nowa & pa & dida & ta & tya & nta & da & sa
                & Hopa & -> & Hda & Hslots_a & Hin_a)];
    destruct (run_scheduled op db b Hb Hsb)
      as [Hb_old|(idb & nowb & pb & didb & tb & tyb & ntb & dcb & sb
                  & Hopb & -> & Hdb & Hslots_b & Hin_b)].
  - exact (Hn a b Ha_old Hb_old Hid Hsa Hsb Hdoc).
  - simpl in *.
    destruct (duration_of_doctor _ Hc a Ha_old) as (da & Hda & Hdura).
    rewrite Hdoc, Hdb in Hda. injection Hda as <-.
    rewrite Hdura.
    pose proof (offered_slot_apart db didb tb _ sb a Hc Hslots_b Hin_b
                  Ha_old Hsa Hdoc Hdura).
    lia.
  - simpl in *.
    destruct (duration_of_doctor _ Hc b Hb_old) as (dcb & Hdb & Hdurb).
    rewrite <- Hdoc, Hda in Hdb. injection Hdb as <-.
    apply (offered_slot_apart db dida ta _ sa b); try assumption.
    symmetry. exact Hdoc.
  - rewrite Hopa in Hopb. injection Hopb as <- <- <- <- <- <- <-.
    simpl in Hid. contradiction Hid. reflexivity.
Qed.

(** X12. Starting from a database without appointments, however the
    service is then used (registrations, bookings, reschedulings,
    cancellations, no-shows, completions, predictions; successful or not),
    two different appointments of one doctor that are both [SCHEDULED]
    never start closer to each other than the length of the appointment:
    among the appointments that are still [SCHEDULED], a doctor is never
    double booked. *)
Theorem doctors_are_never_double_booked (ops : list operation)
    (db : MedicalDatabase) :
  appointments db = [] ->
  never_double_booked (fold_left (fun db' op => run op db') ops db).
Proof.
  intros Hnone.
  assert (Hinv : consistent db /\ never_double_booked db).
  { split; [exact (consistent_no_appointments db Hnone)|].
    intros a b Ha. rewrite Hnone in Ha. destruct Ha. }
  clear Hnone. revert db Hinv.
  induction ops as [|op ops IH]; intros db [Hc Hn]; simpl; [exact Hn|].
  apply IH. split;
    [exact (run_consistent op db Hc)|exact (run_never_double_booked op db Hc Hn)].
Qed.

Lemma doctors_are_never_double_booked_witness :
  appointments Clinic.clinic = []
  /\ never_double_booked
       (fold_left (fun db' op => run op db')
          [Book "apt-1" BookingExample.booked_on "pat-1" "doc-1"
             BookingExample.ten "general" "";
           Book "apt-2" BookingExample.booked_on "pat-1" "doc-1"
             BookingExample.ten "general" "";
           Book "apt-3" BookingExample.booked_on "pat-1" "doc-1"
             LifecycleExample.eleven "follow_up" "";
           Cancel LifecycleExample.changed_on "apt-1" "";
           Book "apt-4" LifecycleExample.changed_on "pat-1" "doc-1"
             BookingExample.ten "general" ""]
          Clinic.clinic).
Proof.
  split; [reflexivity|].
  apply (doctors_are_never_double_booked _ Clinic.clinic). reflexivity.
Defined.

(** ** The sub-scores *)

Ltac split_ifs :=
  repeat match goal with
         | |- context [if ?b then _ else _] => destruct b
         end.

(** X21. The timing and the financial sub-score lie between 0 and 0.5 and
    the demographic one between 0 and 0.7, whatever the appointment, the
    patient and the clock: the [min(1.0, risk)] at the end of each of the
    three functions never lowers a value. *)
Theorem sub_scores_in_range (now : datetime) (patient : Patient)
    (appointment : Appointment) :
  ((0 <=? _calculate_timing_risk appointment)%float = true
   /\ (_calculate_timing_risk appointment <=? 0.5)%float = true)
  /\ ((0 <=? _calculate_demographic_risk now patient)%float = true
      /\ (_calculate_demographic_risk now patient <=? 0.7)%float = true)
  /\ ((0 <=? _calculate_financial_risk patient appointment)%float = true
      /\ (_calculate_financial_risk patient appointment <=? 0.5)%float
         = true).
Proof.
  split; [|split].
  - unfold _calculate_timing_risk, advance_booking_risk. cbv zeta.
    generalize (weekday (appointment_datetime appointment)) as w.
    generalize (hour (appointment_datetime appointment)) as h.
    generalize (td_days (appointment_datetime appointment
                         - created_at appointment)) as n.
    intros n h w.
    destruct (Z.ltb_spec 30 n); destruct (Z.ltb_spec 60 n);
      destruct (Z.ltb_spec n 1); try lia;
      split_ifs; vm_compute; split; reflexivity.
  - unfold _calculate_demographic_risk. cbv zeta.
    split_ifs; vm_compute; split; reflexivity.
  - unfold _calculate_financial_risk. cbv zeta.
    split_ifs; vm_compute; split; reflexivity.
Qed.

(** X22. The financial sub-score is above 0.3, which is when the prediction
    carries the financial label, exactly when the insurance of the
    appointment is not verified and the provider is one of the three
    unreliable ones or the insurance number has fewer than 5 characters.
    Unverified insurance with an unreliable provider gives 0.2 + 0.1, which
    in binary64 arithmetic is above 0.3. *)
Theorem financial_risk_label (patient : Patient) (appointment : Appointment) :
  (0.3 <? _calculate_financial_risk patient appointment)%float
  = negb (insurance_verified appointment)
    && (existsb (String.eqb (lower (insurance_provider patient)))
          unreliable_providers
        || (str_len (insurance_number patient) <? 5)).
Proof.
  unfold _calculate_financial_risk. cbv zeta.
  destruct (insurance_verified appointment);
    destruct (existsb _ unreliable_providers);
    destruct (str_len (insurance_number patient) <? 5);
    vm_compute; reflexivity.
Qed.

(** ** Stored values *)

(** X23. A status survives being stored and read back: [to_dict] writes the
    [value] of the enumeration member, and the lookup by value that
    [_dict_to_appointment] and [_dict_to_patient] make of it returns the
    member that was written; a string is read back as a status only if it is
    the value of that status. *)
Theorem status_round_trip :
  (forall s, AppointmentStatus_of_value (AppointmentStatus_value s) = Ret s)
  /\ (forall s, PatientStatus_of_value (PatientStatus_value s) = Ret s)
  /\ (forall v s, AppointmentStatus_of_value v = Ret s ->
        v = AppointmentStatus_value s)
  /\ (forall v s, PatientStatus_of_value v = Ret s ->
        v = PatientStatus_value s).
Proof.
  repeat split.
  - intros []; reflexivity.
  - intros []; reflexivity.
  - intros v s. unfold AppointmentStatus_of_value.
    repeat match goal with
           | |- context [String.eqb v ?k] =>
               destruct (String.eqb_spec v k) as [->|]
           end;
      intros [= <-]; reflexivity.
  - intros v s. unfold PatientStatus_of_value.
    repeat match goal with
           | |- context [String.eqb v ?k] =>
               destruct (String.eqb_spec v k) as [->|]
           end;
      intros [= <-]; reflexivity.
Qed.

(** ** The doctor file *)

(** X24. [add_doctor] refuses a stored id and writes nothing; otherwise it
    stores the doctor, whom [get_doctor] then returns, and in both cases
    every doctor who was on file is looked up as before and has the
    availability that they had, for every date and duration. *)
Theorem add_doctor_lookup (db : MedicalDatabase) (d : Doctor) :
  (forall e, get_doctor db (d_id d) = Some e -> add_doctor db d = (false, db))
  /\ (get_doctor db (d_id d) = None ->
      fst (add_doctor db d) = true
      /\ get_doctor (snd (add_doctor db d)) (d_id d) = Some d)
  /\ (forall id e, get_doctor db id = Some e ->
        get_doctor (snd (add_doctor db d)) id = Some e
        /\ forall date' duration',
             get_available_slots (snd (add_doctor db d)) id date' duration'
             = get_available_slots db id date' duration')
  /\ patients (snd (add_doctor db d)) = patients db
  /\ appointments (snd (add_doctor db d)) = appointments db
  /\ predictions (snd (add_doctor db d)) = predictions db.
Proof.
  unfold add_doctor, get_doctor.
  split; [|split; [|split]].
  - intros e He.
    destruct (existsb _ (doctors db)) eqn:Hex; [reflexivity|].
    apply first_with_None in Hex. congruence.
  - intros Hnone. rewrite (proj1 (first_with_None _ _ _) Hnone). simpl.
    split; [reflexivity|].
    rewrite first_with_app, Hnone. simpl. rewrite String.eqb_refl.
    reflexivity.
  - intros id e He.
    assert (Hsame : first_with d_id id
                      (doctors (snd (if existsb
                                          (fun e0 => String.eqb (d_id e0)
                                                       (d_id d))
                                          (doctors db)
                                     then (false, db)
                                     else (true,
                                           mk_db (patients db)
                                             (doctors db ++ [d])
                                             (appointments db)
                                             (predictions db)))))
                    = Some e).
    { destruct (existsb _ (doctors db)); simpl; [exact He|].
      rewrite first_with_app, He. reflexivity. }
    split; [exact Hsame|].
    intros date' duration'. unfold get_available_slots, get_doctor.
    rewrite Hsame, He.
    destruct (existsb _ (doctors db)); reflexivity.
  - destruct (existsb _ (doctors db)); simpl; auto.
Qed.

(** ** Notifications and the schedule *)

Lemma update_appointment_booking (db : MedicalDatabase) (a' a : Appointment) :
  get_appointment db (a_id a') = Some a -> booking a' = booking a ->
  map booking (appointments (snd (update_appointment db a')))
  = map booking (appointments db).
Proof.
  intros Hget Hb. unfold update_appointment.
  destruct (replace_first a_id a' (appointments db)) as [l|] eqn:Hl; simpl;
    [|reflexivity].
  exact (replace_first_map a_id booking a' a _ _ Hget Hb Hl).
Qed.

(** The occupied starts of a query are read off the [booking] fields. *)
Lemma occupied_by_booking (did : string) (s e : datetime)
    (xs : list Appointment) :
  forall ys, map booking xs = map booking ys ->
    map appointment_datetime
      (List.filter occupies
         (List.filter
            (fun a => negb (filtered_out (Some did) None (Some s) (Some e) a))
            xs))
    = map appointment_datetime
        (List.filter occupies
           (List.filter
              (fun a =>
                 negb (filtered_out (Some did) None (Some s) (Some e) a))
              ys)).
Proof.
  induction xs as [|x xs IH]; intros [|y ys] H; simpl in H;
    try discriminate; [reflexivity|].
  injection H as Hid Hpat Hdoc Hdt Hdur Hst Hrest.
  specialize (IH ys Hrest).
  assert (Hf : filtered_out (Some did) None (Some s) (Some e) x
               = filtered_out (Some did) None (Some s) (Some e) y)
    by (unfold filtered_out; rewrite Hdoc, Hdt; reflexivity).
  assert (Ho : occupies x = occupies y)
    by (unfold occupies; rewrite Hst; reflexivity).
  simpl. rewrite Hf.
  destruct (filtered_out (Some did) None (Some s) (Some e) y); simpl;
    [exact IH|].
  rewrite Ho. destruct (occupies y); simpl; [rewrite Hdt; f_equal|];
    exact IH.
Qed.

Lemma get_available_slots_by_booking (db db' : MedicalDatabase) :
  doctors db' = doctors db ->
  map booking (appointments db') = map booking (appointments db) ->
  forall did date' d,
    get_available_slots db' did date' d = get_available_slots db did date' d.
Proof.
  intros Hdoc Hb did date' d. unfold get_available_slots, get_doctor.
  rewrite Hdoc.
  destruct (first_with d_id did (doctors db)) as [doctor|]; [|reflexivity].
  destruct (working_hours doctor !! day_name date') as [hrs|];
    [|reflexivity].
  destruct (strptime_HM (wh_start hrs)) as [ts| |]; try reflexivity.
  destruct (strptime_HM (wh_end hrs)) as [te| |]; try reflexivity.
  simpl. unfold get_appointments.
  rewrite (occupied_by_booking did _ _ _ _ Hb). reflexivity.
Qed.

(** X25. Sending a reminder or a confirmation request, delivered or not,
    changes the id, patient, doctor, start, duration and status of no
    appointment (a confirmation request does not make an appointment
    [CONFIRMED]), nor the doctors, so every doctor's availability is as
    before, for every date and duration. *)
Theorem notifications_keep_the_schedule (db : MedicalDatabase)
    (now : datetime) (delivered : bool) (id : string) :
  (map booking
     (appointments (snd (send_appointment_reminder db now delivered id)))
   = map booking (appointments db)
   /\ forall did date' d,
        get_available_slots
          (snd (send_appointment_reminder db now delivered id)) did date' d
        = get_available_slots db did date' d)
  /\ (map booking
        (appointments
           (snd (send_appointment_confirmation db now delivered id)))
      = map booking (appointments db)
      /\ forall did date' d,
           get_available_slots
             (snd (send_appointment_confirmation db now delivered id))
             did date' d
           = get_available_slots db did date' d).
Proof.
  assert (Hup : forall a a',
            get_appointment db id = Some a -> a_id a' = a_id a ->
            booking a' = booking a ->
            doctors (snd (update_appointment db a')) = doctors db
            /\ map booking (appointments (snd (update_appointment db a')))
               = map booking (appointments db)).
  { intros a a' Hget Hid Hb.
    destruct (first_with_In _ _ _ _ Hget) as [_ Hida].
    split.
    - unfold update_appointment.
      destruct (replace_first a_id a' (appointments db)); reflexivity.
    - apply (update_appointment_booking db a' a); [|exact Hb].
      rewrite Hid, Hida. exact Hget. }
  assert (Hboth : forall db',
            doctors db' = doctors db
            /\ map booking (appointments db') = map booking (appointments db)
            -> map booking (appointments db') = map booking (appointments db)
               /\ forall did date' d,
                    get_available_slots db' did date' d
                    = get_available_slots db did date' d).
  { intros db' [Hd Hb]. split; [exact Hb|].
    exact (get_available_slots_by_booking db db' Hd Hb). }
  split; apply Hboth.
  - unfold send_appointment_reminder.
    destruct (get_appointment db id) as [a|] eqn:Hget; [|auto].
    destruct (get_patient db (patient_id a)); [|auto].
    destruct (get_doctor db (doctor_id a)); [|auto].
    destruct (reminder_sent a); [auto|].
    destruct delivered; [|auto].
    apply (Hup a); reflexivity.
  - unfold send_appointment_confirmation.
    destruct (get_appointment db id) as [a|] eqn:Hget; [|auto].
    destruct (get_patient db (patient_id a)); [|auto].
    destruct (get_doctor db (doctor_id a)); [|auto].
    destruct (confirmation_sent a); [auto|].
    destruct delivered; [|auto].
    apply (Hup a); reflexivity.
Qed.

(** ** Availability within the range of datetime *)

(** The working window of a date that is a datetime is made of datetimes. *)
Lemma working_window_is_datetime (db : MedicalDatabase) (did : string)
    (date' : datetime) (ws we : datetime) :
  working_window db did date' = Some (ws, we) -> is_datetime date' ->
  is_datetime ws /\ is_datetime we.
Proof.
  intros Hw [Hlo Hhi].
  destruct (working_window_bounds _ _ _ _ _ Hw) as [Hws Hwe].
  assert (Hd0 : 0 <= date date')
    by (apply Z.div_pos; [assumption|reflexivity]).
  assert (Hd1 : date date' <= 3652058).
  { apply Z.lt_succ_r. apply Z.div_lt_upper_bound; [reflexivity|].
    unfold datetime_max, us_per_day, us_per_hour, us_per_minute,
      us_per_second in *. lia. }
  unfold is_datetime, datetime_max, us_per_day, us_per_hour, us_per_minute,
    us_per_second in *.
  lia.
Qed.

(** X4. With a duration of zero or less and a working window that the first
    candidate fits in, [get_available_slots] never returns a list.  With a
    duration of zero the loop condition, true at the start, stays true at
    every iteration, whatever the number of iterations allowed.  With a
    negative duration the walk goes back in time and ends, after at most
    [ws / |d|] iterations, in the [OverflowError] of a sum that is not a
    datetime. *)
Theorem get_available_slots_never_returns (db : MedicalDatabase)
    (did : string) (date' : datetime) (d : Z) (ws we : datetime) :
  working_window db did date' = Some (ws, we) ->
  is_datetime date' ->
  d <= 0 -> ws + minutes d <= we ->
  (d = 0 ->
   Ranged.get_available_slots db did date' d = NoReturn
   /\ forall fuel,
        Ranged.generate_slots fuel (occupied_in db did ws we) d we ws
        = NoReturn)
  /\ (d < 0 ->
      Ranged.get_available_slots db did date' d = Raise OverflowError
      /\ forall fuel,
           (Z.to_nat (ws / minutes (- d)) < fuel)%nat ->
           Ranged.generate_slots fuel (occupied_in db did ws we) d we ws
           = Raise OverflowError).
Proof.
  intros Hw Hdate Hd Hfit.
  destruct (working_window_is_datetime _ _ _ _ _ Hw Hdate) as [Hws _].
  rewrite (ranged_get_available_slots_walk _ _ _ _ _ _ Hw).
  split.
  - intros H0.
    assert (Hle : ws <= we) by (subst d; unfold minutes in Hfit; lia).
    split; [|intros fuel]; apply generate_slots_zero; assumption.
  - intros Hneg. split; [|intros fuel Hf];
      apply generate_slots_negative; try assumption.
    unfold Ranged.slots_fuel. destruct (Z.ltb_spec 0 d); lia.
Qed.

Lemma get_available_slots_never_returns_witness :
  (Ranged.get_available_slots Clinic.clinic "doc-1" Clinic.monday 0
   = NoReturn
   /\ forall fuel,
        Ranged.generate_slots fuel
          (occupied_in Clinic.clinic "doc-1"
             (Clinic.at_time Clinic.monday 9 0)
             (Clinic.at_time Clinic.monday 17 0))
          0 (Clinic.at_time Clinic.monday 17 0)
          (Clinic.at_time Clinic.monday 9 0) = NoReturn)
  /\ Ranged.get_available_slots Clinic.clinic "doc-1" Clinic.monday (-525600)
     = Raise OverflowError.
Proof.
  split.
  - exact (proj1 (get_available_slots_never_returns Clinic.clinic "doc-1"
                    Clinic.monday 0 (Clinic.at_time Clinic.monday 9 0)
                    (Clinic.at_time Clinic.monday 17 0)
                    ltac:(vm_compute; reflexivity)
                    ltac:(vm_compute; split; discriminate)
                    ltac:(lia)
                    ltac:(vm_compute; discriminate))
             eq_refl).
  - exact (proj1 (proj2 (get_available_slots_never_returns Clinic.clinic
                           "doc-1" Clinic.monday (-525600)
                           (Clinic.at_time Clinic.monday 9 0)
                           (Clinic.at_time Clinic.monday 17 0)
                           ltac:(vm_compute; reflexivity)
                           ltac:(vm_compute; split; discriminate)
                           ltac:(lia)
                           ltac:(vm_compute; discriminate))
                    ltac:(lia))).
Defined.

(** X5. On a day without a counted appointment and for a positive duration,
    the outcome is decided by the last sum of the walk, the first candidate
    end beyond the end of the window.  When that sum is a datetime, the
    availability output is the whole grid: the starts [ws + k*d] for [k]
    below the number of durations that fit in the window, rounded down; so
    it is empty when the window is shorter than one duration.  When it is
    not, the call raises [OverflowError] and returns no list, however many
    slots the window has. *)
Theorem free_day_slots (db : MedicalDatabase) (did : string)
    (date' : datetime) (d : Z) (ws we : datetime) :
  working_window db did date' = Some (ws, we) ->
  is_datetime date' ->
  0 < d ->
  occupied_in db did ws we = [] ->
  (last_probe d ws we <= datetime_max ->
   Ranged.get_available_slots db did date' d
   = Ret (grid ws d (Z.to_nat ((we - ws) / minutes d)))
   /\ (we - ws < minutes d ->
       Ranged.get_available_slots db did date' d = Ret []))
  /\ (datetime_max < last_probe d ws we ->
      Ranged.get_available_slots db did date' d = Raise OverflowError).
Proof.
  intros Hw Hdate Hd Hocc.
  destruct (working_window_is_datetime _ _ _ _ _ Hw Hdate)
    as [[Hws _] [_ Hwe]].
  rewrite (ranged_get_available_slots_walk _ _ _ _ _ _ Hw), Hocc.
  pose proof (minutes_pos d Hd) as Hm.
  assert (Hfuel : (Z.to_nat ((we - ws) / minutes d)
                   < Ranged.slots_fuel d ws we)%nat)
    by (unfold Ranged.slots_fuel; destruct (Z.ltb_spec 0 d); lia).
  destruct (generate_slots_positive [] d we (Ranged.slots_fuel d ws we) ws
              Hd Hws Hwe Hfuel) as [Hin Hover].
  split; [|exact Hover].
  intros Hprobe. rewrite (Hin Hprobe).
  rewrite generate_slots_free by assumption.
  split; [reflexivity|]. intros Hshort.
  assert ((we - ws) / minutes d <= 0).
  { destruct (Z.lt_ge_cases (we - ws) 0).
    - assert ((we - ws) / minutes d < 0) by (apply Z.div_lt_upper_bound; lia).
      lia.
    - rewrite Z.div_small by lia. lia. }
  replace (Z.to_nat ((we - ws) / minutes d)) with O by lia. reflexivity.
Qed.

Lemma free_day_slots_witness :
  Ranged.get_available_slots Clinic.clinic "doc-1" Clinic.monday 30
  = Ret (grid (Clinic.at_time Clinic.monday 9 0) 30
           (Z.to_nat ((Clinic.at_time Clinic.monday 17 0
                       - Clinic.at_time Clinic.monday 9 0) / minutes 30)))
  /\ Ranged.get_available_slots Clinic.clinic "doc-1" Clinic.monday
       10000000000
     = Raise OverflowError.
Proof.
  split.
  - exact (proj1 (proj1 (free_day_slots Clinic.clinic "doc-1" Clinic.monday
                           30 (Clinic.at_time Clinic.monday 9 0)
                           (Clinic.at_time Clinic.monday 17 0)
                           ltac:(vm_compute; reflexivity)
                           ltac:(vm_compute; split; discriminate)
                           ltac:(lia)
                           ltac:(reflexivity))
                    ltac:(vm_compute; discriminate))).
  - exact (proj2 (free_day_slots Clinic.clinic "doc-1" Clinic.monday
                    10000000000
                    (Clinic.at_time Clinic.monday 9 0)
                    (Clinic.at_time Clinic.monday 17 0)
                    ltac:(vm_compute; reflexivity)
                    ltac:(vm_compute; split; discriminate)
                    ltac:(lia)
                    ltac:(reflexivity))
             ltac:(vm_compute; reflexivity)).
Defined.
